(** * go-cryptomus: the request signer and the request dispatcher

    A shallow embedding of the Go client library for the Cryptomus payment
    API, and the properties of its signing protocol, of its request
    dispatch and of its handling of the response envelope.

    The repository holds several revisions of some files side by side.
    Where two revisions differ in behaviour both are embedded, each in a
    module named after the place it comes from:
    - [sign.go]: [signRequest], [VerifySign];
    - [cryptomus.go]: [fetch] by plain concatenation of base and endpoint
      (module [Concat]) and [fetch] through [joinURL] (module [Joined]);
    - the recurrence operations (two revisions, equal up to comments);
    - [exchange.go]: three revisions of [ListExchangeRates]
      (modules [ExchangeA], [ExchangeB], [ExchangeC]).

    Go's standard library is not part of the repository.  What the code
    needs from it is either written out (MD5 after RFC 1321, base64 and
    hex after RFC 4648, path.Join and path.Clean after their documented
    rules, the ASCII part of strings.TrimSpace, the layout that
    encoding/json gives to maps, slices and structs) or taken as a
    parameter: the class [JSONLib] holds the scanner of encoding/json and
    its text for numbers and string literals, the class [NetLib] holds
    net/url, the method check of net/http, the Unicode part of
    strings.TrimSpace and the typed decoders of the response bodies. *)

From Stdlib Require Import ZArith Lia List Ascii String.
From Stdlib.Strings Require Import Byte.
From stdpp Require Import gmap strings list fin_maps sorting pretty.

Set Warnings "-register-all".
Local Open Scope Z_scope.

(** ** Go's byte slices and strings *)

(** A Go [string] is an immutable byte sequence: [string] here.  A [[]byte]
    is [list byte].  [[]byte(s)] and [string(b)] copy the bytes. *)
Abbreviation bytes := (list byte).

Definition bytes_of_string (s : string) : bytes := list_byte_of_string s.
Definition string_of_bytes (b : bytes) : string := string_of_list_byte b.

Definition byte_val (b : byte) : Z := Z.of_N (Byte.to_N b).
Definition byte_of_Z (z : Z) : byte :=
  match Byte.of_N (Z.to_N (z mod 256)) with
  | Some b => b
  | None => x00
  end.

(** ** encoding/hex *)

Definition hextable : string := "0123456789abcdef".

Definition table_at (table : string) (i : Z) : ascii :=
  match String.get (Z.to_nat i) table with
  | Some c => c
  | None => "000"%char
  end.

(** [hex.EncodeToString]: for every byte [v], [hextable[v>>4]] and then
    [hextable[v&0x0f]]. *)
Fixpoint hex_EncodeToString (src : bytes) : string :=
  match src with
  | [] => EmptyString
  | v :: rest =>
      String (table_at hextable (Z.shiftr (byte_val v) 4))
        (String (table_at hextable (Z.land (byte_val v) 15))
           (hex_EncodeToString rest))
  end.

(** The inverse direction, [hex.DecodeString] restricted to lower case. *)
Definition fromHexChar (c : ascii) : option Z :=
  let n := Z.of_N (N_of_ascii c) in
  if (48 <=? n) && (n <=? 57) then Some (n - 48)
  else if (97 <=? n) && (n <=? 102) then Some (n - 97 + 10)
  else None.

Fixpoint hex_DecodeString (s : string) : option bytes :=
  match s with
  | EmptyString => Some []
  | String hi (String lo rest) =>
      match fromHexChar hi, fromHexChar lo, hex_DecodeString rest with
      | Some a, Some b, Some tl => Some (byte_of_Z (Z.lor (Z.shiftl a 4) b) :: tl)
      | _, _, _ => None
      end
  | String _ EmptyString => None
  end.

Definition is_lower_hex (c : ascii) : bool :=
  let n := Z.of_N (N_of_ascii c) in
  ((48 <=? n) && (n <=? 57)) || ((97 <=? n) && (n <=? 102)).

(** A check of one byte, run over all 256 of them in the proofs: its two
    digits are lower-case hexadecimal and decode to the byte. *)
Definition hex_byte_ok (v : byte) : bool :=
  let hi := table_at hextable (Z.shiftr (byte_val v) 4) in
  let lo := table_at hextable (Z.land (byte_val v) 15) in
  is_lower_hex hi && is_lower_hex lo
  && match fromHexChar hi, fromHexChar lo with
     | Some a, Some b => Byte.eqb (byte_of_Z (Z.lor (Z.shiftl a 4) b)) v
     | _, _ => false
     end.

Fixpoint all_below (k : nat) (P : nat -> bool) : bool :=
  match k with
  | O => true
  | S k' => P k' && all_below k' P
  end.

(** ** encoding/base64, [StdEncoding] *)

Definition encodeStd : string :=
  "ABCDEFGHIJKLMNOPQRSTUVWXYZabcdefghijklmnopqrstuvwxyz0123456789+/".

Definition StdPadding : ascii := "="%char.

(** [base64.StdEncoding.EncodeToString]: three source bytes give four
    characters; a remainder of one or two bytes is padded with [=]. *)
Fixpoint base64_EncodeToString (src : bytes) : string :=
  match src with
  | [] => EmptyString
  | [a] =>
      let val := Z.shiftl (byte_val a) 16 in
      String (table_at encodeStd (Z.land (Z.shiftr val 18) 63))
        (String (table_at encodeStd (Z.land (Z.shiftr val 12) 63))
           (String StdPadding (String StdPadding EmptyString)))
  | [a; b] =>
      let val := Z.lor (Z.shiftl (byte_val a) 16) (Z.shiftl (byte_val b) 8) in
      String (table_at encodeStd (Z.land (Z.shiftr val 18) 63))
        (String (table_at encodeStd (Z.land (Z.shiftr val 12) 63))
           (String (table_at encodeStd (Z.land (Z.shiftr val 6) 63))
              (String StdPadding EmptyString)))
  | a :: b :: c :: rest =>
      let val := Z.lor (Z.lor (Z.shiftl (byte_val a) 16) (Z.shiftl (byte_val b) 8))
                   (byte_val c) in
      String (table_at encodeStd (Z.land (Z.shiftr val 18) 63))
        (String (table_at encodeStd (Z.land (Z.shiftr val 12) 63))
           (String (table_at encodeStd (Z.land (Z.shiftr val 6) 63))
              (String (table_at encodeStd (Z.land val 63))
                 (base64_EncodeToString rest))))
  end.

(** ** crypto/md5 (RFC 1321) *)

Module MD5.

Definition u32 (x : Z) : Z := x mod 2 ^ 32.

Definition rotl (x s : Z) : Z :=
  u32 (Z.lor (Z.shiftl x s) (Z.shiftr x (32 - s))).

Definition not32 (x : Z) : Z := Z.lxor x 4294967295.

(** The sine table: [T i = floor (2^32 * abs (sin (i + 1)))]. *)
Definition T : list Z :=
  [ 0xd76aa478; 0xe8c7b756; 0x242070db; 0xc1bdceee;
    0xf57c0faf; 0x4787c62a; 0xa8304613; 0xfd469501;
    0x698098d8; 0x8b44f7af; 0xffff5bb1; 0x895cd7be;
    0x6b901122; 0xfd987193; 0xa679438e; 0x49b40821;
    0xf61e2562; 0xc040b340; 0x265e5a51; 0xe9b6c7aa;
    0xd62f105d; 0x02441453; 0xd8a1e681; 0xe7d3fbc8;
    0x21e1cde6; 0xc33707d6; 0xf4d50d87; 0x455a14ed;
    0xa9e3e905; 0xfcefa3f8; 0x676f02d9; 0x8d2a4c8a;
    0xfffa3942; 0x8771f681; 0x6d9d6122; 0xfde5380c;
    0xa4beea44; 0x4bdecfa9; 0xf6bb4b60; 0xbebfbc70;
    0x289b7ec6; 0xeaa127fa; 0xd4ef3085; 0x04881d05;
    0xd9d4d039; 0xe6db99e5; 0x1fa27cf8; 0xc4ac5665;
    0xf4292244; 0x432aff97; 0xab9423a7; 0xfc93a039;
    0x655b59c3; 0x8f0ccc92; 0xffeff47d; 0x85845dd1;
    0x6fa87e4f; 0xfe2ce6e0; 0xa3014314; 0x4e0811a1;
    0xf7537e82; 0xbd3af235; 0x2ad7d2bb; 0xeb86d391 ].

(** Per-round shift amounts. *)
Definition S : list Z :=
  [ 7; 12; 17; 22; 7; 12; 17; 22; 7; 12; 17; 22; 7; 12; 17; 22;
    5; 9; 14; 20; 5; 9; 14; 20; 5; 9; 14; 20; 5; 9; 14; 20;
    4; 11; 16; 23; 4; 11; 16; 23; 4; 11; 16; 23; 4; 11; 16; 23;
    6; 10; 15; 21; 6; 10; 15; 21; 6; 10; 15; 21; 6; 10; 15; 21 ].

Record digest_state := State { sa : Z; sb : Z; sc : Z; sd : Z }.

Definition init : digest_state :=
  State 0x67452301 0xefcdab89 0x98badcfe 0x10325476.

(** One of the 64 operations of a block; [M] holds its 16 words. *)
Definition step (M : list Z) (st : digest_state) (i : nat) : digest_state :=
  let '(State a b c d) := st in
  let iz := Z.of_nat i in
  let '(f, g) :=
    if iz <? 16 then
      (Z.lor (Z.land b c) (Z.land (not32 b) d), iz)
    else if iz <? 32 then
      (Z.lor (Z.land d b) (Z.land (not32 d) c), (5 * iz + 1) mod 16)
    else if iz <? 48 then
      (Z.lxor (Z.lxor b c) d, (3 * iz + 5) mod 16)
    else
      (Z.lxor c (Z.lor b (not32 d)), (7 * iz) mod 16) in
  let x := u32 (f + a + nth i T 0 + nth (Z.to_nat g) M 0) in
  State d (u32 (b + rotl x (nth i S 0))) b c.

Definition block (st : digest_state) (M : list Z) : digest_state :=
  let '(State a b c d) := fold_left (step M) (seq 0 64) st in
  State (u32 (sa st + a)) (u32 (sb st + b)) (u32 (sc st + c)) (u32 (sd st + d)).

(** Little-endian packing of 32-bit and 64-bit quantities. *)
Definition le_bytes (n : nat) (x : Z) : list Z :=
  map (fun k => Z.land (Z.shiftr x (8 * Z.of_nat k)) 255) (seq 0 n).

Fixpoint le_words (l : list Z) : list Z :=
  match l with
  | b0 :: b1 :: b2 :: b3 :: rest =>
      Z.lor (Z.lor b0 (Z.shiftl b1 8)) (Z.lor (Z.shiftl b2 16) (Z.shiftl b3 24))
        :: le_words rest
  | _ => []
  end.

(** Padding: one [0x80], zeros up to 56 modulo 64, the bit length on 64
    bits. *)
Definition pad (msg : list Z) : list Z :=
  let n := length msg in
  msg ++ [128] ++ repeat 0 ((119 - n mod 64) mod 64)%nat
      ++ le_bytes 8 ((8 * Z.of_nat n) mod 2 ^ 64).

Fixpoint blocks (fuel : nat) (st : digest_state) (words : list Z) : digest_state :=
  match fuel with
  | O => st
  | Datatypes.S fuel' =>
      match words with
      | [] => st
      | _ => blocks fuel' (block st (firstn 16 words)) (skipn 16 words)
      end
  end.

(** [md5.Sum]: the 16 bytes of the digest. *)
Definition Sum (data : bytes) : bytes :=
  let words := le_words (pad (map byte_val data)) in
  let '(State a b c d) := blocks (length words) init words in
  map byte_of_Z (le_bytes 4 a ++ le_bytes 4 b ++ le_bytes 4 c ++ le_bytes 4 d).

End MD5.

(** ** Errors and results *)

(** A Go [error] is kept as the call that built it: [errors.New] with its
    text, [fmt.Errorf] with its format and arguments (an argument of the
    verb [%w] is the wrapped error), or an error handed back by the standard
    library or by the transport. *)
Inductive error :=
| errors_New (text : string)
| fmt_Errorf (format : string) (args : list arg)
| Foreign (text : string)
with arg :=
| AInt (n : Z)
| AStr (s : string)
| AErrors (m : gmap string (list string))
| AErr (err : error).

(** A Go pair [(value, error)] with the invariant of the code base: the
    value is meaningful only when the error is [nil]. *)
Inductive result (A : Type) :=
| Ok (a : A)
| Err (e : error).
Arguments Ok {A} a.
Arguments Err {A} e.

(** The error taxonomy of the design, as the values the code builds. *)
Definition EmptyKeyError : error := errors_New "API key cannot be empty".
Definition MissingSignatureError : error := errors_New "missing signature field in request body".
Definition InvalidSignatureError : error := errors_New "invalid signature".
Definition EmptyResultError : error := errors_New "API response result is nil".
Definition RemoteStateError (state : Z) : error :=
  fmt_Errorf "API returned non-zero state: %d" [AInt state].
Definition RemoteValidationError (errs : gmap string (list string)) : error :=
  fmt_Errorf "validation errors: %v" [AErrors errs].

(** ** sign.go: [signRequest] *)

(** Neither [signRequest] nor [VerifySign] reads its receiver. *)

Definition signRequest (apiKey : string) (reqBody : bytes) : result string :=
  if decide (apiKey = "") then
    Err (errors_New "API key cannot be empty")
  else
    let data := base64_EncodeToString reqBody in
    let hash := MD5.Sum (bytes_of_string (data +:+ apiKey)) in
    Ok (hex_EncodeToString hash).

(** ** encoding/json *)

(** A JSON document as received, in the order of its text.  A string is
    held unescaped, a number as the [float64] it converts to ([F]). *)
Inductive json (F : Type) :=
| JNull
| JBool (b : bool)
| JNumber (f : F)
| JString (s : string)
| JArray (elems : list (json F))
| JObject (members : list (string * json F)).
Arguments JNull {F}.
Arguments JBool {F} b.
Arguments JNumber {F} f.
Arguments JString {F} s.
Arguments JArray {F} elems.
Arguments JObject {F} members.

(** What [json.Unmarshal] stores in an [interface{}]: [nil], [bool],
    [float64], [string], [[]interface{}] and [map[string]interface{}]. *)
Inductive value (F : Type) :=
| VNil
| VBool (b : bool)
| VFloat64 (f : F)
| VString (s : string)
| VSlice (elems : list (value F))
| VMap (m : gmap string (value F)).
Arguments VNil {F}.
Arguments VBool {F} b.
Arguments VFloat64 {F} f.
Arguments VString {F} s.
Arguments VSlice {F} elems.
Arguments VMap {F} m.

(** What the code takes from encoding/json without reproducing it: the
    scanner that turns the received bytes into a document, and the text
    of the two scalar kinds whose encoding has many cases. *)
Class JSONLib := {
  (** the finite [float64] values *)
  float64 : Type;
  (** the scanner; [None] on a syntax error *)
  json_parse : bytes -> option (json float64);
  (** the encoder's text of a number *)
  json_encodeFloat : float64 -> string;
  (** the encoder's quoted and escaped string literal *)
  json_encodeString : string -> string;
}.

(** [strings.Join]. *)
Fixpoint strings_Join (elems : list string) (sep : string) : string :=
  match elems with
  | [] => ""
  | [e] => e
  | e :: rest => e +:+ sep +:+ strings_Join rest sep
  end.

(** Go's [<] on strings compares byte by byte; [key_le] is its reflexive
    closure on the keys of map entries. *)
Definition key_le {A} (x y : string * A) : Prop := String.le x.1 y.1.

#[local] Instance key_le_dec {A} (x y : string * A) : Decision (key_le x y).
Proof. unfold key_le. apply _. Defined.

(** The encoder sorts the entries of a map by key before it writes them. *)
Definition sorted_entries {A} (m : gmap string A) : list (string * A) :=
  merge_sort key_le (map_to_list m).

Section JSON.
Context `{JSONLib}.

(** The decoder, object by object: the members are stored into a fresh
    map in the order of the text, a later duplicate replacing an earlier
    one. *)
Fixpoint to_interface (j : json float64) : value float64 :=
  match j with
  | JNull => VNil
  | JBool b => VBool b
  | JNumber f => VFloat64 f
  | JString s => VString s
  | JArray elems => VSlice (map to_interface elems)
  | JObject members =>
      VMap (fold_left (fun m kv => let '(k, v) := kv in <[k := to_interface v]> m)
              members ∅)
  end.

Definition object_to_map (members : list (string * json float64))
  : gmap string (value float64) :=
  fold_left (fun m kv => let '(k, v) := kv in <[k := to_interface v]> m) members ∅.

(** A variable of type [map[string]interface{}]: [None] is the nil map. *)
Definition gomap := option (gmap string (value float64)).

(** [json.Unmarshal(data, &m)] for a nil [m] of that type: [null] leaves
    [m] nil, an object fills a fresh map, anything else is a type
    error. *)
Definition json_Unmarshal_map (data : bytes) : result gomap :=
  match json_parse data with
  | None => Err (Foreign "invalid character")
  | Some JNull => Ok None
  | Some (JObject members) => Ok (Some (object_to_map members))
  | Some _ =>
      Err (Foreign "json: cannot unmarshal into Go value of type map[string]interface {}")
  end.

(** [m[key]] and [delete(m, key)]; both accept the nil map. *)
Definition gomap_index (m : gomap) (key : string) : option (value float64) :=
  match m with
  | None => None
  | Some m => m !! key
  end.

Definition gomap_delete (m : gomap) (key : string) : gomap :=
  match m with
  | None => None
  | Some m => Some (delete key m)
  end.

(** The type assertion [v.(string)] in its two-result form. *)
Definition assert_string (v : option (value float64)) : string * bool :=
  match v with
  | Some (VString s) => (s, true)
  | _ => ("", false)
  end.

(** The encoder on decoded values: arrays in order, maps with their
    entries sorted by key. *)
Fixpoint encode (v : value float64) : string :=
  match v with
  | VNil => "null"
  | VBool true => "true"
  | VBool false => "false"
  | VFloat64 f => json_encodeFloat f
  | VString s => json_encodeString s
  | VSlice elems => "[" +:+ strings_Join (map encode elems) "," +:+ "]"
  | VMap m =>
      "{" +:+ strings_Join
                (map (fun kv => json_encodeString kv.1 +:+ ":" +:+ kv.2)
                   (sorted_entries (encode <$> m))) ","
          +:+ "}"
  end.

(** [json.Marshal] of a [map[string]interface{}].  It fails on values
    that JSON cannot hold (NaN, channels, ...); a map that was filled by
    the decoder holds none, and the nil map is written as [null]. *)
Definition json_Marshal_map (m : gomap) : result bytes :=
  match m with
  | None => Ok (bytes_of_string "null")
  | Some m => Ok (bytes_of_string (encode (VMap m)))
  end.

(** ** sign.go: [VerifySign] *)

(** The returned [error]: [None] is [nil]. *)
Definition VerifySign (apiKey : string) (reqBody : bytes) : option error :=
  match json_Unmarshal_map reqBody with
  | Err err => Some (fmt_Errorf "failed to unmarshal request body: %w" [AErr err])
  | Ok jsonBody =>
      let '(reqSign, ok) := assert_string (gomap_index jsonBody "sign") in
      if negb ok then Some (errors_New "missing signature field in request body")
      else
        let jsonBody := gomap_delete jsonBody "sign" in
        match json_Marshal_map jsonBody with
        | Err err => Some (fmt_Errorf "failed to marshal modified request body: %w" [AErr err])
        | Ok modifiedBody =>
            match signRequest apiKey modifiedBody with
            | Err err =>
                Some (fmt_Errorf "failed to generate expected signature: %w" [AErr err])
            | Ok expectedSign =>
                if decide (reqSign ≠ expectedSign) then Some (errors_New "invalid signature")
                else None
            end
        end
  end.

(** The value of [modifiedBody] in [VerifySign] (lines 40, 52 and 55),
for a body that gets that far. *)
Definition modifiedBody_of (reqBody : bytes) : result bytes :=
  match json_Unmarshal_map reqBody with
  | Err err => Err err
  | Ok jsonBody => json_Marshal_map (gomap_delete jsonBody "sign")
  end.

(** The text of one field of an encoded object. *)
Definition field_text (kv : string * string) : string :=
  json_encodeString kv.1 +:+ ":" +:+ kv.2.

(** *** The two claims on [VerifySign], as the specification words them *)

(** "verify(K, body) succeeds iff the sign field equals sign(K,
canonicalize(body minus sign field))", with a missing-signature error
when there is no string-typed [sign] and an invalid-signature error when
the comparison fails: stated for a key [K] and a body. *)
Definition VerifySign_as_specified (K : string) (body : bytes) : Prop :=
  forall members,
    json_parse body = Some (JObject members) ->
    let m := object_to_map members in
    let canonical := bytes_of_string (encode (VMap (delete "sign" m))) in
    match m !! "sign" with
    | Some (VString s) =>
        (VerifySign K body = None <-> signRequest K canonical = Ok s)
        /\ (signRequest K canonical ≠ Ok s ->
            VerifySign K body = Some InvalidSignatureError)
    | _ => VerifySign K body = Some MissingSignatureError
    end.

(** A serialization that keeps the fields in the order of the received
text. *)
Definition encode_in_received_order (members : list (string * json float64)) : string :=
  "{" +:+ strings_Join
            (map (fun kv => field_text (kv.1, encode (to_interface kv.2))) members) ","
      +:+ "}".

(** "preserve received-field order through
deserialization-then-filter-then-reserialize": stated for a body. *)
Definition order_preserved (body : bytes) : Prop :=
  forall members,
    json_parse body = Some (JObject members) ->
    modifiedBody_of body
    = Ok (bytes_of_string
            (encode_in_received_order (filter (fun kv => kv.1 ≠ "sign") members))).

End JSON.

(** ** strings, path, net/url *)

(** The value of a byte of a string. *)
Definition code (c : ascii) : Z := Z.of_N (N_of_ascii c).

(** [strings.TrimSpace].  The library trims ASCII white space itself and
    hands over to [TrimFunc(_, unicode.IsSpace)] at the first byte
    outside ASCII; the two hand-over targets are parameters. *)
Fixpoint TrimSpace_start (s : string) : string * bool :=
  match s with
  | EmptyString => (EmptyString, false)
  | String c rest =>
      if 128 <=? code c then (s, true)
      else if Ascii.is_space c then TrimSpace_start rest
      else (s, false)
  end.

Definition strings_TrimSpace (TrimFunc_IsSpace TrimRightFunc_IsSpace : string -> string)
    (s : string) : string :=
  let '(fromStart, nonASCII) := TrimSpace_start s in
  if nonASCII then TrimFunc_IsSpace fromStart
  else
    let '(revKept, nonASCII) := TrimSpace_start (String.rev fromStart) in
    if nonASCII then TrimRightFunc_IsSpace (String.rev revKept)
    else String.rev revKept.

(** The elements of a slash-separated path, empty ones included. *)
Fixpoint split_slash_go (cur : string) (s : string) : list string :=
  match s with
  | EmptyString => [String.rev cur]
  | String c rest =>
      if decide (c = "/"%char) then String.rev cur :: split_slash_go EmptyString rest
      else split_slash_go (String c cur) rest
  end.

Definition split_slash (s : string) : list string := split_slash_go EmptyString s.

Definition rooted (s : string) : bool :=
  match s with
  | String "/" _ => true
  | _ => false
  end.

(** [path.Clean], by its documented rules: slashes are collapsed, [.]
    elements dropped, an inner [..] removes the element before it, a
    [..] at the start of a rooted path is dropped; the empty result is
    [.].  [stack] holds the elements kept so far, the last one first. *)
Fixpoint clean_elems (isRooted : bool) (stack : list string) (elems : list string)
    : list string :=
  match elems with
  | [] => reverse stack
  | e :: rest =>
      if decide (e = "") then clean_elems isRooted stack rest
      else if decide (e = ".") then clean_elems isRooted stack rest
      else if decide (e = "..") then
        match stack with
        | top :: below =>
            if decide (top = "..") then clean_elems isRooted (e :: stack) rest
            else clean_elems isRooted below rest
        | [] =>
            if isRooted then clean_elems isRooted stack rest
            else clean_elems isRooted (e :: stack) rest
        end
      else clean_elems isRooted (e :: stack) rest
  end.

Definition path_Clean (p : string) : string :=
  let out := (if rooted p then "/" else "")
               +:+ strings_Join (clean_elems (rooted p) [] (split_slash p)) "/" in
  if decide (out = "") then "." else out.

(** [path.Join]: the non-empty elements joined by slashes and then
    cleaned; the empty string when every element is empty. *)
Definition path_Join (elem : list string) : string :=
  match filter (fun e => e ≠ "") elem with
  | [] => ""
  | nonEmpty => path_Clean (strings_Join nonEmpty "/")
  end.

(** The path whose elements are [elems], rooted or not: what a join that
    neither doubles a separator nor drops an element has to produce. *)
Definition path_of_elems (isRooted : bool) (elems : list string) : string :=
  let out := (if isRooted then "/" else "") +:+ strings_Join elems "/" in
  if decide (out = "") then "." else out.

(** [url.URL]: the path, and whatever else the parser keeps. *)
Record URL (O : Type) := mkURL { Path : string; url_other : O }.
Arguments mkURL {O} Path url_other.
Arguments Path {O} u.
Arguments url_other {O} u.

(** ** net/http *)

Record Request := mkRequest {
  Method : string;
  RequestURL : string;
  Header : gmap string string;
  Body : bytes;
}.

Record Response := mkResponse {
  Status : string;
  StatusCode : Z;
  ResponseBody : bytes;
}.

(** The injected transport, [http.Client.Do]. *)
Definition http_Client := Request -> result Response.

(** [req.Header.Set] (header names are kept as the code writes them). *)
Definition Header_Set (req : Request) (key val : string) : Request :=
  mkRequest (Method req) (RequestURL req) (<[key := val]> (Header req)) (Body req).

(** ** The effects of a call *)

(** What a call leaves behind: the requests handed to the transport and
    the lines printed on standard output, both oldest first. *)
Record World := mkWorld {
  sent : list Request;
  stdout : list string;
}.

Definition IO (A : Type) : Type := World -> A * World.

#[local] Instance IO_ret : MRet IO := fun A a w => (a, w).
#[local] Instance IO_bind : MBind IO :=
  fun A B k m w => let '(a, w') := m w in k a w'.

Definition client_Do (client : http_Client) (req : Request) : IO (result Response) :=
  fun w => (client req, mkWorld (sent w ++ [req]) (stdout w)).

Definition newline : string := String (ascii_of_nat 10) EmptyString.

Definition fmt_Printf (line : string) : IO unit :=
  fun w => (tt, mkWorld (sent w) (stdout w ++ [line])).

(** ** The request and response shapes *)

(** [time.Time], as an instant in nanoseconds since the Unix epoch. *)
Definition time_Time := Z.

Record RecurrenceRequest := mkRecurrenceRequest {
  req_Amount : string;
  req_Currency : string;
  req_Name : string;
  req_Period : string;
  req_ToCurrency : string;
  req_OrderId : string;
  req_UrlCallback : string;
  req_DiscountDays : option Z;
  req_DiscountAmount : string;
  req_AdditionalData : string;
}.

Record Recurrence := mkRecurrence {
  UUID : string;
  Name : string;
  OrderId : string;
  Amount : string;
  Currency : string;
  PayerCurrency : string;
  PayerAmountUSD : string;
  PayerAmount : string;
  UrlCallback : string;
  Period : string;
  RecurrenceStatus : string;
  Url : string;
  LastPayOff : option time_Time;
  DiscountDays : option Z;
  DiscountAmount : string;
  EndOfDiscount : option time_Time;
  AdditionalData : string;
}.

(** [recurrenceRawResponse]; a nil pointer is [None]. *)
Record recurrenceRawResponse := mkRecurrenceRaw {
  rec_State : Z;
  rec_Result : option Recurrence;
}.

Record RecurrenceInfoRequest := mkRecurrenceInfoRequest {
  info_UUID : string;
  info_OrderId : string;
}.

(** [recurrenceInfoRawResponse]; a nil map is [None], which differs from
    the empty map that the decoder builds for [{}]. *)
Record recurrenceInfoRawResponse := mkRecurrenceInfoRaw {
  infoRaw_State : Z;
  infoRaw_Result : option Recurrence;
  infoRaw_Errors : option (gmap string (list string));
}.

Record RecurrencePaginate := mkRecurrencePaginate {
  Count : Z;
  HasPages : bool;
  NextCursor : string;
  PreviousCursor : string;
  PerPage : Z;
}.

Record RecurrenceListResponse := mkRecurrenceListResponse {
  Items : list (option Recurrence);
  Paginate : option RecurrencePaginate;
}.

Record recurrenceListRawResponse := mkRecurrenceListRaw {
  list_State : Z;
  list_Result : option RecurrenceListResponse;
}.

Record RecurrenceCancelRequest := mkRecurrenceCancelRequest {
  cancel_UUID : string;
  cancel_OrderId : string;
}.

Record recurrenceCancelRawResponse := mkRecurrenceCancelRaw {
  cancelRaw_State : Z;
  cancelRaw_Result : option Recurrence;
  cancelRaw_Errors : option (gmap string (list string));
}.

Record ExchangeRate := mkExchangeRate {
  From : string;
  To : string;
  Course : string;
}.

(** [exchangeRateListRawResponse]; the nil slice and the empty slice are
    both the empty list. *)
Record exchangeRateListRawResponse := mkExchangeRateListRaw {
  rate_State : Z;
  rate_Result : list ExchangeRate;
}.

(** What the code takes from net/url, net/http, unicode and the typed
    decoders of encoding/json.  A decoder reads the response body into a
    fresh value of the named struct; the fields [State] it delivers lie in
    the range of their Go type ([int8], or [int] for the list). *)
Class NetLib := {
  url_fields : Type;
  url_Parse : string -> result (URL url_fields);
  URL_String : URL url_fields -> string;
  http_validMethod : string -> bool;
  TrimFunc_IsSpace : string -> string;
  TrimRightFunc_IsSpace : string -> string;
  Decode_recurrenceRawResponse : bytes -> result recurrenceRawResponse;
  Decode_recurrenceInfoRawResponse : bytes -> result recurrenceInfoRawResponse;
  Decode_recurrenceListRawResponse : bytes -> result recurrenceListRawResponse;
  Decode_recurrenceCancelRawResponse : bytes -> result recurrenceCancelRawResponse;
  Decode_exchangeRateListRawResponse : bytes -> result exchangeRateListRawResponse;
  (** the anonymous [struct { Message string }]: the field as the decoder
      left it, and the decoder's error *)
  Decode_errResp : bytes -> string * option error;
}.

(** [http.NewRequest]: the method and the target are checked; the body
    is the content of the buffer (none for a nil reader). *)
Definition http_NewRequest `{NetLib} (method url : string) (body : bytes)
    : result Request :=
  if negb (http_validMethod method) then Err (Foreign "net/http: invalid method")
  else
    match url_Parse url with
    | Err err => Err err
    | Ok _ => Ok (mkRequest method url ∅ body)
    end.

(** The values that the code passes to [fetch] as [payload]. *)
Inductive payload `{JSONLib} :=
| PNil
| PRecurrenceRequest (r : RecurrenceRequest)
| PRecurrenceInfoRequest (r : RecurrenceInfoRequest)
| PRecurrenceCancelRequest (r : RecurrenceCancelRequest)
| PMap (m : gmap string (value float64)).

Section Marshal.
Context `{JSONLib}.

(** A struct is written field by field in the order of its declaration;
    [None] is a field left out by [omitempty]. *)
Definition encode_struct (fields : list (string * option string)) : string :=
  "{" +:+ strings_Join
            (omap (fun '(name, val) =>
                     (fun text => json_encodeString name +:+ ":" +:+ text) <$> val)
               fields) ","
      +:+ "}".

Definition always (s : string) : option string := Some (json_encodeString s).

Definition omitempty (s : string) : option string :=
  if decide (s = "") then None else Some (json_encodeString s).

Definition omitempty_int (p : option Z) : option string := pretty <$> p.

(** [json.Marshal(payload)]; none of these values can fail to encode,
    and the nil interface is written as [null]. *)
Definition json_Marshal (p : payload) : result bytes :=
  Ok (bytes_of_string
    match p with
    | PNil => "null"
    | PRecurrenceRequest r =>
        encode_struct
          [ ("amount", always (req_Amount r));
            ("currency", always (req_Currency r));
            ("name", always (req_Name r));
            ("period", always (req_Period r));
            ("to_currency", omitempty (req_ToCurrency r));
            ("order_id", omitempty (req_OrderId r));
            ("url_callback", omitempty (req_UrlCallback r));
            ("discount_days", omitempty_int (req_DiscountDays r));
            ("discount_amount", omitempty (req_DiscountAmount r));
            ("additional_data", omitempty (req_AdditionalData r)) ]
    | PRecurrenceInfoRequest r =>
        encode_struct
          [ ("uuid", omitempty (info_UUID r));
            ("order_id", omitempty (info_OrderId r)) ]
    | PRecurrenceCancelRequest r =>
        encode_struct
          [ ("uuid", omitempty (cancel_UUID r));
            ("order_id", omitempty (cancel_OrderId r)) ]
    | PMap m => encode (VMap m)
    end).

End Marshal.

(** ** cryptomus.go: the client *)

Definition BaseURL : string := "https://api.cryptomus.com/v1".

Record Cryptomus := mkCryptomus {
  baseURL : string;
  merchantID : string;
  paymentApiKey : string;
  payoutApiKey : string;
  client : http_Client;
}.

(** [New]; [None] is the nil client, replaced by [http.DefaultClient]. *)
Definition New (DefaultClient : http_Client) (client : option http_Client)
    (merchantID paymentApiKey payoutApiKey : string) : Cryptomus :=
  let client := match client with None => DefaultClient | Some cl => cl end in
  mkCryptomus BaseURL merchantID paymentApiKey payoutApiKey client.

Definition SetBaseURL (c : Cryptomus) (baseURL : string) : Cryptomus :=
  mkCryptomus baseURL (merchantID c) (paymentApiKey c) (payoutApiKey c) (client c).

(** [fmt.Sprintf] for a format whose only verb is one [%s]. *)
Fixpoint fmt_Sprintf (format : string) (a : string) : string :=
  match format with
  | String "%" (String "s" rest) => a +:+ rest
  | String ch rest => String ch (fmt_Sprintf rest a)
  | EmptyString => EmptyString
  end.

(** [joinURL] (the revision of cryptomus.go that imports net/url and
    path). *)
Definition joinURL `{NetLib} (base endpoint : string) : result string :=
  match url_Parse base with
  | Err err => Err err
  | Ok u =>
      let u := mkURL (path_Join [Path u; endpoint]) (url_other u) in
      Ok (URL_String u)
  end.

(** [fetch] of src/cryptomus.go: the payload is always marshalled, the
    target is the concatenation of base and endpoint. *)
Module Concat.
Section Fetch.
Context `{JSONLib, NetLib}.

Definition fetch (c : Cryptomus) (method endpoint : string) (payload : payload)
    : IO (result Response) :=
  match json_Marshal payload with
  | Err err => mret (Err (fmt_Errorf "failed to marshal payload: %w" [AErr err]))
  | Ok body =>
      match signRequest (paymentApiKey c) body with
      | Err err => mret (Err (fmt_Errorf "failed to generate signature: %w" [AErr err]))
      | Ok sign =>
          match http_NewRequest method (baseURL c +:+ endpoint) body with
          | Err err =>
              mret (Err (fmt_Errorf "failed to create HTTP request: %w" [AErr err]))
          | Ok req =>
              let req := Header_Set req "Content-Type" "application/json" in
              let req := Header_Set req "merchant" (merchantID c) in
              let req := Header_Set req "sign" sign in
              res ← client_Do (client c) req;
              match res with
              | Err err => mret (Err (fmt_Errorf "HTTP request failed: %w" [AErr err]))
              | Ok res => mret (Ok res)
              end
          end
      end
  end.
End Fetch.
End Concat.

(** [fetch] of the later revision: a nil payload leaves the body empty,
    the target is built by [joinURL]. *)
Module Joined.
Section Fetch.
Context `{JSONLib, NetLib}.

Definition fetch (c : Cryptomus) (method endpoint : string) (payload : payload)
    : IO (result Response) :=
  match (match payload with
         | PNil => Ok []
         | _ => json_Marshal payload
         end) with
  | Err err => mret (Err (fmt_Errorf "failed to marshal payload: %w" [AErr err]))
  | Ok bodyBytes =>
      match signRequest (paymentApiKey c) bodyBytes with
      | Err err => mret (Err (fmt_Errorf "failed to generate signature: %w" [AErr err]))
      | Ok sign =>
          match joinURL (baseURL c) endpoint with
          | Err err =>
              mret (Err (fmt_Errorf "failed to join base URL and endpoint: %w" [AErr err]))
          | Ok fullURL =>
              match http_NewRequest method fullURL bodyBytes with
              | Err err =>
                  mret (Err (fmt_Errorf "failed to create HTTP request: %w" [AErr err]))
              | Ok req =>
              let req := Header_Set req "Content-Type" "application/json" in
              let req := Header_Set req "merchant" (merchantID c) in
              let req := Header_Set req "sign" sign in
              res ← client_Do (client c) req;
              match res with
              | Err err => mret (Err (fmt_Errorf "HTTP request failed: %w" [AErr err]))
              | Ok res => mret (Ok res)
              end
              end
          end
      end
  end.
End Fetch.
End Joined.

(** ** The recurrence operations *)

(** Both revisions of the file agree on every line of code.  The
    operations call [c.fetch], whichever revision of cryptomus.go is
    built with them: [fetch] is a variable of the section.  The deferred
    [res.Body.Close()] has no effect that the results depend on. *)

Definition createRecurrenceEndpoint : string := "/recurrence/create".
Definition recurrenceInfoEndpoint : string := "/recurrence/info".
Definition recurrenceListEndpoint : string := "/recurrence/list".
Definition recurrenceCancelEndpoint : string := "/recurrence/cancel".

Section Operations.
Context `{JSONLib, NetLib}.
Variable fetch : Cryptomus -> string -> string -> payload -> IO (result Response).

Definition CreateRecurrence (c : Cryptomus) (recReq : option RecurrenceRequest)
    : IO (result Recurrence) :=
  match recReq with
  | None => mret (Err (errors_New "recurrence request cannot be nil"))
  | Some recReq =>
      r ← fetch c "POST" createRecurrenceEndpoint (PRecurrenceRequest recReq);
      match r with
      | Err err => mret (Err (fmt_Errorf "failed to send request: %w" [AErr err]))
      | Ok res =>
          if decide (StatusCode res ≠ 200) then
            mret (Err (fmt_Errorf "unexpected HTTP status: %s" [AStr (Status res)]))
          else
            match Decode_recurrenceRawResponse (ResponseBody res) with
            | Err err => mret (Err (fmt_Errorf "failed to decode response: %w" [AErr err]))
            | Ok response =>
                if decide (rec_State response ≠ 0) then
                  mret (Err (fmt_Errorf "API returned non-zero state: %d"
                               [AInt (rec_State response)]))
                else
                  match rec_Result response with
                  | None => mret (Err (errors_New "API response result is nil"))
                  | Some result => mret (Ok result)
                  end
            end
      end
  end.

Definition GetRecurrenceInfo (c : Cryptomus) (infoReq : option RecurrenceInfoRequest)
    : IO (result Recurrence) :=
  match infoReq with
  | None => mret (Err (errors_New "recurrence info request cannot be nil"))
  | Some infoReq =>
      if decide (info_UUID infoReq = "" ∧ info_OrderId infoReq = "") then
        mret (Err (errors_New "either uuid or order_id must be provided"))
      else
        r ← fetch c "POST" recurrenceInfoEndpoint (PRecurrenceInfoRequest infoReq);
        match r with
        | Err err => mret (Err (fmt_Errorf "failed to send request: %w" [AErr err]))
        | Ok res =>
            if decide (StatusCode res ≠ 200) then
              match Decode_recurrenceInfoRawResponse (ResponseBody res) with
              | Ok (mkRecurrenceInfoRaw _ _ (Some errs)) =>
                  mret (Err (fmt_Errorf "validation errors: %v" [AErrors errs]))
              | _ =>
                  mret (Err (fmt_Errorf "unexpected HTTP status: %s" [AStr (Status res)]))
              end
            else
              match Decode_recurrenceInfoRawResponse (ResponseBody res) with
              | Err err =>
                  mret (Err (fmt_Errorf "failed to decode response: %w" [AErr err]))
              | Ok response =>
                  if decide (infoRaw_State response ≠ 0) then
                    match infoRaw_Errors response with
                    | Some errs =>
                        mret (Err (fmt_Errorf "validation errors: %v" [AErrors errs]))
                    | None =>
                        mret (Err (fmt_Errorf "API returned non-zero state: %d"
                                     [AInt (infoRaw_State response)]))
                    end
                  else
                    match infoRaw_Result response with
                    | None => mret (Err (errors_New "API response result is nil"))
                    | Some result => mret (Ok result)
                    end
              end
        end
  end.

Definition ListRecurrences (c : Cryptomus) (cursor : string)
    : IO (result RecurrenceListResponse) :=
  let payload : gmap string (value float64) := ∅ in
  let payload := if decide (cursor ≠ "") then <["cursor" := VString cursor]> payload
                 else payload in
  r ← fetch c "POST" recurrenceListEndpoint (PMap payload);
  match r with
  | Err err => mret (Err (fmt_Errorf "failed to send request: %w" [AErr err]))
  | Ok res =>
      if decide (StatusCode res ≠ 200) then
        mret (Err (fmt_Errorf "unexpected HTTP status: %s" [AStr (Status res)]))
      else
        match Decode_recurrenceListRawResponse (ResponseBody res) with
        | Err err => mret (Err (fmt_Errorf "failed to decode response: %w" [AErr err]))
        | Ok response =>
            if decide (list_State response ≠ 0) then
              mret (Err (fmt_Errorf "API returned non-zero state: %d"
                           [AInt (list_State response)]))
            else
              match list_Result response with
              | None => mret (Err (errors_New "API response result is nil"))
              | Some result => mret (Ok result)
              end
        end
  end.

Definition CancelRecurrence (c : Cryptomus) (cancelReq : option RecurrenceCancelRequest)
    : IO (result Recurrence) :=
  match cancelReq with
  | None => mret (Err (errors_New "recurrence cancel request cannot be nil"))
  | Some cancelReq =>
      if decide (cancel_UUID cancelReq = "" ∧ cancel_OrderId cancelReq = "") then
        mret (Err (errors_New "either uuid or order_id must be provided"))
      else
        r ← fetch c "POST" recurrenceCancelEndpoint (PRecurrenceCancelRequest cancelReq);
        match r with
        | Err err => mret (Err (fmt_Errorf "failed to send request: %w" [AErr err]))
        | Ok res =>
            if decide (StatusCode res ≠ 200) then
              match Decode_recurrenceCancelRawResponse (ResponseBody res) with
              | Ok (mkRecurrenceCancelRaw _ _ (Some errs)) =>
                  mret (Err (fmt_Errorf "validation errors: %v" [AErrors errs]))
              | _ =>
                  mret (Err (fmt_Errorf "unexpected HTTP status: %s" [AStr (Status res)]))
              end
            else
              match Decode_recurrenceCancelRawResponse (ResponseBody res) with
              | Err err =>
                  mret (Err (fmt_Errorf "failed to decode response: %w" [AErr err]))
              | Ok response =>
                  if decide (cancelRaw_State response ≠ 0) then
                    match cancelRaw_Errors response with
                    | Some errs =>
                        mret (Err (fmt_Errorf "validation errors: %v" [AErrors errs]))
                    | None =>
                        mret (Err (fmt_Errorf "API returned non-zero state: %d"
                                     [AInt (cancelRaw_State response)]))
                    end
                  else
                    match cancelRaw_Result response with
                    | None => mret (Err (errors_New "API response result is nil"))
                    | Some result => mret (Ok result)
                    end
              end
        end
  end.

End Operations.

(** ** exchange.go: [ListExchangeRates], three revisions *)

(** First revision in src/exchange.go: the currency is compared as
    given; the response is decoded whatever its HTTP status and its
    [result] is returned as it is. *)
Module ExchangeA.
Definition exchangeRateListEndpoint : string := "/v1/exchange-rate/%s/list".

Section Ops.
Context `{JSONLib, NetLib}.
Variable fetch : Cryptomus -> string -> string -> payload -> IO (result Response).

Definition ListExchangeRates (c : Cryptomus) (currency : string)
    : IO (result (list ExchangeRate)) :=
  if decide (currency = "") then
    mret (Err (errors_New "currency parameter is required"))
  else
    let endpoint := fmt_Sprintf exchangeRateListEndpoint currency in
    r ← fetch c "GET" endpoint PNil;
    match r with
    | Err err => mret (Err err)
    | Ok res =>
        match Decode_exchangeRateListRawResponse (ResponseBody res) with
        | Err err => mret (Err err)
        | Ok response =>
            if decide (rate_State response ≠ 0) then
              mret (Err (fmt_Errorf "api error: state %d" [AInt (rate_State response)]))
            else mret (Ok (rate_Result response))
        end
    end.
End Ops.
End ExchangeA.

(** Second revision in src/exchange.go: the currency is trimmed, the
    HTTP status is checked and an empty list is an error. *)
Module ExchangeB.
Definition exchangeRateListEndpoint : string := "/v1/exchange-rate/%s/list".

Section Ops.
Context `{JSONLib, NetLib}.
Variable fetch : Cryptomus -> string -> string -> payload -> IO (result Response).

Definition ListExchangeRates (c : Cryptomus) (currency : string)
    : IO (result (list ExchangeRate)) :=
  let currency := strings_TrimSpace TrimFunc_IsSpace TrimRightFunc_IsSpace currency in
  if decide (currency = "") then
    mret (Err (errors_New "currency parameter is required"))
  else
    let endpoint := fmt_Sprintf exchangeRateListEndpoint currency in
    r ← fetch c "GET" endpoint PNil;
    match r with
    | Err err => mret (Err (fmt_Errorf "failed to fetch exchange rates: %w" [AErr err]))
    | Ok res =>
        if decide (StatusCode res ≠ 200) then
          let '(Message, _) := Decode_errResp (ResponseBody res) in
          if decide (Message ≠ "") then
            mret (Err (fmt_Errorf "unexpected status code: %d, message: %s"
                         [AInt (StatusCode res); AStr Message]))
          else
            mret (Err (fmt_Errorf "unexpected status code: %d" [AInt (StatusCode res)]))
        else
          match Decode_exchangeRateListRawResponse (ResponseBody res) with
          | Err err =>
              mret (Err (fmt_Errorf "failed to decode JSON response: %w" [AErr err]))
          | Ok response =>
              if decide (rate_State response ≠ 0) then
                mret (Err (fmt_Errorf "API error: state %d" [AInt (rate_State response)]))
              else if decide (length (rate_Result response) = 0%nat) then
                mret (Err (errors_New "exchange rate list is empty"))
              else mret (Ok (rate_Result response))
          end
    end.
End Ops.
End ExchangeB.

(** Third revision (at the end of src/sign.go): the request is built and
    sent here, without [fetch] and so without the [merchant] and [sign]
    headers; the target is logged before the call. *)
Module ExchangeC.
Definition exchangeRateListEndpoint : string := "exchange-rate/%s/list".

Section Ops.
Context `{JSONLib, NetLib}.

Definition ListExchangeRates (c : Cryptomus) (currency : string)
    : IO (result (list ExchangeRate)) :=
  let currency := strings_TrimSpace TrimFunc_IsSpace TrimRightFunc_IsSpace currency in
  if decide (currency = "") then
    mret (Err (errors_New "currency parameter is required"))
  else
    let endpoint := fmt_Sprintf exchangeRateListEndpoint currency in
    match joinURL (baseURL c) endpoint with
    | Err err => mret (Err (fmt_Errorf "invalid base URL or endpoint: %w" [AErr err]))
    | Ok fullURL =>
        _ ← fmt_Printf (fmt_Sprintf "Requesting URL: %s" fullURL +:+ newline);
        match http_NewRequest "GET" fullURL [] with
        | Err err =>
            mret (Err (fmt_Errorf "failed to create HTTP request: %w" [AErr err]))
        | Ok req =>
            let req := Header_Set req "Accept" "application/json" in
            r ← client_Do (client c) req;
            match r with
            | Err err => mret (Err (fmt_Errorf "HTTP request failed: %w" [AErr err]))
            | Ok res =>
                if decide (StatusCode res ≠ 200) then
                  let '(Message, _) := Decode_errResp (ResponseBody res) in
                  if decide (Message ≠ "") then
                    mret (Err (fmt_Errorf "unexpected status code: %d, message: %s"
                                 [AInt (StatusCode res); AStr Message]))
                  else
                    mret (Err (fmt_Errorf "unexpected status code: %d"
                                 [AInt (StatusCode res)]))
                else
                  match Decode_exchangeRateListRawResponse (ResponseBody res) with
                  | Err err =>
                      mret (Err (fmt_Errorf "failed to decode JSON response: %w"
                                   [AErr err]))
                  | Ok response =>
                      if decide (rate_State response ≠ 0) then
                        mret (Err (fmt_Errorf "API error: state %d"
                                     [AInt (rate_State response)]))
                      else if decide (length (rate_Result response) = 0%nat) then
                        mret (Err (errors_New "exchange rate list is empty"))
                      else mret (Ok (rate_Result response))
                  end
            end
        end
    end.
End Ops.
End ExchangeC.

(** ** The envelope rules, as the specification words them *)

(** "A response with nonzero state and a non-empty errors map yields
    RemoteValidationError carrying that map; with empty/absent errors
    yields RemoteStateError carrying the state code." *)
Definition nonzero_state_error_as_specified (state : Z)
    (errs : option (gmap string (list string))) : error :=
  match errs with
  | Some m => if decide (m = ∅) then RemoteStateError state else RemoteValidationError m
  | None => RemoteStateError state
  end.

Section EnvelopeAsSpecified.
Context `{JSONLib, NetLib}.
Variable fetch : Cryptomus -> string -> string -> payload -> IO (result Response).

(** The rule for [GetRecurrenceInfo], on one call. *)
Definition GetRecurrenceInfo_as_specified (c : Cryptomus) (infoReq : RecurrenceInfoRequest)
    (w : World) : Prop :=
  forall res w' response,
    fetch c "POST" recurrenceInfoEndpoint (PRecurrenceInfoRequest infoReq) w = (Ok res, w') ->
    StatusCode res = 200 ->
    Decode_recurrenceInfoRawResponse (ResponseBody res) = Ok response ->
    infoRaw_State response ≠ 0 ->
    fst (GetRecurrenceInfo fetch c (Some infoReq) w)
    = Err (nonzero_state_error_as_specified (infoRaw_State response)
             (infoRaw_Errors response)).

(** The rule for [CreateRecurrence], on one call.  Its response struct
    has no [Errors] field; the envelope of the body is read with the
    three-field struct of [GetRecurrenceInfo]. *)
Definition CreateRecurrence_as_specified (c : Cryptomus) (recReq : RecurrenceRequest)
    (w : World) : Prop :=
  forall res w' envelope,
    fetch c "POST" createRecurrenceEndpoint (PRecurrenceRequest recReq) w = (Ok res, w') ->
    StatusCode res = 200 ->
    Decode_recurrenceInfoRawResponse (ResponseBody res) = Ok envelope ->
    infoRaw_State envelope ≠ 0 ->
    fst (CreateRecurrence fetch c (Some recReq) w)
    = Err (nonzero_state_error_as_specified (infoRaw_State envelope)
             (infoRaw_Errors envelope)).

End EnvelopeAsSpecified.

(** ** A concrete library for the examples *)

(** Stand-ins for the library parameters, enough to run the code on the
    sample inputs below: JSON texts without escapes, integral numbers,
    absolute URLs without query or fragment. *)
Module Sample.

(** Sample JSON texts are written with [']; [js] puts the double quotes
    in. *)
Definition dquote : ascii := ascii_of_nat 34.

Fixpoint js (s : string) : string :=
  match s with
  | EmptyString => EmptyString
  | String ch rest => String (if decide (ch = "'"%char) then dquote else ch) (js rest)
  end.

Definition jsb (s : string) : bytes := bytes_of_string (js s).

(** A callback signed by its sender over the fields as it wrote them. *)
Definition callback_body : bytes :=
  jsb "{'status':'paid','order_id':'1','sign':'7aef8be31c7abf1a25c746e2e591e567'}".

(** The same fields with the signature of their sorted serialization. *)
Definition callback_body_sorted_sign : bytes :=
  jsb "{'status':'paid','order_id':'1','sign':'ba0c8b99b9e3606cff32e23cca2f8e40'}".

Definition callback_body_unsigned : bytes :=
  jsb "{'status':'paid','order_id':'1','sign':7}".

Definition callback_members : list (string * json Z) :=
  [ ("status", JString "paid"); ("order_id", JString "1");
    ("sign", JString "7aef8be31c7abf1a25c746e2e591e567") ].

Definition parse_table : list (string * json Z) :=
  [ (string_of_bytes callback_body, JObject callback_members);
    (string_of_bytes callback_body_sorted_sign,
      JObject [ ("status", JString "paid"); ("order_id", JString "1");
                ("sign", JString "ba0c8b99b9e3606cff32e23cca2f8e40") ]);
    (string_of_bytes callback_body_unsigned,
      JObject [ ("status", JString "paid"); ("order_id", JString "1");
                ("sign", JNumber 7) ]) ].

Definition assoc {A} (table : list (string * A)) (key : string) : option A :=
  snd <$> find (fun kv => bool_decide (kv.1 = key)) table.

#[export] Instance json_lib : JSONLib := {|
  float64 := Z;
  json_parse data := assoc parse_table (string_of_bytes data);
  json_encodeFloat f := pretty f;
  json_encodeString s := String dquote s +:+ String dquote EmptyString;
|}.

(** [scheme://host] and the rest. *)
Definition url_split (s : string) : string * string :=
  match split_slash s with
  | scheme :: "" :: host :: rest =>
      (scheme +:+ "//" +:+ host,
       match rest with
       | [] => ""
       | _ => "/" +:+ strings_Join rest "/"
       end)
  | _ => ("", s)
  end.

Definition state_one : bytes := jsb "{'state':1,'result':null}".
Definition state_one_errors : bytes := jsb "{'state':1,'errors':{'amount':['required']}}".
Definition state_one_no_errors : bytes := jsb "{'state':1,'errors':{}}".
Definition state_zero_null : bytes := jsb "{'state':0,'result':null}".

Definition amount_required : gmap string (list string) := {[ "amount" := ["required"] ]}.

Definition undecodable {A} : result A := Err (Foreign "unexpected end of JSON input").

#[export] Instance net_lib : NetLib := {|
  url_fields := string;
  url_Parse s := let '(origin, path) := url_split s in Ok (mkURL path origin);
  URL_String u :=
    url_other u
      +:+ (if rooted (Path u) || bool_decide (Path u = "") then "" else "/")
      +:+ Path u;
  http_validMethod method := bool_decide (method ≠ "");
  TrimFunc_IsSpace s := s;
  TrimRightFunc_IsSpace s := s;
  Decode_recurrenceRawResponse body :=
    from_option Ok undecodable
      (assoc [ (string_of_bytes state_one, mkRecurrenceRaw 1 None);
               (string_of_bytes state_one_errors, mkRecurrenceRaw 1 None);
               (string_of_bytes state_one_no_errors, mkRecurrenceRaw 1 None);
               (string_of_bytes state_zero_null, mkRecurrenceRaw 0 None) ]
         (string_of_bytes body));
  Decode_recurrenceInfoRawResponse body :=
    from_option Ok undecodable
      (assoc [ (string_of_bytes state_one, mkRecurrenceInfoRaw 1 None None);
               (string_of_bytes state_one_errors,
                 mkRecurrenceInfoRaw 1 None (Some amount_required));
               (string_of_bytes state_one_no_errors, mkRecurrenceInfoRaw 1 None (Some ∅));
               (string_of_bytes state_zero_null, mkRecurrenceInfoRaw 0 None None) ]
         (string_of_bytes body));
  Decode_recurrenceListRawResponse body :=
    from_option Ok undecodable
      (assoc [ (string_of_bytes state_one, mkRecurrenceListRaw 1 None);
               (string_of_bytes state_one_errors, mkRecurrenceListRaw 1 None);
               (string_of_bytes state_one_no_errors, mkRecurrenceListRaw 1 None);
               (string_of_bytes state_zero_null, mkRecurrenceListRaw 0 None) ]
         (string_of_bytes body));
  Decode_recurrenceCancelRawResponse body :=
    from_option Ok undecodable
      (assoc [ (string_of_bytes state_one, mkRecurrenceCancelRaw 1 None None);
               (string_of_bytes state_one_errors,
                 mkRecurrenceCancelRaw 1 None (Some amount_required));
               (string_of_bytes state_one_no_errors,
                 mkRecurrenceCancelRaw 1 None (Some ∅));
               (string_of_bytes state_zero_null, mkRecurrenceCancelRaw 0 None None) ]
         (string_of_bytes body));
  Decode_exchangeRateListRawResponse body :=
    from_option Ok undecodable
      (assoc [ (string_of_bytes state_one, mkExchangeRateListRaw 1 []);
               (string_of_bytes state_one_errors, mkExchangeRateListRaw 1 []);
               (string_of_bytes state_one_no_errors, mkExchangeRateListRaw 1 []);
               (string_of_bytes state_zero_null, mkExchangeRateListRaw 0 []) ]
         (string_of_bytes body));
  Decode_errResp body := ("", None);
|}.

(** A transport that answers every request with HTTP 200 and [body]. *)
Definition answering (body : bytes) : http_Client :=
  fun _ => Ok (mkResponse "200 OK" 200 body).

Definition merchant (baseURL : string) (transport : http_Client) : Cryptomus :=
  mkCryptomus baseURL "merchant-1" "k" "payout-key" transport.

Definition idle : World := mkWorld [] [].

End Sample.

(** ** Predicates on strings used in the statements *)

(** A character at which [strings.TrimSpace] stops: ASCII and not white
    space. *)
Definition edge_char (ch : ascii) : Prop :=
  code ch < 128 /\ Ascii.is_space ch = false.

Definition white (s : string) : Prop :=
  Forall (fun ch => Ascii.is_space ch = true) (list_ascii_of_string s).

(** No slash in a path element; no two slashes in a row in a path. *)
Fixpoint slash_free (s : string) : bool :=
  match s with
  | EmptyString => true
  | String ch rest => if decide (ch = "/"%char) then false else slash_free rest
  end.

Fixpoint no_double_slash (s : string) : bool :=
  match s with
  | EmptyString => true
  | String a rest =>
      match rest with
      | EmptyString => true
      | String b _ =>
          if decide (a = "/"%char /\ b = "/"%char) then false else no_double_slash rest
      end
  end.

(** ** The demo program *)

(** [fmt.Sprintf] for a format whose verbs are [%s], given one string
    for each of them. *)
Fixpoint fmt_Sprintf_args (format : string) (args : list string) : string :=
  match format with
  | String "%" (String "s" rest) =>
      match args with
      | a :: args' => a +:+ fmt_Sprintf_args rest args'
      | [] => "%!s(MISSING)" +:+ fmt_Sprintf_args rest []
      end
  | String ch rest => String ch (fmt_Sprintf_args rest args)
  | EmptyString => EmptyString
  end.

(** The loop of [main] over the rates. *)
Fixpoint print_rates (rates : list ExchangeRate) : IO unit :=
  match rates with
  | [] => mret tt
  | rate :: rest =>
      _ ← fmt_Printf (fmt_Sprintf_args "1 %s = %s %s" [From rate; Course rate; To rate]
                        +:+ newline);
      print_rates rest
  end.

(** [main] of the demo (src/sign.go, lines 84-112), built against one of
    the revisions of [ListExchangeRates].  [client] is the transport
    behind the [http.Client] with its timeout.  [log.Fatalf] ends the
    program: the outcome [Some err] is the logged error, [None] is the
    normal end. *)
Definition main (DefaultClient : http_Client)
    (ListExchangeRates : Cryptomus -> string -> IO (result (list ExchangeRate)))
    (client : http_Client) : IO (option error) :=
  let apiClient := New DefaultClient (Some client) "" "" "" in
  let currency := "USDT" in
  r ← ListExchangeRates apiClient currency;
  match r with
  | Err err => mret (Some (fmt_Errorf "Error fetching exchange rates: %v" [AErr err]))
  | Ok rates =>
      _ ← fmt_Printf (fmt_Sprintf "Exchange Rates for %s:" currency +:+ newline);
      _ ← print_rates rates;
      mret None
  end.

(** ** More sample responses *)

(** A second stand-in for the library parameters, with responses that
    carry a result, a message or validation errors. *)
Module Demo.

Definition rates_body : bytes :=
  Sample.jsb "{'state':0,'result':[{'from':'USDT','to':'BTC','course':'0.000015'}]}".
Definition usdt_btc : ExchangeRate := mkExchangeRate "USDT" "BTC" "0.000015".

Definition recurrence_body : bytes := Sample.jsb "{'state':0,'result':{'uuid':'u-1'}}".
Definition recurrence_u1 : Recurrence :=
  mkRecurrence "u-1" "" "" "" "" "" "" "" "" "" "" "" None None "" None "".

Definition list_body : bytes := Sample.jsb "{'state':0,'result':{'items':[],'paginate':null}}".
Definition empty_page : RecurrenceListResponse := mkRecurrenceListResponse [] None.

Definition message_body : bytes := Sample.jsb "{'message':'Too Many Requests'}".
Definition errors_body : bytes := Sample.jsb "{'state':1,'errors':{'uuid':['invalid']}}".
Definition uuid_invalid : gmap string (list string) := {[ "uuid" := ["invalid"] ]}.
Definition html_body : bytes := bytes_of_string "<html>".

(** The signed callback of the first samples, and the same members in
    another order. *)
Definition signed_members : list (string * json Z) :=
  [ ("status", JString "paid"); ("order_id", JString "1");
    ("sign", JString "ba0c8b99b9e3606cff32e23cca2f8e40") ].
Definition reordered_members : list (string * json Z) :=
  [ ("sign", JString "ba0c8b99b9e3606cff32e23cca2f8e40");
    ("order_id", JString "1"); ("status", JString "paid") ].
Definition reordered_body : bytes :=
  Sample.jsb "{'sign':'ba0c8b99b9e3606cff32e23cca2f8e40','order_id':'1','status':'paid'}".

Definition json_lib : JSONLib := {|
  float64 := Z;
  json_parse data :=
    Sample.assoc
      [ (string_of_bytes Sample.callback_body_sorted_sign, JObject signed_members);
        (string_of_bytes reordered_body, JObject reordered_members) ]
      (string_of_bytes data);
  json_encodeFloat f := pretty f;
  json_encodeString s := String Sample.dquote s +:+ String Sample.dquote EmptyString;
|}.

Definition decode_with {A} (table : list (string * A)) (body : bytes) : result A :=
  from_option Ok (Err (Foreign "invalid character '<' looking for beginning of value"))
    (Sample.assoc table (string_of_bytes body)).

Definition net_lib : NetLib := {|
  url_fields := string;
  url_Parse s := let '(origin, path) := Sample.url_split s in Ok (mkURL path origin);
  URL_String u :=
    url_other u
      +:+ (if rooted (Path u) || bool_decide (Path u = "") then "" else "/")
      +:+ Path u;
  http_validMethod method := bool_decide (method ≠ "");
  TrimFunc_IsSpace s := s;
  TrimRightFunc_IsSpace s := s;
  Decode_recurrenceRawResponse :=
    decode_with [ (string_of_bytes recurrence_body, mkRecurrenceRaw 0 (Some recurrence_u1));
                  (string_of_bytes message_body, mkRecurrenceRaw 0 None);
                  (string_of_bytes errors_body, mkRecurrenceRaw 1 None) ];
  Decode_recurrenceInfoRawResponse :=
    decode_with [ (string_of_bytes recurrence_body,
                    mkRecurrenceInfoRaw 0 (Some recurrence_u1) None);
                  (string_of_bytes message_body, mkRecurrenceInfoRaw 0 None None);
                  (string_of_bytes errors_body,
                    mkRecurrenceInfoRaw 1 None (Some uuid_invalid)) ];
  Decode_recurrenceListRawResponse :=
    decode_with [ (string_of_bytes list_body, mkRecurrenceListRaw 0 (Some empty_page));
                  (string_of_bytes message_body, mkRecurrenceListRaw 0 None);
                  (string_of_bytes errors_body, mkRecurrenceListRaw 1 None) ];
  Decode_recurrenceCancelRawResponse :=
    decode_with [ (string_of_bytes recurrence_body,
                    mkRecurrenceCancelRaw 0 (Some recurrence_u1) None);
                  (string_of_bytes message_body, mkRecurrenceCancelRaw 0 None None);
                  (string_of_bytes errors_body,
                    mkRecurrenceCancelRaw 1 None (Some uuid_invalid)) ];
  Decode_exchangeRateListRawResponse :=
    decode_with [ (string_of_bytes rates_body, mkExchangeRateListRaw 0 [usdt_btc]);
                  (string_of_bytes message_body, mkExchangeRateListRaw 0 []);
                  (string_of_bytes errors_body, mkExchangeRateListRaw 1 []) ];
  Decode_errResp body :=
    if bool_decide (string_of_bytes body = string_of_bytes message_body)
    then ("Too Many Requests", None)
    else if bool_decide (string_of_bytes body = string_of_bytes html_body)
    then ("", Some (Foreign "invalid character '<' looking for beginning of value"))
    else ("", None);
|}.

(** A transport that answers every request with the given status and
    body, and one that fails. *)
Definition responding (status : string) (code : Z) (body : bytes) : http_Client :=
  fun _ => Ok (mkResponse status code body).

Definition unreachable : http_Client :=
  fun _ => Err (Foreign "dial tcp: connection refused").

End Demo.

(* ===================================================================== *)
(** * Properties *)

(** The sample library serves the closed examples; every general statement
    below is made in a section that binds its own library. *)
Import Sample.

(** ** The library models against published test vectors *)

Example md5_empty :
  hex_EncodeToString (MD5.Sum []) = "d41d8cd98f00b204e9800998ecf8427e"%string.
Proof. vm_compute. reflexivity. Qed.

Example md5_a :
  hex_EncodeToString (MD5.Sum (bytes_of_string "a")) = "0cc175b9c0f1b6a831c399e269772661"%string.
Proof. vm_compute. reflexivity. Qed.

Example md5_abc :
  hex_EncodeToString (MD5.Sum (bytes_of_string "abc")) = "900150983cd24fb0d6963f7d28e17f72"%string.
Proof. vm_compute. reflexivity. Qed.

Example md5_message_digest :
  hex_EncodeToString (MD5.Sum (bytes_of_string "message digest"))
  = "f96b697d7cb7938d525a2f31aaf161d0"%string.
Proof. vm_compute. reflexivity. Qed.

Example md5_two_blocks :
  hex_EncodeToString (MD5.Sum (bytes_of_string
    "12345678901234567890123456789012345678901234567890123456789012345678901234567890"))
  = "57edf4a22be3c955ac49da2e2107b67a"%string.
Proof. vm_compute. reflexivity. Qed.

Example base64_vectors :
  base64_EncodeToString (bytes_of_string "") = ""%string
  /\ base64_EncodeToString (bytes_of_string "f") = "Zg=="%string
  /\ base64_EncodeToString (bytes_of_string "fo") = "Zm8="%string
  /\ base64_EncodeToString (bytes_of_string "foo") = "Zm9v"%string
  /\ base64_EncodeToString (bytes_of_string "foobar") = "Zm9vYmFy"%string.
Proof. vm_compute. repeat split. Qed.

Example signRequest_sample :
  signRequest "key" (bytes_of_string "{}") = Ok "5d804dfcbf33c7c3141d37b429eb7999".
Proof. vm_compute. reflexivity. Qed.

(** ** The signer *)

Lemma all_below_spec (k : nat) (P : nat -> bool) :
  all_below k P = true -> forall i, (i < k)%nat -> P i = true.
Proof.
  induction k as [| k IH]; simpl; intros Hall i Hi; [lia |].
  apply andb_prop in Hall as [Hk Hrest].
  destruct (decide (i = k)) as [-> | Hne]; [exact Hk |].
  apply IH; [exact Hrest | lia].
Qed.

Lemma byte_val_range (v : byte) : 0 <= byte_val v < 256.
Proof.
  unfold byte_val. pose proof (Byte.to_N_bounded v) as Hb. lia.
Qed.

Lemma byte_of_Z_val (v : byte) : byte_of_Z (byte_val v) = v.
Proof.
  unfold byte_of_Z. pose proof (byte_val_range v) as Hr.
  rewrite Z.mod_small by lia.
  unfold byte_val. rewrite N2Z.id, Byte.of_to_N. reflexivity.
Qed.

(** A property checked on the 256 bytes holds of every byte. *)
Lemma for_all_bytes (P : byte -> bool) :
  all_below 256 (fun i => P (byte_of_Z (Z.of_nat i))) = true ->
  forall v, P v = true.
Proof.
  intros Hall v.
  pose proof (byte_val_range v) as Hr.
  pose proof (all_below_spec _ _ Hall (Z.to_nat (byte_val v))) as Hv.
  cbv beta in Hv. rewrite Z2Nat.id, byte_of_Z_val in Hv by lia.
  apply Hv. lia.
Qed.

Lemma hex_byte_digits (v : byte) :
  let hi := table_at hextable (Z.shiftr (byte_val v) 4) in
  let lo := table_at hextable (Z.land (byte_val v) 15) in
  is_lower_hex hi = true
  /\ is_lower_hex lo = true
  /\ (exists a b, fromHexChar hi = Some a /\ fromHexChar lo = Some b
                  /\ byte_of_Z (Z.lor (Z.shiftl a 4) b) = v).
Proof.
  intros hi lo.
  assert (Hok : hex_byte_ok v = true).
  { apply for_all_bytes. vm_compute. reflexivity. }
  unfold hex_byte_ok in Hok. fold hi lo in Hok.
  apply andb_prop in Hok as [Hok Hdec]. apply andb_prop in Hok as [Hhi Hlo].
  split; [exact Hhi |]. split; [exact Hlo |].
  destruct (fromHexChar hi) as [a |]; [| discriminate].
  destruct (fromHexChar lo) as [b |]; [| discriminate].
  exists a, b. split; [reflexivity |]. split; [reflexivity |].
  apply Byte.byte_dec_bl. exact Hdec.
Qed.

Lemma hex_EncodeToString_length (src : bytes) :
  String.length (hex_EncodeToString src) = (2 * length src)%nat.
Proof.
  induction src as [| v rest IH]; simpl; [reflexivity |].
  rewrite IH. lia.
Qed.

Lemma hex_EncodeToString_lower (src : bytes) :
  Forall (fun ch => is_lower_hex ch = true) (list_ascii_of_string (hex_EncodeToString src)).
Proof.
  induction src as [| v rest IH]; simpl; [constructor |].
  destruct (hex_byte_digits v) as (Hhi & Hlo & _).
  constructor; [exact Hhi |]. constructor; [exact Hlo | exact IH].
Qed.

Lemma hex_Decode_Encode (src : bytes) :
  hex_DecodeString (hex_EncodeToString src) = Some src.
Proof.
  induction src as [| v rest IH]; [reflexivity |].
  destruct (hex_byte_digits v) as (_ & _ & a & b & Ha & Hb & Hv).
  cbn [hex_EncodeToString hex_DecodeString].
  rewrite Ha, Hb, IH, Hv. reflexivity.
Qed.

Lemma MD5_Sum_length (data : bytes) : length (MD5.Sum data) = 16%nat.
Proof.
  unfold MD5.Sum.
  destruct (MD5.blocks _ MD5.init _) as [a b c d].
  reflexivity.
Qed.

(** C1.  For a non-empty key [K] and any body [B], [signRequest] succeeds
    and returns the lower-case hexadecimal encoding of the MD5 digest of
    the bytes of [base64(B) ++ K]: the result is that very string, it has
    32 characters, all of them in [0-9a-f], and decoding it gives back the
    16 bytes of the digest. *)
Theorem signRequest_is_hex_md5_of_base64_and_key (K : string) (B : bytes) :
  K ≠ "" ->
  let digest := MD5.Sum (bytes_of_string (base64_EncodeToString B +:+ K)) in
  signRequest K B = Ok (hex_EncodeToString digest)
  /\ length digest = 16%nat
  /\ String.length (hex_EncodeToString digest) = 32%nat
  /\ Forall (fun ch => is_lower_hex ch = true)
       (list_ascii_of_string (hex_EncodeToString digest))
  /\ hex_DecodeString (hex_EncodeToString digest) = Some digest.
Proof.
  intros HK digest.
  split.
  { unfold signRequest. destruct (decide (K = "")) as [HE | _]; [contradiction | reflexivity]. }
  split; [apply MD5_Sum_length |].
  split.
  { rewrite hex_EncodeToString_length. unfold digest. rewrite MD5_Sum_length. reflexivity. }
  split; [apply hex_EncodeToString_lower | apply hex_Decode_Encode].
Qed.

Lemma signRequest_is_hex_md5_of_base64_and_key_witness :
  signRequest "key" (bytes_of_string "{}") = Ok "5d804dfcbf33c7c3141d37b429eb7999".
Proof.
  assert (Hne : "key" ≠ "") by discriminate.
  rewrite (proj1 (signRequest_is_hex_md5_of_base64_and_key "key" (bytes_of_string "{}") Hne)).
  vm_compute. reflexivity.
Defined.

(** C7.  Signing with the empty key fails with the empty-key error,
    whatever the body. *)
Theorem signRequest_empty_key (B : bytes) :
  signRequest "" B = Err EmptyKeyError.
Proof. reflexivity. Qed.

(** ** Verification of a received signature *)

Section VerifySignFacts.
Context `{JSONLib}.

Lemma to_interface_object (members : list (string * json float64)) :
  to_interface (JObject members) = VMap (object_to_map members).
Proof. reflexivity. Qed.

(** [VerifySign] on a body that is a JSON object, as a function of the
    decoded map. *)
Lemma VerifySign_object (K : string) (body : bytes) members :
  json_parse body = Some (JObject members) ->
  VerifySign K body =
    match object_to_map members !! "sign" with
    | Some (VString reqSign) =>
        match signRequest K (bytes_of_string
                (encode (VMap (delete "sign" (object_to_map members))))) with
        | Err err =>
            Some (fmt_Errorf "failed to generate expected signature: %w" [AErr err])
        | Ok expectedSign =>
            if decide (reqSign ≠ expectedSign) then Some InvalidSignatureError else None
        end
    | _ => Some MissingSignatureError
    end.
Proof.
  intros Hparse. unfold VerifySign, json_Unmarshal_map. rewrite Hparse.
  cbn [gomap_index gomap_delete json_Marshal_map].
  destruct (object_to_map members !! "sign") as [[| b | f | s | l | m] |]; reflexivity.
Qed.

Lemma modifiedBody_of_object (body : bytes) members :
  json_parse body = Some (JObject members) ->
  modifiedBody_of body
  = Ok (bytes_of_string (encode (VMap (delete "sign" (object_to_map members))))).
Proof.
  intros Hparse. unfold modifiedBody_of, json_Unmarshal_map. rewrite Hparse. reflexivity.
Qed.

(** The comparison of [VerifySign] is made against the signature of
    [modifiedBody_of]. *)
Lemma VerifySign_modifiedBody (K : string) (body : bytes) members reqSign :
  json_parse body = Some (JObject members) ->
  object_to_map members !! "sign" = Some (VString reqSign) ->
  exists modifiedBody,
    modifiedBody_of body = Ok modifiedBody
    /\ VerifySign K body =
       match signRequest K modifiedBody with
       | Err err =>
           Some (fmt_Errorf "failed to generate expected signature: %w" [AErr err])
       | Ok expectedSign =>
           if decide (reqSign ≠ expectedSign) then Some InvalidSignatureError else None
       end.
Proof.
  intros Hparse Hsign. eexists. split; [apply modifiedBody_of_object, Hparse |].
  rewrite (VerifySign_object K body members Hparse), Hsign. reflexivity.
Qed.

(** C2, as amended.  For a body that parses as a JSON object: without a
    string-typed [sign] field [VerifySign] fails with the missing-signature
    error, whatever the key; with one and a non-empty key it succeeds
    exactly when the field equals the signature of the re-serialized
    remainder and fails with the invalid-signature error otherwise; with
    one and the empty key it fails with the wrapped empty-key error of
    [signRequest]. *)
Theorem VerifySign_checks_signature (K : string) (body : bytes) members :
  json_parse body = Some (JObject members) ->
  let m := object_to_map members in
  let canonical := bytes_of_string (encode (VMap (delete "sign" m))) in
  ((forall s, m !! "sign" ≠ Some (VString s)) ->
     VerifySign K body = Some MissingSignatureError)
  /\ (forall s, m !! "sign" = Some (VString s) ->
        (K ≠ "" ->
           (VerifySign K body = None <-> signRequest K canonical = Ok s)
           /\ (signRequest K canonical ≠ Ok s ->
               VerifySign K body = Some InvalidSignatureError))
        /\ (K = "" ->
            VerifySign K body
            = Some (fmt_Errorf "failed to generate expected signature: %w"
                      [AErr EmptyKeyError]))).
Proof.
  intros Hparse m canonical.
  rewrite (VerifySign_object K body members Hparse). fold m. fold canonical.
  split.
  - intros Hnone.
    destruct (m !! "sign") as [[| b | f | s | l | m'] |]; try reflexivity.
    exfalso. exact (Hnone s eq_refl).
  - intros s ->. split.
    + intros HK. unfold signRequest.
      destruct (decide (K = "")) as [? | _]; [contradiction |].
      cbv zeta.
      set (expected := hex_EncodeToString _).
      destruct (decide (s ≠ expected)) as [Hne | Heq].
      * split; [| reflexivity].
        split; [discriminate |]. intros [= Hs]. congruence.
      * apply dec_stable in Heq. subst s.
        split; [split; reflexivity |]. intros Hdiff. exfalso. apply Hdiff. reflexivity.
    + intros ->. reflexivity.
Qed.

End VerifySignFacts.

Lemma VerifySign_checks_signature_witness :
  VerifySign "key" callback_body_sorted_sign = None
  /\ VerifySign "key" callback_body = Some InvalidSignatureError
  /\ VerifySign "key" callback_body_unsigned = Some MissingSignatureError.
Proof.
  assert (Hkey : "key" ≠ "") by discriminate.
  split; [| split].
  - pose proof (VerifySign_checks_signature "key" callback_body_sorted_sign _ eq_refl)
      as [_ Hsigned].
    destruct (Hsigned "ba0c8b99b9e3606cff32e23cca2f8e40" eq_refl) as [Hnonempty _].
    apply (Hnonempty Hkey). vm_compute. reflexivity.
  - pose proof (VerifySign_checks_signature "key" callback_body _ eq_refl)
      as [_ Hsigned].
    destruct (Hsigned "7aef8be31c7abf1a25c746e2e591e567" eq_refl) as [Hnonempty _].
    apply (Hnonempty Hkey). vm_compute. discriminate.
  - pose proof (VerifySign_checks_signature "key" callback_body_unsigned _ eq_refl)
      as [Hmissing _].
    apply Hmissing. intros s. vm_compute. discriminate.
Defined.

(** C2, as stated, fails for the empty key: the body carries a string
    [sign] that differs from every signature, and the outcome is the
    wrapped empty-key error, not the invalid-signature error. *)
Lemma VerifySign_as_specified_fails_for_empty_key :
  ~ VerifySign_as_specified "" callback_body.
Proof.
  intros Hclaim.
  specialize (Hclaim _ eq_refl). cbv zeta in Hclaim.
  change (object_to_map _ !! "sign")
    with (Some (VString (F := Z) "7aef8be31c7abf1a25c746e2e591e567")) in Hclaim.
  cbv beta iota in Hclaim.
  destruct Hclaim as [_ Hinvalid].
  assert (Hdiff : VerifySign "" callback_body ≠ Some InvalidSignatureError)
    by (vm_compute; discriminate).
  apply Hdiff, Hinvalid. discriminate.
Qed.

(** ** The order of the re-serialized fields *)

Section FieldOrder.
Context `{JSONLib}.

#[local] Instance key_le_trans {A} : Transitive (@key_le A).
Proof. intros x y z. unfold key_le. apply transitivity. Qed.

#[local] Instance key_le_total {A} : Total (@key_le A).
Proof. intros x y. unfold key_le. apply String.le_total. Qed.

Lemma sorted_entries_perm {A} (m : gmap string A) : sorted_entries m ≡ₚ map_to_list m.
Proof. apply merge_sort_Permutation. Qed.

Lemma sorted_entries_keys_NoDup {A} (m : gmap string A) : NoDup (sorted_entries m).*1.
Proof.
  rewrite (fmap_Permutation fst _ _ (sorted_entries_perm m)).
  apply NoDup_fst_map_to_list.
Qed.

(** The keys come out in strictly ascending byte order. *)
Lemma sorted_entries_ascending {A} (m : gmap string A) :
  StronglySorted (fun a b => String.le a b /\ a ≠ b) (sorted_entries m).*1.
Proof.
  pose proof (sorted_entries_keys_NoDup m) as Hnd.
  pose proof (StronglySorted_merge_sort (@key_le A) (map_to_list m)) as Hs.
  fold (sorted_entries m) in Hs.
  induction (sorted_entries m) as [| kv l IH]; [constructor |].
  apply StronglySorted_inv in Hs as [Hl Hkv].
  apply NoDup_cons in Hnd as [Hnotin Hnd].
  cbn [fmap list_fmap]. constructor; [apply IH; assumption |].
  apply Forall_fmap, Forall_forall. intros kv' Hin.
  rewrite Forall_forall in Hkv. split; [apply Hkv, Hin |].
  intros Heq. apply Hnotin. rewrite Heq. apply list_elem_of_fmap. eauto.
Qed.

Lemma sorted_entries_keys {A} (m : gmap string A) (k : string) :
  k ∈ (sorted_entries m).*1 <-> is_Some (m !! k).
Proof.
  rewrite (fmap_Permutation fst _ _ (sorted_entries_perm m)).
  rewrite list_elem_of_fmap. split.
  - intros ([k' v] & -> & Hin). apply elem_of_map_to_list in Hin. eauto.
  - intros [v Hv]. exists (k, v). split; [reflexivity |]. apply elem_of_map_to_list, Hv.
Qed.

(** The keys of the decoded map are the keys of the received members. *)
Lemma fold_insert_keys (members : list (string * json float64))
    (acc : gmap string (value float64)) (k : string) :
  is_Some (fold_left (fun m kv => let '(k, v) := kv in <[k := to_interface v]> m)
             members acc !! k)
  <-> k ∈ members.*1 \/ is_Some (acc !! k).
Proof.
  revert acc. induction members as [| [k' v] rest IH]; intros acc; cbn [fold_left].
  - rewrite fmap_nil, elem_of_nil. tauto.
  - rewrite IH, fmap_cons, elem_of_cons. cbn [fst].
    rewrite lookup_insert_is_Some. destruct (decide (k' = k)) as [-> | Hne]; [tauto |].
    split; [intros [? | [? | [_ ?]]] | intros [[? | ?] | ?]]; auto; congruence.
Qed.

Lemma object_to_map_keys (members : list (string * json float64)) (k : string) :
  is_Some (object_to_map members !! k) <-> k ∈ members.*1.
Proof.
  unfold object_to_map. rewrite fold_insert_keys, lookup_empty.
  split; [intros [? | [? ?]]; [assumption | discriminate] | auto].
Qed.

(** With distinct keys the decoded map does not depend on the order in
    which the members were received. *)
Lemma fold_insert_perm (l1 l2 : list (string * json float64)) :
  l1 ≡ₚ l2 -> NoDup l1.*1 ->
  forall acc : gmap string (value float64),
    fold_left (fun m kv => let '(k, v) := kv in <[k := to_interface v]> m) l1 acc
    = fold_left (fun m kv => let '(k, v) := kv in <[k := to_interface v]> m) l2 acc.
Proof.
  induction 1 as [| [k v] l1 l2 Hp IH | [k1 v1] [k2 v2] l | l1 l2 l3 Hp1 IH1 Hp2 IH2];
    intros Hnd acc; cbn [fold_left].
  - reflexivity.
  - apply IH. rewrite fmap_cons in Hnd. apply NoDup_cons in Hnd as [_ ?]. assumption.
  - rewrite insert_insert_ne; [reflexivity |].
    rewrite !fmap_cons in Hnd. apply NoDup_cons in Hnd as [Hnotin _].
    cbn [fst] in Hnotin. intros ->. apply Hnotin. left.
  - rewrite IH1 by assumption. apply IH2.
    rewrite <- (fmap_Permutation fst _ _ Hp1). assumption.
Qed.

Lemma object_to_map_perm (l1 l2 : list (string * json float64)) :
  l1 ≡ₚ l2 -> NoDup l1.*1 -> object_to_map l1 = object_to_map l2.
Proof. intros Hp Hnd. apply fold_insert_perm; assumption. Qed.

(** C3, as amended.  The body that [VerifySign] re-serializes does not
    keep the received order: it holds exactly the received keys other
    than [sign], each once, in strictly ascending byte order of the keys;
    and two bodies whose distinct fields are a rearrangement of one
    another are re-serialized to the same bytes. *)
Theorem VerifySign_reserializes_in_key_order (body : bytes) members :
  json_parse body = Some (JObject members) ->
  exists fields : list (string * string),
    modifiedBody_of body
    = Ok (bytes_of_string ("{" +:+ strings_Join (map field_text fields) "," +:+ "}"))
    /\ StronglySorted (fun a b => String.le a b /\ a ≠ b) fields.*1
    /\ (forall k, k ∈ fields.*1 <-> k ∈ members.*1 /\ k ≠ "sign")
    /\ (forall body' members',
          json_parse body' = Some (JObject members') ->
          members' ≡ₚ members -> NoDup members.*1 ->
          modifiedBody_of body' = modifiedBody_of body).
Proof.
  intros Hparse.
  exists (sorted_entries (encode <$> delete "sign" (object_to_map members))).
  split; [| split; [| split]].
  - rewrite (modifiedBody_of_object body members Hparse). reflexivity.
  - apply sorted_entries_ascending.
  - intros k. rewrite sorted_entries_keys, lookup_fmap, fmap_is_Some.
    rewrite lookup_delete_is_Some, object_to_map_keys. split; intros [? ?]; split; auto.
  - intros body' members' Hparse' Hperm Hnd.
    rewrite (modifiedBody_of_object body' members' Hparse').
    rewrite (modifiedBody_of_object body members Hparse).
    rewrite (object_to_map_perm members members'); [reflexivity | | assumption].
    symmetry. assumption.
Qed.

End FieldOrder.

Lemma VerifySign_reserializes_in_key_order_witness :
  json_parse callback_body = Some (JObject callback_members)
  /\ exists fields : list (string * string),
       modifiedBody_of callback_body
       = Ok (bytes_of_string ("{" +:+ strings_Join (map field_text fields) "," +:+ "}"))
       /\ StronglySorted (fun a b => String.le a b /\ a ≠ b) fields.*1
       /\ (forall k, k ∈ fields.*1 <-> k ∈ callback_members.*1 /\ k ≠ "sign")
       /\ (forall body' members',
             json_parse body' = Some (JObject members') ->
             members' ≡ₚ callback_members -> NoDup callback_members.*1 ->
             modifiedBody_of body' = modifiedBody_of callback_body).
Proof.
  split; [reflexivity |].
  exact (VerifySign_reserializes_in_key_order (H := json_lib)
           callback_body callback_members eq_refl).
Defined.

Example modifiedBody_of_callback :
  modifiedBody_of callback_body = Ok (jsb "{'order_id':'1','status':'paid'}").
Proof. vm_compute. reflexivity. Qed.

(** C3, as stated, fails: the callback is received as [status],
    [order_id], [sign] and re-serialized as [order_id], [status]. *)
Lemma order_preserved_fails_on_callback : ~ order_preserved callback_body.
Proof.
  intros Hclaim. specialize (Hclaim callback_members eq_refl).
  vm_compute in Hclaim. discriminate Hclaim.
Qed.

(** ** Local preconditions: no call without an identifier or a currency *)

Ltac io_unfold :=
  unfold mret, mbind, IO_ret, IO_bind, client_Do, fmt_Printf in *.

Lemma TrimSpace_start_white (s : string) :
  Forall (fun ch => Ascii.is_space ch = true) (list_ascii_of_string s) ->
  TrimSpace_start s = (EmptyString, false).
Proof.
  induction s as [| ch rest IH]; cbn [list_ascii_of_string TrimSpace_start];
    intros Hall; [reflexivity |].
  apply Forall_cons in Hall as [Hch Hrest].
  assert (Hascii : (128 <=? code ch) = false).
  { destruct ch as [[] [] [] [] [] [] [] []]; try discriminate Hch; reflexivity. }
  rewrite Hascii, Hch. apply IH, Hrest.
Qed.

(** A string of ASCII white space only is trimmed to the empty string,
    whatever the library does outside ASCII. *)
Lemma strings_TrimSpace_white (trim trimRight : string -> string) (s : string) :
  Forall (fun ch => Ascii.is_space ch = true) (list_ascii_of_string s) ->
  strings_TrimSpace trim trimRight s = "".
Proof.
  intros Hall. unfold strings_TrimSpace.
  rewrite (TrimSpace_start_white s Hall). reflexivity.
Qed.

Section Preconditions.
Context `{JSONLib, NetLib}.
Variable fetch : Cryptomus -> string -> string -> payload -> IO (result Response).

(** C8.  With [UUID] and [OrderId] both empty, [GetRecurrenceInfo] and
    [CancelRecurrence] return the precondition error and leave the world
    as it was: nothing is handed to the transport, whatever [fetch] and
    the transport are. *)
Theorem recurrence_lookup_requires_identifier (c : Cryptomus) (w : World) :
  GetRecurrenceInfo fetch c (Some (mkRecurrenceInfoRequest "" "")) w
  = (Err (errors_New "either uuid or order_id must be provided"), w)
  /\ CancelRecurrence fetch c (Some (mkRecurrenceCancelRequest "" "")) w
     = (Err (errors_New "either uuid or order_id must be provided"), w).
Proof. split; reflexivity. Qed.

(** C10.  [ListExchangeRates] answers the empty currency with a local
    error and leaves the world as it was, in all three revisions; the two
    revisions that trim do the same for every currency that trims to the
    empty string, which every string of white space does. *)
Theorem ListExchangeRates_requires_currency (c : Cryptomus) (w : World) :
  ExchangeA.ListExchangeRates fetch c "" w
  = (Err (errors_New "currency parameter is required"), w)
  /\ (forall currency,
        strings_TrimSpace TrimFunc_IsSpace TrimRightFunc_IsSpace currency = "" ->
        ExchangeB.ListExchangeRates fetch c currency w
        = (Err (errors_New "currency parameter is required"), w)
        /\ ExchangeC.ListExchangeRates c currency w
           = (Err (errors_New "currency parameter is required"), w))
  /\ (forall currency,
        Forall (fun ch => Ascii.is_space ch = true) (list_ascii_of_string currency) ->
        strings_TrimSpace TrimFunc_IsSpace TrimRightFunc_IsSpace currency = "").
Proof.
  split; [reflexivity |]. split.
  - intros currency Htrim.
    unfold ExchangeB.ListExchangeRates, ExchangeC.ListExchangeRates.
    rewrite Htrim. split; reflexivity.
  - intros currency. apply strings_TrimSpace_white.
Qed.

End Preconditions.

Lemma ListExchangeRates_requires_currency_witness :
  let c := merchant BaseURL (answering state_zero_null) in
  let white := String " " (String (ascii_of_nat 9) (String " " EmptyString)) in
  ExchangeB.ListExchangeRates Joined.fetch c white idle
  = (Err (errors_New "currency parameter is required"), idle)
  /\ ExchangeC.ListExchangeRates c white idle
     = (Err (errors_New "currency parameter is required"), idle).
Proof.
  intros c white.
  destruct (ListExchangeRates_requires_currency Joined.fetch c idle) as (_ & Htrim & Hwhite).
  apply Htrim, Hwhite. vm_compute. repeat constructor.
Defined.

(** ** What [fetch] hands to the transport *)

Lemma app_singleton_neq {A} (l : list A) (x : A) : l ≠ l ++ [x].
Proof.
  intros Heq. apply (f_equal length) in Heq. rewrite length_app in Heq.
  cbn [length] in Heq. lia.
Qed.

Lemma http_NewRequest_Ok `{NetLib} (method url : string) (body : bytes) (req : Request) :
  http_NewRequest method url body = Ok req -> req = mkRequest method url ∅ body.
Proof.
  unfold http_NewRequest. destruct (negb (http_validMethod method)); [discriminate |].
  destruct (url_Parse url); [| discriminate]. intros [= <-]. reflexivity.
Qed.

Section FetchFacts.
Context `{JSONLib, NetLib}.

(** The request of the first revision: the marshalled payload as body,
    its signature in the [sign] header, base and endpoint concatenated as
    target. *)
Lemma Concat_fetch_dispatch (c : Cryptomus) (method endpoint : string) (p : payload)
    (w w' : World) (r : result Response) (req : Request) :
  Concat.fetch c method endpoint p w = (r, w') ->
  sent w' = sent w ++ [req] ->
  json_Marshal p = Ok (Body req)
  /\ (exists sign, signRequest (paymentApiKey c) (Body req) = Ok sign
                   /\ Header req !! "sign" = Some sign)
  /\ Header req !! "merchant" = Some (merchantID c)
  /\ Header req !! "Content-Type" = Some "application/json"
  /\ Method req = method
  /\ RequestURL req = baseURL c +:+ endpoint.
Proof.
  unfold Concat.fetch. intros Hrun Hsent.
  destruct (json_Marshal p) as [body |] eqn:Hbody.
  2:{ io_unfold. injection Hrun as _ <-. destruct (app_singleton_neq _ _ Hsent). }
  destruct (signRequest (paymentApiKey c) body) as [sign |] eqn:Hsign.
  2:{ io_unfold. injection Hrun as _ <-. destruct (app_singleton_neq _ _ Hsent). }
  destruct (http_NewRequest method (baseURL c +:+ endpoint) body) as [req0 |] eqn:Hreq.
  2:{ io_unfold. injection Hrun as _ <-. destruct (app_singleton_neq _ _ Hsent). }
  apply http_NewRequest_Ok in Hreq. subst req0.
  io_unfold. cbv beta iota zeta in Hrun.
  assert (Hreq : req = Header_Set (Header_Set (Header_Set
            (mkRequest method (baseURL c +:+ endpoint) ∅ body)
            "Content-Type" "application/json") "merchant" (merchantID c)) "sign" sign).
  { destruct (client c _); injection Hrun as _ <-; cbn [sent] in Hsent;
      apply app_inv_head in Hsent; injection Hsent as <-; reflexivity. }
  subst req. cbn [Body Header Method RequestURL Header_Set].
  split; [reflexivity |]. split; [exists sign; split; [assumption |] |].
  - apply lookup_insert_eq.
  - split; [rewrite lookup_insert_ne by discriminate; apply lookup_insert_eq |].
    split; [rewrite !lookup_insert_ne by discriminate; apply lookup_insert_eq |].
    split; [reflexivity |]. first [reflexivity | assumption].
Qed.

(** The request of the later revision: no body for a nil payload, the
    target built by [joinURL]. *)
Lemma Joined_fetch_dispatch (c : Cryptomus) (method endpoint : string) (p : payload)
    (w w' : World) (r : result Response) (req : Request) :
  Joined.fetch c method endpoint p w = (r, w') ->
  sent w' = sent w ++ [req] ->
  match p with
  | PNil => Body req = []
  | _ => json_Marshal p = Ok (Body req)
  end
  /\ (exists sign, signRequest (paymentApiKey c) (Body req) = Ok sign
                   /\ Header req !! "sign" = Some sign)
  /\ Header req !! "merchant" = Some (merchantID c)
  /\ Header req !! "Content-Type" = Some "application/json"
  /\ Method req = method
  /\ joinURL (baseURL c) endpoint = Ok (RequestURL req).
Proof.
  unfold Joined.fetch. intros Hrun Hsent.
  destruct (match p with PNil => Ok [] | _ => json_Marshal p end) as [body |] eqn:Hbody.
  2:{ io_unfold. injection Hrun as _ <-. destruct (app_singleton_neq _ _ Hsent). }
  destruct (signRequest (paymentApiKey c) body) as [sign |] eqn:Hsign.
  2:{ io_unfold. injection Hrun as _ <-. destruct (app_singleton_neq _ _ Hsent). }
  destruct (joinURL (baseURL c) endpoint) as [fullURL |] eqn:Hjoin.
  2:{ io_unfold. injection Hrun as _ <-. destruct (app_singleton_neq _ _ Hsent). }
  destruct (http_NewRequest method fullURL body) as [req0 |] eqn:Hreq.
  2:{ io_unfold. injection Hrun as _ <-. destruct (app_singleton_neq _ _ Hsent). }
  apply http_NewRequest_Ok in Hreq. subst req0.
  io_unfold. cbv beta iota zeta in Hrun.
  assert (Hreq : req = Header_Set (Header_Set (Header_Set
            (mkRequest method fullURL ∅ body)
            "Content-Type" "application/json") "merchant" (merchantID c)) "sign" sign).
  { destruct (client c _); injection Hrun as _ <-; cbn [sent] in Hsent;
      apply app_inv_head in Hsent; injection Hsent as <-; reflexivity. }
  subst req. cbn [Body Header Method RequestURL Header_Set].
  split; [destruct p; congruence |]. split; [exists sign; split; [assumption |] |].
  - apply lookup_insert_eq.
  - split; [rewrite lookup_insert_ne by discriminate; apply lookup_insert_eq |].
    split; [rewrite !lookup_insert_ne by discriminate; apply lookup_insert_eq |].
    split; [reflexivity |]. first [reflexivity | assumption].
Qed.

(** In both revisions the [sign] header is the signature of the very
    bytes that are sent as the body. *)
Lemma fetch_signs_the_sent_body (c : Cryptomus) (method endpoint : string) (p : payload)
    (w w' : World) (r : result Response) (req : Request) :
  (Concat.fetch c method endpoint p w = (r, w')
   \/ Joined.fetch c method endpoint p w = (r, w')) ->
  sent w' = sent w ++ [req] ->
  exists sign, signRequest (paymentApiKey c) (Body req) = Ok sign
               /\ Header req !! "sign" = Some sign.
Proof.
  intros [Hrun | Hrun] Hsent.
  - apply (Concat_fetch_dispatch _ _ _ _ _ _ _ _ Hrun Hsent).
  - apply (Joined_fetch_dispatch _ _ _ _ _ _ _ _ Hrun Hsent).
Qed.

(** The later revision signs the empty byte sequence for a nil payload. *)
Lemma Joined_fetch_nil_payload (c : Cryptomus) (method endpoint : string)
    (w w' : World) (r : result Response) (req : Request) :
  Joined.fetch c method endpoint PNil w = (r, w') ->
  sent w' = sent w ++ [req] ->
  Body req = []
  /\ exists sign, signRequest (paymentApiKey c) [] = Ok sign
                  /\ Header req !! "sign" = Some sign.
Proof.
  intros Hrun Hsent.
  destruct (Joined_fetch_dispatch _ _ _ _ _ _ _ _ Hrun Hsent) as (Hbody & Hsign & _).
  split; [exact Hbody |]. rewrite <- Hbody. exact Hsign.
Qed.

(** C4, at the input on which the first revision departs from it: for a
    nil payload [fetch] of src/cryptomus.go sends the four bytes [null]
    as the body and puts their signature in the [sign] header. *)
Theorem Concat_fetch_nil_payload_signs_null (c : Cryptomus) (method endpoint : string)
    (w w' : World) (r : result Response) (req : Request) :
  Concat.fetch c method endpoint PNil w = (r, w') ->
  sent w' = sent w ++ [req] ->
  Body req = bytes_of_string "null"
  /\ exists sign, signRequest (paymentApiKey c) (bytes_of_string "null") = Ok sign
                  /\ Header req !! "sign" = Some sign.
Proof.
  intros Hrun Hsent.
  destruct (Concat_fetch_dispatch _ _ _ _ _ _ _ _ Hrun Hsent) as (Hbody & Hsign & _).
  injection Hbody as Hbody. split; [symmetry; exact Hbody |].
  rewrite Hbody. exact Hsign.
Qed.

(** C9, at the input on which the first revision departs from it: the
    target of [fetch] of src/cryptomus.go is the base address followed by
    the endpoint, character for character. *)
Theorem Concat_fetch_target_is_concatenation (c : Cryptomus) (method endpoint : string)
    (p : payload) (w w' : World) (r : result Response) (req : Request) :
  Concat.fetch c method endpoint p w = (r, w') ->
  sent w' = sent w ++ [req] ->
  RequestURL req = baseURL c +:+ endpoint.
Proof.
  intros Hrun Hsent.
  apply (Concat_fetch_dispatch _ _ _ _ _ _ _ _ Hrun Hsent).
Qed.

End FetchFacts.

Lemma Concat_fetch_nil_payload_signs_null_witness :
  let c := merchant BaseURL (answering state_zero_null) in
  let run := Concat.fetch c "GET" "/v1/exchange-rate/USDT/list" PNil idle in
  exists req,
    sent (snd run) = sent idle ++ [req]
    /\ Body req = bytes_of_string "null"
    /\ Header req !! "sign" = Some "2b020b72ae57d4c6a80537c4a6dd3020"
    /\ signRequest (paymentApiKey c) [] = Ok "8ce4b16b22b58894aa86c421e8759df3".
Proof.
  intros c run.
  set (req := hd (mkRequest "" "" ∅ []) (sent (snd run))).
  assert (Hsent : sent (snd run) = sent idle ++ [req]) by (vm_compute; reflexivity).
  destruct (Concat_fetch_nil_payload_signs_null c "GET" "/v1/exchange-rate/USDT/list"
              idle (snd run) (fst run) req (surjective_pairing run) Hsent)
    as (Hbody & sign & Hsign & Hheader).
  exists req. split; [exact Hsent |]. split; [exact Hbody |]. split.
  - rewrite Hheader. vm_compute in Hsign. injection Hsign as <-. reflexivity.
  - vm_compute. reflexivity.
Defined.

Lemma Concat_fetch_target_is_concatenation_witness :
  let c := SetBaseURL (merchant BaseURL (answering state_zero_null))
             "https://api.cryptomus.com/v1/" in
  let p := PRecurrenceInfoRequest (mkRecurrenceInfoRequest "u-1" "") in
  let run := Concat.fetch c "POST" recurrenceInfoEndpoint p idle in
  exists req,
    sent (snd run) = sent idle ++ [req]
    /\ RequestURL req = "https://api.cryptomus.com/v1//recurrence/info"
    /\ joinURL (baseURL c) recurrenceInfoEndpoint
       = Ok "https://api.cryptomus.com/v1/recurrence/info".
Proof.
  intros c p run.
  set (req := hd (mkRequest "" "" ∅ []) (sent (snd run))).
  assert (Hsent : sent (snd run) = sent idle ++ [req]) by (vm_compute; reflexivity).
  pose proof (Concat_fetch_target_is_concatenation c "POST" recurrenceInfoEndpoint p
                idle (snd run) (fst run) req (surjective_pairing run) Hsent) as Htarget.
  exists req. split; [exact Hsent |]. split.
  - rewrite Htarget. reflexivity.
  - vm_compute. reflexivity.
Defined.

(** ** The response envelope *)

Section EnvelopeFacts.
Context `{JSONLib, NetLib}.
Variable fetch : Cryptomus -> string -> string -> payload -> IO (result Response).

Ltac run_with Hfetch :=
  io_unfold; rewrite Hfetch; cbv beta iota zeta.

(** State 0 without a result is an error in the four recurrence
    operations, and so is state 0 with an empty list of rates in the
    second and the third revision of [ListExchangeRates]. *)
Lemma empty_result_is_rejected (c : Cryptomus) (w w' : World) (res : Response) :
  StatusCode res = 200 ->
  (forall recReq,
      fetch c "POST" createRecurrenceEndpoint (PRecurrenceRequest recReq) w = (Ok res, w') ->
      Decode_recurrenceRawResponse (ResponseBody res) = Ok (mkRecurrenceRaw 0 None) ->
      CreateRecurrence fetch c (Some recReq) w = (Err EmptyResultError, w'))
  /\ (forall infoReq errs,
        ~ (info_UUID infoReq = "" /\ info_OrderId infoReq = "") ->
        fetch c "POST" recurrenceInfoEndpoint (PRecurrenceInfoRequest infoReq) w
        = (Ok res, w') ->
        Decode_recurrenceInfoRawResponse (ResponseBody res)
        = Ok (mkRecurrenceInfoRaw 0 None errs) ->
        GetRecurrenceInfo fetch c (Some infoReq) w = (Err EmptyResultError, w'))
  /\ (forall cursor,
        fetch c "POST" recurrenceListEndpoint
          (PMap (if decide (cursor ≠ "") then <["cursor" := VString cursor]> ∅ else ∅)) w
        = (Ok res, w') ->
        Decode_recurrenceListRawResponse (ResponseBody res) = Ok (mkRecurrenceListRaw 0 None) ->
        ListRecurrences fetch c cursor w = (Err EmptyResultError, w'))
  /\ (forall cancelReq errs,
        ~ (cancel_UUID cancelReq = "" /\ cancel_OrderId cancelReq = "") ->
        fetch c "POST" recurrenceCancelEndpoint (PRecurrenceCancelRequest cancelReq) w
        = (Ok res, w') ->
        Decode_recurrenceCancelRawResponse (ResponseBody res)
        = Ok (mkRecurrenceCancelRaw 0 None errs) ->
        CancelRecurrence fetch c (Some cancelReq) w = (Err EmptyResultError, w'))
  /\ (forall currency,
        let trimmed := strings_TrimSpace TrimFunc_IsSpace TrimRightFunc_IsSpace currency in
        trimmed ≠ "" ->
        fetch c "GET" (fmt_Sprintf ExchangeB.exchangeRateListEndpoint trimmed) PNil w
        = (Ok res, w') ->
        Decode_exchangeRateListRawResponse (ResponseBody res)
        = Ok (mkExchangeRateListRaw 0 []) ->
        ExchangeB.ListExchangeRates fetch c currency w
        = (Err (errors_New "exchange rate list is empty"), w'))
  /\ (forall currency fullURL req,
        let trimmed := strings_TrimSpace TrimFunc_IsSpace TrimRightFunc_IsSpace currency in
        trimmed ≠ "" ->
        joinURL (baseURL c) (fmt_Sprintf ExchangeC.exchangeRateListEndpoint trimmed)
        = Ok fullURL ->
        http_NewRequest "GET" fullURL [] = Ok req ->
        client c (Header_Set req "Accept" "application/json") = Ok res ->
        Decode_exchangeRateListRawResponse (ResponseBody res)
        = Ok (mkExchangeRateListRaw 0 []) ->
        fst (ExchangeC.ListExchangeRates c currency w)
        = Err (errors_New "exchange rate list is empty")).
Proof.
  intros Hstatus. repeat apply conj.
  - intros recReq Hfetch Hdecode. unfold CreateRecurrence. run_with Hfetch.
    rewrite Hstatus, Hdecode. reflexivity.
  - intros infoReq errs Hid Hfetch Hdecode. unfold GetRecurrenceInfo.
    destruct (decide _) as [? | _]; [contradiction |]. run_with Hfetch.
    rewrite Hstatus, Hdecode. reflexivity.
  - intros cursor Hfetch Hdecode. unfold ListRecurrences. cbv zeta. run_with Hfetch.
    rewrite Hstatus, Hdecode. reflexivity.
  - intros cancelReq errs Hid Hfetch Hdecode. unfold CancelRecurrence.
    destruct (decide _) as [? | _]; [contradiction |]. run_with Hfetch.
    rewrite Hstatus, Hdecode. reflexivity.
  - intros currency trimmed Hne Hfetch Hdecode. unfold ExchangeB.ListExchangeRates.
    fold trimmed. cbv zeta. destruct (decide (trimmed = "")) as [? | _]; [contradiction |].
    run_with Hfetch. rewrite Hstatus, Hdecode. reflexivity.
  - intros currency fullURL req trimmed Hne Hjoin Hreq Hdo Hdecode.
    unfold ExchangeC.ListExchangeRates. fold trimmed. cbv zeta.
    destruct (decide (trimmed = "")) as [? | _]; [contradiction |].
    rewrite Hjoin. io_unfold. rewrite Hreq. cbv beta iota zeta. rewrite Hdo.
    rewrite Hstatus, Hdecode. reflexivity.
Qed.

(** C5, at the input on which the first revision of [ListExchangeRates]
    departs from it: a response with state 0 and no rate entries is
    returned as a success with the empty list. *)
Theorem ExchangeA_ListExchangeRates_returns_empty_result (c : Cryptomus) (currency : string)
    (w w' : World) (res : Response) :
  currency ≠ "" ->
  fetch c "GET" (fmt_Sprintf ExchangeA.exchangeRateListEndpoint currency) PNil w
  = (Ok res, w') ->
  Decode_exchangeRateListRawResponse (ResponseBody res) = Ok (mkExchangeRateListRaw 0 []) ->
  ExchangeA.ListExchangeRates fetch c currency w = (Ok [], w').
Proof.
  intros Hne Hfetch Hdecode. unfold ExchangeA.ListExchangeRates.
  destruct (decide (currency = "")) as [? | _]; [contradiction |].
  cbv zeta. run_with Hfetch. rewrite Hdecode. reflexivity.
Qed.

(** C6, as amended.  After HTTP status 200 a decoded state other than 0
    is never a success.  [GetRecurrenceInfo] and [CancelRecurrence]
    return the validation error with the [errors] map whenever the map is
    not nil, be it empty, and the state error with the code otherwise;
    [CreateRecurrence], [ListRecurrences] and the three revisions of
    [ListExchangeRates] return the state error with the code, their
    response structs having no [errors] field. *)
Theorem nonzero_state_is_an_error (c : Cryptomus) (w w' : World) (res : Response) :
  StatusCode res = 200 ->
  (forall recReq response,
      fetch c "POST" createRecurrenceEndpoint (PRecurrenceRequest recReq) w = (Ok res, w') ->
      Decode_recurrenceRawResponse (ResponseBody res) = Ok response ->
      rec_State response ≠ 0 ->
      CreateRecurrence fetch c (Some recReq) w
      = (Err (RemoteStateError (rec_State response)), w'))
  /\ (forall infoReq response,
        ~ (info_UUID infoReq = "" /\ info_OrderId infoReq = "") ->
        fetch c "POST" recurrenceInfoEndpoint (PRecurrenceInfoRequest infoReq) w
        = (Ok res, w') ->
        Decode_recurrenceInfoRawResponse (ResponseBody res) = Ok response ->
        infoRaw_State response ≠ 0 ->
        GetRecurrenceInfo fetch c (Some infoReq) w
        = (Err match infoRaw_Errors response with
               | Some errs => RemoteValidationError errs
               | None => RemoteStateError (infoRaw_State response)
               end, w'))
  /\ (forall cursor response,
        fetch c "POST" recurrenceListEndpoint
          (PMap (if decide (cursor ≠ "") then <["cursor" := VString cursor]> ∅ else ∅)) w
        = (Ok res, w') ->
        Decode_recurrenceListRawResponse (ResponseBody res) = Ok response ->
        list_State response ≠ 0 ->
        ListRecurrences fetch c cursor w
        = (Err (RemoteStateError (list_State response)), w'))
  /\ (forall cancelReq response,
        ~ (cancel_UUID cancelReq = "" /\ cancel_OrderId cancelReq = "") ->
        fetch c "POST" recurrenceCancelEndpoint (PRecurrenceCancelRequest cancelReq) w
        = (Ok res, w') ->
        Decode_recurrenceCancelRawResponse (ResponseBody res) = Ok response ->
        cancelRaw_State response ≠ 0 ->
        CancelRecurrence fetch c (Some cancelReq) w
        = (Err match cancelRaw_Errors response with
               | Some errs => RemoteValidationError errs
               | None => RemoteStateError (cancelRaw_State response)
               end, w'))
  /\ (forall currency response,
        currency ≠ "" ->
        fetch c "GET" (fmt_Sprintf ExchangeA.exchangeRateListEndpoint currency) PNil w
        = (Ok res, w') ->
        Decode_exchangeRateListRawResponse (ResponseBody res) = Ok response ->
        rate_State response ≠ 0 ->
        ExchangeA.ListExchangeRates fetch c currency w
        = (Err (fmt_Errorf "api error: state %d" [AInt (rate_State response)]), w'))
  /\ (forall currency response,
        let trimmed := strings_TrimSpace TrimFunc_IsSpace TrimRightFunc_IsSpace currency in
        trimmed ≠ "" ->
        fetch c "GET" (fmt_Sprintf ExchangeB.exchangeRateListEndpoint trimmed) PNil w
        = (Ok res, w') ->
        Decode_exchangeRateListRawResponse (ResponseBody res) = Ok response ->
        rate_State response ≠ 0 ->
        ExchangeB.ListExchangeRates fetch c currency w
        = (Err (fmt_Errorf "API error: state %d" [AInt (rate_State response)]), w'))
  /\ (forall currency response fullURL req,
        let trimmed := strings_TrimSpace TrimFunc_IsSpace TrimRightFunc_IsSpace currency in
        trimmed ≠ "" ->
        joinURL (baseURL c) (fmt_Sprintf ExchangeC.exchangeRateListEndpoint trimmed)
        = Ok fullURL ->
        http_NewRequest "GET" fullURL [] = Ok req ->
        client c (Header_Set req "Accept" "application/json") = Ok res ->
        Decode_exchangeRateListRawResponse (ResponseBody res) = Ok response ->
        rate_State response ≠ 0 ->
        fst (ExchangeC.ListExchangeRates c currency w)
        = Err (fmt_Errorf "API error: state %d" [AInt (rate_State response)])).
Proof.
  intros Hstatus. repeat apply conj.
  - intros recReq response Hfetch Hdecode Hstate. unfold CreateRecurrence.
    run_with Hfetch. rewrite Hstatus, Hdecode. cbv beta iota.
    destruct (decide (rec_State response ≠ 0)) as [_ | ?]; [reflexivity | contradiction].
  - intros infoReq response Hid Hfetch Hdecode Hstate. unfold GetRecurrenceInfo.
    destruct (decide _) as [? | _]; [contradiction |]. run_with Hfetch.
    rewrite Hstatus, Hdecode. cbv beta iota.
    destruct (decide (infoRaw_State response ≠ 0)) as [_ | ?]; [| contradiction].
    destruct (infoRaw_Errors response); reflexivity.
  - intros cursor response Hfetch Hdecode Hstate. unfold ListRecurrences. cbv zeta.
    run_with Hfetch. rewrite Hstatus, Hdecode. cbv beta iota.
    destruct (decide (list_State response ≠ 0)) as [_ | ?]; [reflexivity | contradiction].
  - intros cancelReq response Hid Hfetch Hdecode Hstate. unfold CancelRecurrence.
    destruct (decide _) as [? | _]; [contradiction |]. run_with Hfetch.
    rewrite Hstatus, Hdecode. cbv beta iota.
    destruct (decide (cancelRaw_State response ≠ 0)) as [_ | ?]; [| contradiction].
    destruct (cancelRaw_Errors response); reflexivity.
  - intros currency response Hne Hfetch Hdecode Hstate. unfold ExchangeA.ListExchangeRates.
    destruct (decide (currency = "")) as [? | _]; [contradiction |].
    cbv zeta. run_with Hfetch. rewrite Hdecode. cbv beta iota.
    destruct (decide (rate_State response ≠ 0)) as [_ | ?]; [reflexivity | contradiction].
  - intros currency response trimmed Hne Hfetch Hdecode Hstate.
    unfold ExchangeB.ListExchangeRates. fold trimmed. cbv zeta.
    destruct (decide (trimmed = "")) as [? | _]; [contradiction |].
    run_with Hfetch. rewrite Hstatus, Hdecode. cbv beta iota.
    destruct (decide (rate_State response ≠ 0)) as [_ | ?]; [reflexivity | contradiction].
  - intros currency response fullURL req trimmed Hne Hjoin Hreq Hdo Hdecode Hstate.
    unfold ExchangeC.ListExchangeRates. fold trimmed. cbv zeta.
    destruct (decide (trimmed = "")) as [? | _]; [contradiction |].
    rewrite Hjoin. io_unfold. rewrite Hreq. cbv beta iota zeta. rewrite Hdo.
    rewrite Hstatus, Hdecode. cbv beta iota.
    destruct (decide (rate_State response ≠ 0)) as [_ | ?]; [reflexivity | contradiction].
Qed.

End EnvelopeFacts.

Lemma ExchangeA_ListExchangeRates_returns_empty_result_witness :
  let c := merchant BaseURL (answering state_zero_null) in
  exists w', ExchangeA.ListExchangeRates Concat.fetch c "USDT" idle = (Ok [], w')
             /\ length (sent w') = 1%nat.
Proof.
  intros c.
  set (run := Concat.fetch c "GET"
                (fmt_Sprintf ExchangeA.exchangeRateListEndpoint "USDT") PNil idle).
  assert (Hfetch : run = (Ok (mkResponse "200 OK" 200 state_zero_null), snd run))
    by (vm_compute; reflexivity).
  assert (Hne : "USDT" ≠ "") by discriminate.
  exists (snd run). split.
  - apply (ExchangeA_ListExchangeRates_returns_empty_result Concat.fetch c "USDT"
             idle (snd run) _ Hne Hfetch).
    vm_compute. reflexivity.
  - vm_compute. reflexivity.
Defined.

(** The example of the specification: create-recurrence against a server
    that answers [{"state":1,"result":null}] with HTTP 200. *)
Lemma nonzero_state_is_an_error_witness :
  let c := merchant BaseURL (answering state_one) in
  let recReq := mkRecurrenceRequest "10" "USD" "plan" "monthly" "" "" "" None "" "" in
  fst (CreateRecurrence Joined.fetch c (Some recReq) idle) = Err (RemoteStateError 1).
Proof.
  intros c recReq.
  set (run := Joined.fetch c "POST" createRecurrenceEndpoint (PRecurrenceRequest recReq) idle).
  assert (Hfetch : run = (Ok (mkResponse "200 OK" 200 state_one), snd run))
    by (vm_compute; reflexivity).
  destruct (nonzero_state_is_an_error Joined.fetch c idle (snd run)
              (mkResponse "200 OK" 200 state_one) eq_refl) as (Hcreate & _).
  rewrite (Hcreate recReq (mkRecurrenceRaw 1 None) Hfetch).
  - reflexivity.
  - vm_compute. reflexivity.
  - discriminate.
Defined.

(** C6, as stated, fails in two places.  [GetRecurrenceInfo] answers a
    present but empty [errors] map with the validation error, not with
    the state error; [CreateRecurrence] answers a non-empty [errors] map
    with the state error, not with the validation error. *)
Lemma nonzero_state_as_specified_fails :
  ~ GetRecurrenceInfo_as_specified Joined.fetch
      (merchant BaseURL (answering state_one_no_errors))
      (mkRecurrenceInfoRequest "u-1" "") idle
  /\ ~ CreateRecurrence_as_specified Joined.fetch
         (merchant BaseURL (answering state_one_errors))
         (mkRecurrenceRequest "10" "USD" "plan" "monthly" "" "" "" None "" "") idle.
Proof.
  split; intros Hclaim.
  - set (c := merchant BaseURL (answering state_one_no_errors)) in *.
    set (run := Joined.fetch c "POST" recurrenceInfoEndpoint
                  (PRecurrenceInfoRequest (mkRecurrenceInfoRequest "u-1" "")) idle).
    assert (Hfetch : run = (Ok (mkResponse "200 OK" 200 state_one_no_errors), snd run))
      by (vm_compute; reflexivity).
    specialize (Hclaim _ _ (mkRecurrenceInfoRaw 1 None (Some ∅)) Hfetch eq_refl).
    assert (Hgot : fst (GetRecurrenceInfo Joined.fetch c
                          (Some (mkRecurrenceInfoRequest "u-1" "")) idle)
                   = Err (RemoteValidationError ∅)) by (vm_compute; reflexivity).
    rewrite Hgot in Hclaim.
    assert (Hdecode : Decode_recurrenceInfoRawResponse
                        (ResponseBody (mkResponse "200 OK" 200 state_one_no_errors))
                      = Ok (mkRecurrenceInfoRaw 1 None (Some ∅)))
      by (vm_compute; reflexivity).
    specialize (Hclaim Hdecode). cbn in Hclaim.
    assert (Hstate : (1 : Z) ≠ 0) by discriminate.
    specialize (Hclaim Hstate). discriminate Hclaim.
  - set (c := merchant BaseURL (answering state_one_errors)) in *.
    set (recReq := mkRecurrenceRequest "10" "USD" "plan" "monthly" "" "" "" None "" "") in *.
    set (run := Joined.fetch c "POST" createRecurrenceEndpoint
                  (PRecurrenceRequest recReq) idle).
    assert (Hfetch : run = (Ok (mkResponse "200 OK" 200 state_one_errors), snd run))
      by (vm_compute; reflexivity).
    specialize (Hclaim _ _ (mkRecurrenceInfoRaw 1 None (Some amount_required))
                  Hfetch eq_refl).
    assert (Hgot : fst (CreateRecurrence Joined.fetch c (Some recReq) idle)
                   = Err (RemoteStateError 1)) by (vm_compute; reflexivity).
    rewrite Hgot in Hclaim.
    assert (Hdecode : Decode_recurrenceInfoRawResponse
                        (ResponseBody (mkResponse "200 OK" 200 state_one_errors))
                      = Ok (mkRecurrenceInfoRaw 1 None (Some amount_required)))
      by (vm_compute; reflexivity).
    specialize (Hclaim Hdecode). cbn [infoRaw_State infoRaw_Errors] in Hclaim.
    assert (Hstate : (1 : Z) ≠ 0) by discriminate.
    specialize (Hclaim Hstate).
    unfold nonzero_state_error_as_specified in Hclaim.
    destruct (decide (amount_required = ∅)) as [Hempty | _].
    + apply (f_equal (fun m => m !! "amount")) in Hempty. vm_compute in Hempty.
      discriminate Hempty.
    + discriminate Hclaim.
Qed.

(** ** Joining the base address and the endpoint *)

Lemma split_slash_go_app (cur a b : string) :
  split_slash_go cur (a +:+ String "/" b) = split_slash_go cur a ++ split_slash b.
Proof.
  revert cur. induction a as [| ch a IH]; intros cur.
  - cbn. reflexivity.
  - change (String ch a +:+ String "/" b) with (String ch (a +:+ String "/" b)).
    cbn [split_slash_go]. destruct (decide (ch = "/"%char)); rewrite IH; reflexivity.
Qed.

Lemma split_slash_app (a b : string) :
  split_slash (a +:+ "/" +:+ b) = split_slash a ++ split_slash b.
Proof. apply split_slash_go_app. Qed.

(** Without [.] and [..] elements, cleaning keeps every non-empty
    element, in order. *)
Lemma clean_elems_plain (isRooted : bool) (stack elems : list string) :
  Forall (fun e => e ≠ "." /\ e ≠ "..") elems ->
  clean_elems isRooted stack elems = reverse stack ++ filter (fun e => e ≠ "") elems.
Proof.
  revert stack. induction elems as [| e rest IH]; intros stack Hplain.
  - cbn. rewrite app_nil_r. reflexivity.
  - apply Forall_cons in Hplain as [[Hdot Hdotdot] Hrest].
    cbn [clean_elems]. rewrite filter_cons.
    destruct (decide (e = "")) as [-> | Hne].
    + destruct (decide ("" ≠ "")) as [Habs | _]; [contradiction | apply IH, Hrest].
    + destruct (decide (e = ".")); [contradiction |].
      destruct (decide (e = "..")); [contradiction |].
      destruct (decide (e ≠ "")) as [_ | ?]; [| contradiction].
      rewrite IH by assumption. rewrite reverse_cons, <- app_assoc. reflexivity.
Qed.

Lemma path_Clean_plain (p : string) :
  Forall (fun e => e ≠ "." /\ e ≠ "..") (split_slash p) ->
  path_Clean p = path_of_elems (rooted p) (filter (fun e => e ≠ "") (split_slash p)).
Proof.
  intros Hplain. unfold path_Clean, path_of_elems.
  rewrite clean_elems_plain by assumption. reflexivity.
Qed.

Lemma append_empty_r (s : string) : s +:+ "" = s.
Proof.
  induction s as [| ch s IH]; [reflexivity |].
  change (String ch (s +:+ "") = String ch s). rewrite IH. reflexivity.
Qed.

Lemma rooted_app (p e : string) : p ≠ "" -> rooted (p +:+ e) = rooted p.
Proof. destruct p as [| ch p]; [contradiction | reflexivity]. Qed.

(** [path.Join] on a base path and an endpoint free of [.] and [..]:
    the result has, as its elements, the non-empty elements of the base
    path followed by those of the endpoint, none doubled and none
    dropped, and it is rooted when the first of the two is. *)
Lemma path_Join_keeps_elements (p e : string) :
  Forall (fun x => x ≠ "." /\ x ≠ "..") (split_slash p ++ split_slash e) ->
  p ≠ "" \/ e ≠ "" ->
  path_Join [p; e]
  = path_of_elems (rooted (p +:+ e))
      (filter (fun x => x ≠ "") (split_slash p ++ split_slash e)).
Proof.
  intros Hplain Hsome. unfold path_Join.
  apply Forall_app in Hplain as Hboth. destruct Hboth as [Hp He].
  rewrite !filter_cons, filter_nil, filter_app.
  destruct (decide (p ≠ "")) as [Hpne | Hpe]; destruct (decide (e ≠ "")) as [Hene | Hee].
  - cbn [strings_Join]. rewrite path_Clean_plain.
    + rewrite split_slash_app, filter_app.
      change (p +:+ "/" +:+ e) with (p +:+ ("/" +:+ e)).
      rewrite !rooted_app by assumption. reflexivity.
    + rewrite split_slash_app. exact Hplain.
  - apply dec_stable in Hee. subst e. cbn [strings_Join].
    rewrite path_Clean_plain by assumption.
    rewrite append_empty_r. cbn. rewrite app_nil_r. reflexivity.
  - apply dec_stable in Hpe. subst p. cbn [strings_Join].
    rewrite path_Clean_plain by assumption. reflexivity.
  - apply dec_stable in Hpe. apply dec_stable in Hee. tauto.
Qed.

(** [joinURL] puts that path into the parsed base address. *)
Lemma joinURL_keeps_elements `{NetLib} (base endpoint : string) (u : URL url_fields) :
  url_Parse base = Ok u ->
  Forall (fun x => x ≠ "." /\ x ≠ "..") (split_slash (Path u) ++ split_slash endpoint) ->
  Path u ≠ "" \/ endpoint ≠ "" ->
  joinURL base endpoint
  = Ok (URL_String
          (mkURL (path_of_elems (rooted (Path u +:+ endpoint))
                    (filter (fun x => x ≠ "")
                       (split_slash (Path u) ++ split_slash endpoint)))
             (url_other u))).
Proof.
  intros Hparse Hplain Hsome. unfold joinURL. rewrite Hparse.
  rewrite path_Join_keeps_elements by assumption. reflexivity.
Qed.

Example path_Join_samples :
  path_Join ["/v1"; "/recurrence/create"] = "/v1/recurrence/create"
  /\ path_Join ["/v1/"; "/recurrence/create"] = "/v1/recurrence/create"
  /\ path_Join ["/v1"; "exchange-rate/USDT/list"] = "/v1/exchange-rate/USDT/list"
  /\ path_Join ["/v1"; "/v1/exchange-rate/USDT/list"] = "/v1/v1/exchange-rate/USDT/list"
  /\ path_Join [""; ""] = ""
  /\ path_Clean "" = "."
  /\ path_Clean "a/../../b" = "../b"
  /\ path_Clean "/../a/./b//c/" = "/a/b/c".
Proof. vm_compute. repeat split. Qed.

(** ** More on [fetch] *)

Lemma fetch_signs_the_sent_body_witness :
  let c := merchant BaseURL (answering state_one) in
  let p := PRecurrenceInfoRequest (mkRecurrenceInfoRequest "u-1" "") in
  let run := Joined.fetch c "POST" recurrenceInfoEndpoint p idle in
  exists req,
    sent (snd run) = sent idle ++ [req]
    /\ Body req = jsb "{'uuid':'u-1'}"
    /\ Header req !! "sign" = Some "73e3dae8736a9af96da46ee8face9811".
Proof.
  intros c p run.
  set (req := hd (mkRequest "" "" ∅ []) (sent (snd run))).
  assert (Hsent : sent (snd run) = sent idle ++ [req]) by (vm_compute; reflexivity).
  destruct (fetch_signs_the_sent_body c "POST" recurrenceInfoEndpoint p idle (snd run)
              (fst run) req (or_intror (surjective_pairing run)) Hsent)
    as (sign & Hsign & Hheader).
  exists req. split; [exact Hsent |]. split; [vm_compute; reflexivity |].
  rewrite Hheader. vm_compute in Hsign. injection Hsign as <-. reflexivity.
Defined.

Lemma Joined_fetch_nil_payload_witness :
  let c := merchant BaseURL (answering state_zero_null) in
  let run := Joined.fetch c "GET" "/v1/exchange-rate/USDT/list" PNil idle in
  exists req,
    sent (snd run) = sent idle ++ [req]
    /\ Body req = []
    /\ Header req !! "sign" = Some "8ce4b16b22b58894aa86c421e8759df3".
Proof.
  intros c run.
  set (req := hd (mkRequest "" "" ∅ []) (sent (snd run))).
  assert (Hsent : sent (snd run) = sent idle ++ [req]) by (vm_compute; reflexivity).
  destruct (Joined_fetch_nil_payload c "GET" "/v1/exchange-rate/USDT/list" idle (snd run)
              (fst run) req (surjective_pairing run) Hsent)
    as (Hbody & sign & Hsign & Hheader).
  exists req. split; [exact Hsent |]. split; [exact Hbody |].
  rewrite Hheader. vm_compute in Hsign. injection Hsign as <-. reflexivity.
Defined.

Section MoreFetchFacts.
Context `{JSONLib, NetLib}.

(** Without a payment key [fetch] fails before it builds a request: the
    error is the empty-key error of [signRequest], wrapped, and nothing
    reaches the transport.  This holds for every payload, in both
    revisions. *)
Lemma fetch_requires_payment_key (c : Cryptomus) (method endpoint : string)
    (p : payload) (w : World) :
  paymentApiKey c = "" ->
  Concat.fetch c method endpoint p w
  = (Err (fmt_Errorf "failed to generate signature: %w" [AErr EmptyKeyError]), w)
  /\ Joined.fetch c method endpoint p w
     = (Err (fmt_Errorf "failed to generate signature: %w" [AErr EmptyKeyError]), w).
Proof.
  intros Hkey. unfold Concat.fetch, Joined.fetch. rewrite Hkey. split.
  - unfold json_Marshal. reflexivity.
  - destruct p; reflexivity.
Qed.

(** One call of [fetch] hands at most one request to the transport and
    prints nothing.  Either it returns an error of its own and leaves the
    world as it was, or it sends one request and returns what the
    transport answered: the response as it is, or the transport's error
    wrapped. *)
Theorem fetch_sends_at_most_one_request (c : Cryptomus) (method endpoint : string)
    (p : payload) (w : World) :
  forall run,
    run = Concat.fetch c method endpoint p w \/ run = Joined.fetch c method endpoint p w ->
    (snd run = w /\ exists e, fst run = Err e)
    \/ (exists req,
          snd run = mkWorld (sent w ++ [req]) (stdout w)
          /\ fst run = match client c req with
                       | Ok res => Ok res
                       | Err err => Err (fmt_Errorf "HTTP request failed: %w" [AErr err])
                       end).
Proof.
  intros run [-> | ->].
  - unfold Concat.fetch.
    destruct (json_Marshal p) as [body |]; [| left; split; [reflexivity | eauto]].
    destruct (signRequest (paymentApiKey c) body) as [sign |];
      [| left; split; [reflexivity | eauto]].
    destruct (http_NewRequest method (baseURL c +:+ endpoint) body) as [req |];
      [| left; split; [reflexivity | eauto]].
    right.
    exists (Header_Set (Header_Set (Header_Set req "Content-Type" "application/json")
              "merchant" (merchantID c)) "sign" sign).
    io_unfold. cbv beta iota zeta.
    destruct (client c _); split; reflexivity.
  - unfold Joined.fetch.
    destruct (match p with PNil => Ok [] | _ => json_Marshal p end) as [body |];
      [| left; split; [reflexivity | eauto]].
    destruct (signRequest (paymentApiKey c) body) as [sign |];
      [| left; split; [reflexivity | eauto]].
    destruct (joinURL (baseURL c) endpoint) as [fullURL |];
      [| left; split; [reflexivity | eauto]].
    destruct (http_NewRequest method fullURL body) as [req |];
      [| left; split; [reflexivity | eauto]].
    right.
    exists (Header_Set (Header_Set (Header_Set req "Content-Type" "application/json")
              "merchant" (merchantID c)) "sign" sign).
    io_unfold. cbv beta iota zeta.
    destruct (client c _); split; reflexivity.
Qed.


End MoreFetchFacts.

Lemma fetch_requires_payment_key_witness :
  let c := New (answering state_one) None "merchant-1" "" "" in
  Joined.fetch c "GET" "/v1/exchange-rate/USDT/list" PNil idle
  = (Err (fmt_Errorf "failed to generate signature: %w" [AErr EmptyKeyError]), idle).
Proof.
  intros c.
  exact (proj2 (fetch_requires_payment_key c "GET" "/v1/exchange-rate/USDT/list" PNil idle
                  eq_refl)).
Defined.

Lemma fetch_sends_at_most_one_request_witness :
  let c := merchant BaseURL (answering state_one) in
  let run := Concat.fetch c "POST" recurrenceListEndpoint (PMap ∅) idle in
  exists req,
    snd run = mkWorld (sent idle ++ [req]) (stdout idle)
    /\ fst run = Ok (mkResponse "200 OK" 200 state_one).
Proof.
  intros c run.
  destruct (fetch_sends_at_most_one_request c "POST" recurrenceListEndpoint (PMap ∅) idle
              run (or_introl eq_refl)) as [[Hidle _] | (req & Hworld & Hres)].
  - exfalso. apply (f_equal (fun w => length (sent w))) in Hidle.
    vm_compute in Hidle. discriminate Hidle.
  - exists req. split; [exact Hworld |]. rewrite Hres. reflexivity.
Defined.


(** ** More on the operations *)

Section OperationFacts.
Context `{JSONLib, NetLib}.
Variable fetch : Cryptomus -> string -> string -> payload -> IO (result Response).

Ltac through Hfetch :=
  io_unfold; rewrite Hfetch; cbv beta iota zeta.

(** What an operation does to the world is what its one call of [fetch]
    does: a POST to the endpoint of the operation with the request as
    payload, or a GET to the exchange-rate endpoint of the currency
    without payload.  The operation itself sends and prints nothing. *)
Theorem operations_act_through_one_fetch (c : Cryptomus) (w : World) :
  (forall recReq,
      snd (CreateRecurrence fetch c (Some recReq) w)
      = snd (fetch c "POST" "/recurrence/create" (PRecurrenceRequest recReq) w))
  /\ (forall infoReq,
        ~ (info_UUID infoReq = "" /\ info_OrderId infoReq = "") ->
        snd (GetRecurrenceInfo fetch c (Some infoReq) w)
        = snd (fetch c "POST" "/recurrence/info" (PRecurrenceInfoRequest infoReq) w))
  /\ (forall cursor,
        snd (ListRecurrences fetch c cursor w)
        = snd (fetch c "POST" "/recurrence/list"
                 (PMap (if decide (cursor ≠ "") then {[ "cursor" := VString cursor ]}
                        else ∅)) w))
  /\ (forall cancelReq,
        ~ (cancel_UUID cancelReq = "" /\ cancel_OrderId cancelReq = "") ->
        snd (CancelRecurrence fetch c (Some cancelReq) w)
        = snd (fetch c "POST" "/recurrence/cancel" (PRecurrenceCancelRequest cancelReq) w))
  /\ (forall currency,
        currency ≠ "" ->
        snd (ExchangeA.ListExchangeRates fetch c currency w)
        = snd (fetch c "GET" ("/v1/exchange-rate/" +:+ currency +:+ "/list") PNil w))
  /\ (forall currency,
        let trimmed := strings_TrimSpace TrimFunc_IsSpace TrimRightFunc_IsSpace currency in
        trimmed ≠ "" ->
        snd (ExchangeB.ListExchangeRates fetch c currency w)
        = snd (fetch c "GET" ("/v1/exchange-rate/" +:+ trimmed +:+ "/list") PNil w)).
Proof.
  repeat apply conj.
  - intros recReq. unfold CreateRecurrence, createRecurrenceEndpoint. io_unfold.
    destruct (fetch _ _ _ _ _) as [[res | e] w']; repeat case_match; reflexivity.
  - intros infoReq Hid. unfold GetRecurrenceInfo, recurrenceInfoEndpoint.
    destruct (decide _) as [? | _]; [contradiction |]. io_unfold.
    destruct (fetch _ _ _ _ _) as [[res | e] w']; repeat case_match; reflexivity.
  - intros cursor. unfold ListRecurrences, recurrenceListEndpoint. cbv zeta. io_unfold.
    change (<["cursor" := VString cursor]> ∅)
      with ({[ "cursor" := VString cursor ]} : gmap string (value float64)).
    destruct (fetch _ _ _ _ _) as [[res | e] w']; repeat case_match; reflexivity.
  - intros cancelReq Hid. unfold CancelRecurrence, recurrenceCancelEndpoint.
    destruct (decide _) as [? | _]; [contradiction |]. io_unfold.
    destruct (fetch _ _ _ _ _) as [[res | e] w']; repeat case_match; reflexivity.
  - intros currency Hne. unfold ExchangeA.ListExchangeRates.
    destruct (decide (currency = "")) as [? | _]; [contradiction |]. cbv zeta. io_unfold.
    change (fmt_Sprintf ExchangeA.exchangeRateListEndpoint currency)
      with ("/v1/exchange-rate/" +:+ currency +:+ "/list").
    destruct (fetch _ _ _ _ _) as [[res | e] w']; repeat case_match; reflexivity.
  - intros currency trimmed Hne. unfold ExchangeB.ListExchangeRates. fold trimmed.
    cbv zeta. destruct (decide (trimmed = "")) as [? | _]; [contradiction |]. io_unfold.
    change (fmt_Sprintf ExchangeB.exchangeRateListEndpoint trimmed)
      with ("/v1/exchange-rate/" +:+ trimmed +:+ "/list").
    destruct (fetch _ _ _ _ _) as [[res | e] w']; repeat case_match; reflexivity.
Qed.

(** A nil request is turned down before anything is sent. *)
Theorem nil_request_is_rejected_locally (c : Cryptomus) (w : World) :
  CreateRecurrence fetch c None w
  = (Err (errors_New "recurrence request cannot be nil"), w)
  /\ GetRecurrenceInfo fetch c None w
     = (Err (errors_New "recurrence info request cannot be nil"), w)
  /\ CancelRecurrence fetch c None w
     = (Err (errors_New "recurrence cancel request cannot be nil"), w).
Proof. repeat split. Qed.

(** An error of [fetch] ends the operation: it is returned wrapped by the
    recurrence operations and by the second revision of
    [ListExchangeRates], and as it is by the first revision. *)
Theorem fetch_error_is_passed_on (c : Cryptomus) (w w' : World) (err : error) :
  (forall recReq,
      fetch c "POST" createRecurrenceEndpoint (PRecurrenceRequest recReq) w = (Err err, w') ->
      CreateRecurrence fetch c (Some recReq) w
      = (Err (fmt_Errorf "failed to send request: %w" [AErr err]), w'))
  /\ (forall infoReq,
        ~ (info_UUID infoReq = "" /\ info_OrderId infoReq = "") ->
        fetch c "POST" recurrenceInfoEndpoint (PRecurrenceInfoRequest infoReq) w
        = (Err err, w') ->
        GetRecurrenceInfo fetch c (Some infoReq) w
        = (Err (fmt_Errorf "failed to send request: %w" [AErr err]), w'))
  /\ (forall cursor,
        fetch c "POST" recurrenceListEndpoint
          (PMap (if decide (cursor ≠ "") then <["cursor" := VString cursor]> ∅ else ∅)) w
        = (Err err, w') ->
        ListRecurrences fetch c cursor w
        = (Err (fmt_Errorf "failed to send request: %w" [AErr err]), w'))
  /\ (forall cancelReq,
        ~ (cancel_UUID cancelReq = "" /\ cancel_OrderId cancelReq = "") ->
        fetch c "POST" recurrenceCancelEndpoint (PRecurrenceCancelRequest cancelReq) w
        = (Err err, w') ->
        CancelRecurrence fetch c (Some cancelReq) w
        = (Err (fmt_Errorf "failed to send request: %w" [AErr err]), w'))
  /\ (forall currency,
        currency ≠ "" ->
        fetch c "GET" (fmt_Sprintf ExchangeA.exchangeRateListEndpoint currency) PNil w
        = (Err err, w') ->
        ExchangeA.ListExchangeRates fetch c currency w = (Err err, w'))
  /\ (forall currency,
        let trimmed := strings_TrimSpace TrimFunc_IsSpace TrimRightFunc_IsSpace currency in
        trimmed ≠ "" ->
        fetch c "GET" (fmt_Sprintf ExchangeB.exchangeRateListEndpoint trimmed) PNil w
        = (Err err, w') ->
        ExchangeB.ListExchangeRates fetch c currency w
        = (Err (fmt_Errorf "failed to fetch exchange rates: %w" [AErr err]), w')).
Proof.
  repeat apply conj.
  - intros recReq Hfetch. unfold CreateRecurrence. through Hfetch. reflexivity.
  - intros infoReq Hid Hfetch. unfold GetRecurrenceInfo.
    destruct (decide _) as [? | _]; [contradiction |]. through Hfetch. reflexivity.
  - intros cursor Hfetch. unfold ListRecurrences. cbv zeta. through Hfetch. reflexivity.
  - intros cancelReq Hid Hfetch. unfold CancelRecurrence.
    destruct (decide _) as [? | _]; [contradiction |]. through Hfetch. reflexivity.
  - intros currency Hne Hfetch. unfold ExchangeA.ListExchangeRates.
    destruct (decide (currency = "")) as [? | _]; [contradiction |].
    cbv zeta. through Hfetch. reflexivity.
  - intros currency trimmed Hne Hfetch. unfold ExchangeB.ListExchangeRates. fold trimmed.
    cbv zeta. destruct (decide (trimmed = "")) as [? | _]; [contradiction |].
    through Hfetch. reflexivity.
Qed.

(** After HTTP status 200, state 0 with a result gives that result, as
    the decoder delivered it.  The exchange-rate list is returned when it
    has an entry. *)
Theorem zero_state_result_is_returned (c : Cryptomus) (w w' : World) (res : Response) :
  StatusCode res = 200 ->
  (forall recReq result,
      fetch c "POST" createRecurrenceEndpoint (PRecurrenceRequest recReq) w = (Ok res, w') ->
      Decode_recurrenceRawResponse (ResponseBody res) = Ok (mkRecurrenceRaw 0 (Some result)) ->
      CreateRecurrence fetch c (Some recReq) w = (Ok result, w'))
  /\ (forall infoReq result errs,
        ~ (info_UUID infoReq = "" /\ info_OrderId infoReq = "") ->
        fetch c "POST" recurrenceInfoEndpoint (PRecurrenceInfoRequest infoReq) w
        = (Ok res, w') ->
        Decode_recurrenceInfoRawResponse (ResponseBody res)
        = Ok (mkRecurrenceInfoRaw 0 (Some result) errs) ->
        GetRecurrenceInfo fetch c (Some infoReq) w = (Ok result, w'))
  /\ (forall cursor result,
        fetch c "POST" recurrenceListEndpoint
          (PMap (if decide (cursor ≠ "") then <["cursor" := VString cursor]> ∅ else ∅)) w
        = (Ok res, w') ->
        Decode_recurrenceListRawResponse (ResponseBody res)
        = Ok (mkRecurrenceListRaw 0 (Some result)) ->
        ListRecurrences fetch c cursor w = (Ok result, w'))
  /\ (forall cancelReq result errs,
        ~ (cancel_UUID cancelReq = "" /\ cancel_OrderId cancelReq = "") ->
        fetch c "POST" recurrenceCancelEndpoint (PRecurrenceCancelRequest cancelReq) w
        = (Ok res, w') ->
        Decode_recurrenceCancelRawResponse (ResponseBody res)
        = Ok (mkRecurrenceCancelRaw 0 (Some result) errs) ->
        CancelRecurrence fetch c (Some cancelReq) w = (Ok result, w'))
  /\ (forall currency rate rates,
        let trimmed := strings_TrimSpace TrimFunc_IsSpace TrimRightFunc_IsSpace currency in
        trimmed ≠ "" ->
        fetch c "GET" (fmt_Sprintf ExchangeB.exchangeRateListEndpoint trimmed) PNil w
        = (Ok res, w') ->
        Decode_exchangeRateListRawResponse (ResponseBody res)
        = Ok (mkExchangeRateListRaw 0 (rate :: rates)) ->
        ExchangeB.ListExchangeRates fetch c currency w = (Ok (rate :: rates), w')).
Proof.
  intros Hstatus. repeat apply conj.
  - intros recReq result Hfetch Hdecode. unfold CreateRecurrence. through Hfetch.
    rewrite Hstatus, Hdecode. reflexivity.
  - intros infoReq result errs Hid Hfetch Hdecode. unfold GetRecurrenceInfo.
    destruct (decide _) as [? | _]; [contradiction |]. through Hfetch.
    rewrite Hstatus, Hdecode. reflexivity.
  - intros cursor result Hfetch Hdecode. unfold ListRecurrences. cbv zeta.
    through Hfetch. rewrite Hstatus, Hdecode. reflexivity.
  - intros cancelReq result errs Hid Hfetch Hdecode. unfold CancelRecurrence.
    destruct (decide _) as [? | _]; [contradiction |]. through Hfetch.
    rewrite Hstatus, Hdecode. reflexivity.
  - intros currency rate rates trimmed Hne Hfetch Hdecode.
    unfold ExchangeB.ListExchangeRates. fold trimmed. cbv zeta.
    destruct (decide (trimmed = "")) as [? | _]; [contradiction |].
    through Hfetch. rewrite Hstatus, Hdecode. reflexivity.
Qed.

End OperationFacts.

Section StatusFacts.
Context `{JSONLib, NetLib}.
Variable fetch : Cryptomus -> string -> string -> payload -> IO (result Response).

Ltac through Hfetch :=
  io_unfold; rewrite Hfetch; cbv beta iota zeta.

Ltac other_status Hstatus :=
  match goal with
  | |- context [decide (StatusCode ?res ≠ 200)] =>
      destruct (decide (StatusCode res ≠ 200)) as [_ | ?]; [| contradiction]
  end.

(** A status other than 200 is an error for the four recurrence
    operations, whatever the body holds.  [CreateRecurrence] and
    [ListRecurrences] report the status line.  [GetRecurrenceInfo] and
    [CancelRecurrence] report the [errors] map of the body when the body
    decodes and the map is not nil, and the status line otherwise. *)
Theorem recurrence_other_status_is_an_error (c : Cryptomus) (w w' : World)
    (res : Response) :
  StatusCode res ≠ 200 ->
  let status_error := fmt_Errorf "unexpected HTTP status: %s" [AStr (Status res)] in
  (forall recReq,
      fetch c "POST" createRecurrenceEndpoint (PRecurrenceRequest recReq) w = (Ok res, w') ->
      CreateRecurrence fetch c (Some recReq) w = (Err status_error, w'))
  /\ (forall cursor,
        fetch c "POST" recurrenceListEndpoint
          (PMap (if decide (cursor ≠ "") then <["cursor" := VString cursor]> ∅ else ∅)) w
        = (Ok res, w') ->
        ListRecurrences fetch c cursor w = (Err status_error, w'))
  /\ (forall infoReq,
        ~ (info_UUID infoReq = "" /\ info_OrderId infoReq = "") ->
        fetch c "POST" recurrenceInfoEndpoint (PRecurrenceInfoRequest infoReq) w
        = (Ok res, w') ->
        GetRecurrenceInfo fetch c (Some infoReq) w
        = (Err match Decode_recurrenceInfoRawResponse (ResponseBody res) with
               | Ok response =>
                   match infoRaw_Errors response with
                   | Some errs => RemoteValidationError errs
                   | None => status_error
                   end
               | Err _ => status_error
               end, w'))
  /\ (forall cancelReq,
        ~ (cancel_UUID cancelReq = "" /\ cancel_OrderId cancelReq = "") ->
        fetch c "POST" recurrenceCancelEndpoint (PRecurrenceCancelRequest cancelReq) w
        = (Ok res, w') ->
        CancelRecurrence fetch c (Some cancelReq) w
        = (Err match Decode_recurrenceCancelRawResponse (ResponseBody res) with
               | Ok response =>
                   match cancelRaw_Errors response with
                   | Some errs => RemoteValidationError errs
                   | None => status_error
                   end
               | Err _ => status_error
               end, w')).
Proof.
  intros Hstatus status_error. repeat apply conj.
  - intros recReq Hfetch. unfold CreateRecurrence. through Hfetch.
    other_status Hstatus. reflexivity.
  - intros cursor Hfetch. unfold ListRecurrences. cbv zeta. through Hfetch.
    other_status Hstatus. reflexivity.
  - intros infoReq Hid Hfetch. unfold GetRecurrenceInfo.
    destruct (decide _) as [? | _]; [contradiction |]. through Hfetch.
    other_status Hstatus.
    destruct (Decode_recurrenceInfoRawResponse _) as [[st rs [errs |]] | e]; reflexivity.
  - intros cancelReq Hid Hfetch. unfold CancelRecurrence.
    destruct (decide _) as [? | _]; [contradiction |]. through Hfetch.
    other_status Hstatus.
    destruct (Decode_recurrenceCancelRawResponse _) as [[st rs [errs |]] | e]; reflexivity.
Qed.

(** The second revision of [ListExchangeRates] turns a status other than
    200 into an error that carries the status code, and the [message] of
    the body when the body has one; a body that does not decode is
    not reported. *)
Theorem ExchangeB_other_status_is_an_error (c : Cryptomus) (currency : string)
    (w w' : World) (res : Response) :
  let trimmed := strings_TrimSpace TrimFunc_IsSpace TrimRightFunc_IsSpace currency in
  trimmed ≠ "" ->
  fetch c "GET" (fmt_Sprintf ExchangeB.exchangeRateListEndpoint trimmed) PNil w
  = (Ok res, w') ->
  StatusCode res ≠ 200 ->
  ExchangeB.ListExchangeRates fetch c currency w
  = (Err (let Message := fst (Decode_errResp (ResponseBody res)) in
          if decide (Message = "") then
            fmt_Errorf "unexpected status code: %d" [AInt (StatusCode res)]
          else
            fmt_Errorf "unexpected status code: %d, message: %s"
              [AInt (StatusCode res); AStr Message]), w').
Proof.
  intros trimmed Hne Hfetch Hstatus. unfold ExchangeB.ListExchangeRates. fold trimmed.
  cbv zeta. destruct (decide (trimmed = "")) as [? | _]; [contradiction |].
  through Hfetch. other_status Hstatus.
  destruct (Decode_errResp (ResponseBody res)) as [Message derr]. cbn [fst].
  destruct (decide (Message ≠ "")) as [Hm | Hm]; destruct (decide (Message = "")) as [He | He];
    try reflexivity; [contradiction | apply dec_stable in Hm; contradiction].
Qed.

(** The first revision of [ListExchangeRates] does not look at the HTTP
    status: whatever the status, the body is decoded, and with state 0 its
    list of rates is returned as a success. *)
Theorem ExchangeA_ignores_http_status (c : Cryptomus) (currency : string)
    (w w' : World) (res : Response) (rates : list ExchangeRate) :
  currency ≠ "" ->
  fetch c "GET" (fmt_Sprintf ExchangeA.exchangeRateListEndpoint currency) PNil w
  = (Ok res, w') ->
  Decode_exchangeRateListRawResponse (ResponseBody res) = Ok (mkExchangeRateListRaw 0 rates) ->
  ExchangeA.ListExchangeRates fetch c currency w = (Ok rates, w').
Proof.
  intros Hne Hfetch Hdecode. unfold ExchangeA.ListExchangeRates.
  destruct (decide (currency = "")) as [? | _]; [contradiction |].
  cbv zeta. through Hfetch. rewrite Hdecode. reflexivity.
Qed.

(** A body that does not decode is an error after status 200: the
    decoder's error is returned wrapped, and by the first revision of
    [ListExchangeRates] as it is and whatever the status. *)
Theorem undecodable_response_is_an_error (c : Cryptomus) (w w' : World)
    (res : Response) (err : error) :
  (forall currency,
      currency ≠ "" ->
      fetch c "GET" (fmt_Sprintf ExchangeA.exchangeRateListEndpoint currency) PNil w
      = (Ok res, w') ->
      Decode_exchangeRateListRawResponse (ResponseBody res) = Err err ->
      ExchangeA.ListExchangeRates fetch c currency w = (Err err, w'))
  /\ (StatusCode res = 200 ->
      (forall recReq,
          fetch c "POST" createRecurrenceEndpoint (PRecurrenceRequest recReq) w
          = (Ok res, w') ->
          Decode_recurrenceRawResponse (ResponseBody res) = Err err ->
          CreateRecurrence fetch c (Some recReq) w
          = (Err (fmt_Errorf "failed to decode response: %w" [AErr err]), w'))
      /\ (forall infoReq,
            ~ (info_UUID infoReq = "" /\ info_OrderId infoReq = "") ->
            fetch c "POST" recurrenceInfoEndpoint (PRecurrenceInfoRequest infoReq) w
            = (Ok res, w') ->
            Decode_recurrenceInfoRawResponse (ResponseBody res) = Err err ->
            GetRecurrenceInfo fetch c (Some infoReq) w
            = (Err (fmt_Errorf "failed to decode response: %w" [AErr err]), w'))
      /\ (forall cursor,
            fetch c "POST" recurrenceListEndpoint
              (PMap (if decide (cursor ≠ "") then <["cursor" := VString cursor]> ∅ else ∅)) w
            = (Ok res, w') ->
            Decode_recurrenceListRawResponse (ResponseBody res) = Err err ->
            ListRecurrences fetch c cursor w
            = (Err (fmt_Errorf "failed to decode response: %w" [AErr err]), w'))
      /\ (forall cancelReq,
            ~ (cancel_UUID cancelReq = "" /\ cancel_OrderId cancelReq = "") ->
            fetch c "POST" recurrenceCancelEndpoint (PRecurrenceCancelRequest cancelReq) w
            = (Ok res, w') ->
            Decode_recurrenceCancelRawResponse (ResponseBody res) = Err err ->
            CancelRecurrence fetch c (Some cancelReq) w
            = (Err (fmt_Errorf "failed to decode response: %w" [AErr err]), w'))
      /\ (forall currency,
            let trimmed :=
              strings_TrimSpace TrimFunc_IsSpace TrimRightFunc_IsSpace currency in
            trimmed ≠ "" ->
            fetch c "GET" (fmt_Sprintf ExchangeB.exchangeRateListEndpoint trimmed) PNil w
            = (Ok res, w') ->
            Decode_exchangeRateListRawResponse (ResponseBody res) = Err err ->
            ExchangeB.ListExchangeRates fetch c currency w
            = (Err (fmt_Errorf "failed to decode JSON response: %w" [AErr err]), w'))).
Proof.
  split.
  - intros currency Hne Hfetch Hdecode. unfold ExchangeA.ListExchangeRates.
    destruct (decide (currency = "")) as [? | _]; [contradiction |].
    cbv zeta. through Hfetch. rewrite Hdecode. reflexivity.
  - intros Hstatus. repeat apply conj.
    + intros recReq Hfetch Hdecode. unfold CreateRecurrence. through Hfetch.
      rewrite Hstatus, Hdecode. reflexivity.
    + intros infoReq Hid Hfetch Hdecode. unfold GetRecurrenceInfo.
      destruct (decide _) as [? | _]; [contradiction |]. through Hfetch.
      rewrite Hstatus, Hdecode. reflexivity.
    + intros cursor Hfetch Hdecode. unfold ListRecurrences. cbv zeta. through Hfetch.
      rewrite Hstatus, Hdecode. reflexivity.
    + intros cancelReq Hid Hfetch Hdecode. unfold CancelRecurrence.
      destruct (decide _) as [? | _]; [contradiction |]. through Hfetch.
      rewrite Hstatus, Hdecode. reflexivity.
    + intros currency trimmed Hne Hfetch Hdecode. unfold ExchangeB.ListExchangeRates.
      fold trimmed. cbv zeta. destruct (decide (trimmed = "")) as [? | _]; [contradiction |].
      through Hfetch. rewrite Hstatus, Hdecode. reflexivity.
Qed.

End StatusFacts.

(** *** The operations on sample responses *)

#[local] Existing Instance Demo.net_lib.

Lemma operations_act_through_one_fetch_witness :
  let c := merchant BaseURL (Demo.responding "200 OK" 200 Demo.recurrence_body) in
  let infoReq := mkRecurrenceInfoRequest "u-1" "" in
  snd (GetRecurrenceInfo Joined.fetch c (Some infoReq) idle)
  = snd (Joined.fetch c "POST" "/recurrence/info" (PRecurrenceInfoRequest infoReq) idle).
Proof.
  intros c infoReq.
  destruct (operations_act_through_one_fetch Joined.fetch c idle) as (_ & Hinfo & _).
  apply Hinfo. intros [Hu _]. discriminate Hu.
Defined.

Lemma fetch_error_is_passed_on_witness :
  let c := merchant BaseURL Demo.unreachable in
  let recReq := mkRecurrenceRequest "10" "USD" "plan" "monthly" "" "" "" None "" "" in
  fst (CreateRecurrence Joined.fetch c (Some recReq) idle)
  = Err (fmt_Errorf "failed to send request: %w"
           [AErr (fmt_Errorf "HTTP request failed: %w"
                    [AErr (Foreign "dial tcp: connection refused")])]).
Proof.
  intros c recReq.
  set (run := Joined.fetch c "POST" createRecurrenceEndpoint (PRecurrenceRequest recReq) idle).
  assert (Hfetch : run = (Err (fmt_Errorf "HTTP request failed: %w"
                                 [AErr (Foreign "dial tcp: connection refused")]), snd run))
    by (vm_compute; reflexivity).
  destruct (fetch_error_is_passed_on Joined.fetch c idle (snd run)
              (fmt_Errorf "HTTP request failed: %w"
                 [AErr (Foreign "dial tcp: connection refused")])) as (Hcreate & _).
  rewrite (Hcreate recReq Hfetch). reflexivity.
Defined.

Lemma zero_state_result_is_returned_witness :
  let c := merchant BaseURL (Demo.responding "200 OK" 200 Demo.recurrence_body) in
  let infoReq := mkRecurrenceInfoRequest "" "order-7" in
  fst (GetRecurrenceInfo Joined.fetch c (Some infoReq) idle) = Ok Demo.recurrence_u1.
Proof.
  intros c infoReq.
  set (res := mkResponse "200 OK" 200 Demo.recurrence_body).
  set (run := Joined.fetch c "POST" recurrenceInfoEndpoint
                (PRecurrenceInfoRequest infoReq) idle).
  assert (Hfetch : run = (Ok res, snd run)) by (vm_compute; reflexivity).
  destruct (zero_state_result_is_returned Joined.fetch c idle (snd run) res eq_refl)
    as (_ & Hinfo & _).
  rewrite (Hinfo infoReq Demo.recurrence_u1 None).
  - reflexivity.
  - intros [_ Ho]. discriminate Ho.
  - exact Hfetch.
  - vm_compute. reflexivity.
Defined.

Lemma recurrence_other_status_is_an_error_witness :
  let c := merchant BaseURL
             (Demo.responding "422 Unprocessable Entity" 422 Demo.errors_body) in
  let cancelReq := mkRecurrenceCancelRequest "u-1" "" in
  fst (CancelRecurrence Joined.fetch c (Some cancelReq) idle)
  = Err (RemoteValidationError Demo.uuid_invalid).
Proof.
  intros c cancelReq.
  set (res := mkResponse "422 Unprocessable Entity" 422 Demo.errors_body).
  set (run := Joined.fetch c "POST" recurrenceCancelEndpoint
                (PRecurrenceCancelRequest cancelReq) idle).
  assert (Hfetch : run = (Ok res, snd run)) by (vm_compute; reflexivity).
  assert (Hstatus : StatusCode res ≠ 200) by discriminate.
  destruct (recurrence_other_status_is_an_error Joined.fetch c idle (snd run) res Hstatus)
    as (_ & _ & _ & Hcancel).
  rewrite (Hcancel cancelReq).
  - vm_compute. reflexivity.
  - intros [Hu _]. discriminate Hu.
  - exact Hfetch.
Defined.

Lemma ExchangeB_other_status_is_an_error_witness :
  let c := merchant BaseURL
             (Demo.responding "429 Too Many Requests" 429 Demo.message_body) in
  fst (ExchangeB.ListExchangeRates Concat.fetch c "USDT" idle)
  = Err (fmt_Errorf "unexpected status code: %d, message: %s"
           [AInt 429; AStr "Too Many Requests"]).
Proof.
  intros c.
  set (res := mkResponse "429 Too Many Requests" 429 Demo.message_body).
  set (run := Concat.fetch c "GET"
                (fmt_Sprintf ExchangeB.exchangeRateListEndpoint "USDT") PNil idle).
  assert (Hfetch : run = (Ok res, snd run)) by (vm_compute; reflexivity).
  assert (Hne : strings_TrimSpace TrimFunc_IsSpace TrimRightFunc_IsSpace "USDT" ≠ "")
    by (vm_compute; discriminate).
  assert (Hstatus : StatusCode res ≠ 200) by discriminate.
  rewrite (ExchangeB_other_status_is_an_error Concat.fetch c "USDT" idle (snd run) res
             Hne Hfetch Hstatus).
  vm_compute. reflexivity.
Defined.

Lemma ExchangeA_ignores_http_status_witness :
  let c := merchant BaseURL
             (Demo.responding "500 Internal Server Error" 500 Demo.rates_body) in
  fst (ExchangeA.ListExchangeRates Concat.fetch c "USDT" idle) = Ok [Demo.usdt_btc].
Proof.
  intros c.
  set (res := mkResponse "500 Internal Server Error" 500 Demo.rates_body).
  set (run := Concat.fetch c "GET"
                (fmt_Sprintf ExchangeA.exchangeRateListEndpoint "USDT") PNil idle).
  assert (Hfetch : run = (Ok res, snd run)) by (vm_compute; reflexivity).
  assert (Hne : "USDT" ≠ "") by discriminate.
  rewrite (ExchangeA_ignores_http_status Concat.fetch c "USDT" idle (snd run) res
             [Demo.usdt_btc] Hne Hfetch).
  - reflexivity.
  - vm_compute. reflexivity.
Defined.

Lemma undecodable_response_is_an_error_witness :
  let c := merchant BaseURL (Demo.responding "200 OK" 200 Demo.html_body) in
  fst (ListRecurrences Joined.fetch c "" idle)
  = Err (fmt_Errorf "failed to decode response: %w"
           [AErr (Foreign "invalid character '<' looking for beginning of value")]).
Proof.
  intros c.
  set (res := mkResponse "200 OK" 200 Demo.html_body).
  set (run := Joined.fetch c "POST" recurrenceListEndpoint (PMap ∅) idle).
  assert (Hfetch : run = (Ok res, snd run)) by (vm_compute; reflexivity).
  destruct (undecodable_response_is_an_error Joined.fetch c idle (snd run) res
              (Foreign "invalid character '<' looking for beginning of value"))
    as (_ & Hok).
  destruct (Hok eq_refl) as (_ & _ & Hlist & _).
  rewrite (Hlist "" Hfetch).
  - reflexivity.
  - vm_compute. reflexivity.
Defined.

(** ** Calls without a payment key, and the demo program *)

Lemma print_rates_run (rates : list ExchangeRate) (w : World) :
  print_rates rates w
  = (tt, mkWorld (sent w)
           (stdout w ++ map (fun rate =>
                               fmt_Sprintf_args "1 %s = %s %s"
                                 [From rate; Course rate; To rate] +:+ newline) rates)).
Proof.
  revert w. induction rates as [| rate rest IH]; intros w.
  - cbn. rewrite app_nil_r. destruct w; reflexivity.
  - cbn [print_rates map]. io_unfold. cbv beta iota zeta. rewrite IH.
    cbn [sent stdout]. rewrite <- app_assoc. reflexivity.
Qed.

Section KeyFacts.
Context `{JSONLib, NetLib}.

(** With an empty payment key no operation that goes through [fetch]
    reaches the transport, in either revision of [fetch]: each returns
    the empty-key error of the signer, wrapped on its way up, and leaves
    the world as it was. *)
Theorem operations_require_payment_key
    (fetch : Cryptomus -> string -> string -> payload -> IO (result Response))
    (c : Cryptomus) (w : World) :
  fetch = Concat.fetch \/ fetch = Joined.fetch ->
  paymentApiKey c = "" ->
  let key_error := fmt_Errorf "failed to generate signature: %w" [AErr EmptyKeyError] in
  let send_error := fmt_Errorf "failed to send request: %w" [AErr key_error] in
  (forall recReq, CreateRecurrence fetch c (Some recReq) w = (Err send_error, w))
  /\ (forall infoReq,
        ~ (info_UUID infoReq = "" /\ info_OrderId infoReq = "") ->
        GetRecurrenceInfo fetch c (Some infoReq) w = (Err send_error, w))
  /\ (forall cursor, ListRecurrences fetch c cursor w = (Err send_error, w))
  /\ (forall cancelReq,
        ~ (cancel_UUID cancelReq = "" /\ cancel_OrderId cancelReq = "") ->
        CancelRecurrence fetch c (Some cancelReq) w = (Err send_error, w))
  /\ (forall currency,
        currency ≠ "" ->
        ExchangeA.ListExchangeRates fetch c currency w = (Err key_error, w))
  /\ (forall currency,
        strings_TrimSpace TrimFunc_IsSpace TrimRightFunc_IsSpace currency ≠ "" ->
        ExchangeB.ListExchangeRates fetch c currency w
        = (Err (fmt_Errorf "failed to fetch exchange rates: %w" [AErr key_error]), w)).
Proof.
  intros Hfetch Hkey key_error send_error.
  assert (Hrun : forall method endpoint p,
             fetch c method endpoint p w = (Err key_error, w)).
  { intros method endpoint p.
    destruct (fetch_requires_payment_key c method endpoint p w Hkey) as [Hc Hj].
    destruct Hfetch as [-> | ->]; assumption. }
  repeat apply conj.
  - intros recReq. unfold CreateRecurrence. io_unfold. rewrite Hrun. reflexivity.
  - intros infoReq Hid. unfold GetRecurrenceInfo.
    destruct (decide _) as [? | _]; [contradiction |]. io_unfold. rewrite Hrun. reflexivity.
  - intros cursor. unfold ListRecurrences. cbv zeta. io_unfold. rewrite Hrun. reflexivity.
  - intros cancelReq Hid. unfold CancelRecurrence.
    destruct (decide _) as [? | _]; [contradiction |]. io_unfold. rewrite Hrun. reflexivity.
  - intros currency Hne. unfold ExchangeA.ListExchangeRates.
    destruct (decide (currency = "")) as [? | _]; [contradiction |].
    cbv zeta. io_unfold. rewrite Hrun. reflexivity.
  - intros currency Hne. unfold ExchangeB.ListExchangeRates. cbv zeta.
    destruct (decide _) as [? | _]; [contradiction |]. io_unfold. rewrite Hrun. reflexivity.
Qed.

(** The demo program creates its client with empty keys.  Built against a
    revision of [ListExchangeRates] that goes through [fetch], it ends in
    [log.Fatalf] with the empty-key error and never reaches the
    transport, whatever the transport is. *)
Theorem main_through_fetch_never_calls_the_transport
    (fetch : Cryptomus -> string -> string -> payload -> IO (result Response))
    (DefaultClient transport : http_Client) (w : World) :
  fetch = Concat.fetch \/ fetch = Joined.fetch ->
  let key_error := fmt_Errorf "failed to generate signature: %w" [AErr EmptyKeyError] in
  main DefaultClient (ExchangeA.ListExchangeRates fetch) transport w
  = (Some (fmt_Errorf "Error fetching exchange rates: %v" [AErr key_error]), w)
  /\ main DefaultClient (ExchangeB.ListExchangeRates fetch) transport w
     = (Some (fmt_Errorf "Error fetching exchange rates: %v"
                [AErr (fmt_Errorf "failed to fetch exchange rates: %w" [AErr key_error])]),
        w).
Proof.
  intros Hfetch key_error.
  assert (Hrun : forall method endpoint p,
             fetch (New DefaultClient (Some transport) "" "" "") method endpoint p w
             = (Err key_error, w)).
  { intros method endpoint p.
    destruct (fetch_requires_payment_key (New DefaultClient (Some transport) "" "" "")
                method endpoint p w eq_refl) as [Hc Hj].
    destruct Hfetch as [-> | ->]; assumption. }
  split.
  - unfold main, ExchangeA.ListExchangeRates. cbv zeta.
    destruct (decide ("USDT" = "")) as [? | _]; [discriminate |].
    io_unfold. rewrite Hrun. reflexivity.
  - unfold main, ExchangeB.ListExchangeRates. cbv zeta.
    change (strings_TrimSpace TrimFunc_IsSpace TrimRightFunc_IsSpace "USDT") with "USDT".
    destruct (decide ("USDT" = "")) as [? | _]; [discriminate |].
    io_unfold. rewrite Hrun. reflexivity.
Qed.

(** The third revision of [ListExchangeRates] builds its request itself.
    When the target can be built the transport gets exactly one request:
    a GET without body whose only header is [Accept]; it carries neither
    [merchant] nor [sign], and the target is logged first.  When the base
    address does not parse, nothing is sent and nothing is logged. *)
Theorem ExchangeC_sends_one_unsigned_request (c : Cryptomus) (currency : string)
    (w : World) :
  let trimmed := strings_TrimSpace TrimFunc_IsSpace TrimRightFunc_IsSpace currency in
  let endpoint := fmt_Sprintf ExchangeC.exchangeRateListEndpoint trimmed in
  trimmed ≠ "" ->
  (forall err,
      joinURL (baseURL c) endpoint = Err err ->
      ExchangeC.ListExchangeRates c currency w
      = (Err (fmt_Errorf "invalid base URL or endpoint: %w" [AErr err]), w))
  /\ (forall fullURL req0,
        joinURL (baseURL c) endpoint = Ok fullURL ->
        http_NewRequest "GET" fullURL [] = Ok req0 ->
        exists req,
          snd (ExchangeC.ListExchangeRates c currency w)
          = mkWorld (sent w ++ [req])
              (stdout w ++ [fmt_Sprintf "Requesting URL: %s" fullURL +:+ newline])
          /\ Method req = "GET"
          /\ RequestURL req = fullURL
          /\ Body req = []
          /\ Header req = {[ "Accept" := "application/json" ]}).
Proof.
  intros trimmed endpoint Hne. split.
  - intros err Hjoin. unfold ExchangeC.ListExchangeRates. fold trimmed. cbv zeta.
    destruct (decide (trimmed = "")) as [? | _]; [contradiction |].
    fold endpoint. rewrite Hjoin. reflexivity.
  - intros fullURL req0 Hjoin Hreq.
    exists (Header_Set (mkRequest "GET" fullURL ∅ []) "Accept" "application/json").
    split; [| repeat split].
    unfold ExchangeC.ListExchangeRates. fold trimmed. cbv zeta.
    destruct (decide (trimmed = "")) as [? | _]; [contradiction |].
    fold endpoint. rewrite Hjoin. io_unfold. rewrite Hreq.
    apply http_NewRequest_Ok in Hreq. subst req0. cbv beta iota zeta.
    destruct (client c _) as [res | e]; repeat case_match; reflexivity.
Qed.

(** The demo program built against the third revision: when the server
    answers 200 with state 0 and at least one rate, the program sends one
    request, prints the target, a heading and one line for each rate, and
    ends normally. *)
Theorem main_prints_the_rates (DefaultClient transport : http_Client) (w : World)
    (fullURL : string) (req0 : Request) (res : Response)
    (rate : ExchangeRate) (rates : list ExchangeRate) :
  joinURL BaseURL "exchange-rate/USDT/list" = Ok fullURL ->
  http_NewRequest "GET" fullURL [] = Ok req0 ->
  transport (Header_Set req0 "Accept" "application/json") = Ok res ->
  StatusCode res = 200 ->
  Decode_exchangeRateListRawResponse (ResponseBody res)
  = Ok (mkExchangeRateListRaw 0 (rate :: rates)) ->
  main DefaultClient ExchangeC.ListExchangeRates transport w
  = (None,
     mkWorld (sent w ++ [Header_Set req0 "Accept" "application/json"])
       (stdout w
          ++ [fmt_Sprintf "Requesting URL: %s" fullURL +:+ newline]
          ++ [fmt_Sprintf "Exchange Rates for %s:" "USDT" +:+ newline]
          ++ map (fun r => fmt_Sprintf_args "1 %s = %s %s" [From r; Course r; To r]
                             +:+ newline) (rate :: rates))).
Proof.
  intros Hjoin Hreq Hdo Hstatus Hdecode.
  unfold main, ExchangeC.ListExchangeRates. cbv zeta.
  change (strings_TrimSpace TrimFunc_IsSpace TrimRightFunc_IsSpace "USDT") with "USDT".
  destruct (decide ("USDT" = "")) as [? | _]; [discriminate |].
  change (fmt_Sprintf ExchangeC.exchangeRateListEndpoint "USDT")
    with "exchange-rate/USDT/list".
  cbn [New baseURL client]. rewrite Hjoin. io_unfold. rewrite Hreq.
  cbv beta iota zeta. rewrite Hdo, Hstatus, Hdecode.
  cbn [rate_State rate_Result length].
  destruct (decide ((200 : Z) ≠ 200)) as [? | _]; [congruence |].
  destruct (decide ((0 : Z) ≠ 0)) as [? | _]; [congruence |].
  destruct (decide (S (length rates) = 0%nat)) as [? | _]; [discriminate |].
  cbv beta iota zeta. rewrite print_rates_run. cbn [sent stdout].
  rewrite <- !app_assoc. reflexivity.
Qed.

End KeyFacts.

Lemma operations_require_payment_key_witness :
  let c := New (Demo.responding "200 OK" 200 Demo.rates_body) None "" "" "" in
  ExchangeB.ListExchangeRates Joined.fetch c "USDT" idle
  = (Err (fmt_Errorf "failed to fetch exchange rates: %w"
            [AErr (fmt_Errorf "failed to generate signature: %w" [AErr EmptyKeyError])]),
     idle).
Proof.
  intros c.
  destruct (operations_require_payment_key Joined.fetch c idle (or_intror eq_refl) eq_refl)
    as (_ & _ & _ & _ & _ & Hrates).
  apply Hrates. vm_compute. discriminate.
Defined.

Lemma main_through_fetch_never_calls_the_transport_witness :
  let transport := Demo.responding "200 OK" 200 Demo.rates_body in
  main transport (ExchangeB.ListExchangeRates Concat.fetch) transport idle
  = (Some (fmt_Errorf "Error fetching exchange rates: %v"
             [AErr (fmt_Errorf "failed to fetch exchange rates: %w"
                      [AErr (fmt_Errorf "failed to generate signature: %w"
                               [AErr EmptyKeyError])])]),
     idle).
Proof.
  intros transport.
  exact (proj2 (main_through_fetch_never_calls_the_transport Concat.fetch transport
                  transport idle (or_introl eq_refl))).
Defined.

Lemma ExchangeC_sends_one_unsigned_request_witness :
  let c := merchant BaseURL (Demo.responding "200 OK" 200 Demo.rates_body) in
  exists req,
    snd (ExchangeC.ListExchangeRates c "USDT" idle)
    = mkWorld [req]
        [fmt_Sprintf "Requesting URL: %s"
           "https://api.cryptomus.com/v1/exchange-rate/USDT/list" +:+ newline]
    /\ Header req = {[ "Accept" := "application/json" ]}
    /\ Header req !! "sign" = None
    /\ Header req !! "merchant" = None.
Proof.
  intros c.
  assert (Hne : strings_TrimSpace TrimFunc_IsSpace TrimRightFunc_IsSpace "USDT" ≠ "")
    by (vm_compute; discriminate).
  destruct (ExchangeC_sends_one_unsigned_request c "USDT" idle Hne) as [_ Hsend].
  destruct (Hsend "https://api.cryptomus.com/v1/exchange-rate/USDT/list"
              (mkRequest "GET" "https://api.cryptomus.com/v1/exchange-rate/USDT/list" ∅ []))
    as (req & Hworld & _ & _ & _ & Hheader).
  - vm_compute. reflexivity.
  - vm_compute. reflexivity.
  - exists req. split; [exact Hworld |]. split; [exact Hheader |].
    rewrite Hheader. split; reflexivity.
Defined.

Lemma main_prints_the_rates_witness :
  let transport := Demo.responding "200 OK" 200 Demo.rates_body in
  let run := main transport ExchangeC.ListExchangeRates transport idle in
  fst run = None
  /\ stdout (snd run)
     = [ "Requesting URL: https://api.cryptomus.com/v1/exchange-rate/USDT/list" +:+ newline;
         "Exchange Rates for USDT:" +:+ newline;
         "1 USDT = 0.000015 BTC" +:+ newline ]
  /\ length (sent (snd run)) = 1%nat.
Proof.
  intros transport run. unfold run.
  rewrite (main_prints_the_rates transport transport idle
             "https://api.cryptomus.com/v1/exchange-rate/USDT/list"
             (mkRequest "GET" "https://api.cryptomus.com/v1/exchange-rate/USDT/list" ∅ [])
             (mkResponse "200 OK" 200 Demo.rates_body) Demo.usdt_btc []).
  - vm_compute. repeat split.
  - vm_compute. reflexivity.
  - vm_compute. reflexivity.
  - reflexivity.
  - reflexivity.
  - vm_compute. reflexivity.
Defined.

(** ** More on the signer *)

Lemma append_not_empty (s t : string) : t ≠ "" -> s +:+ t ≠ "".
Proof.
  intros Ht. destruct s as [| ch s]; [exact Ht | discriminate].
Qed.

(** The signature binds the text [base64(body) ++ key], not the pair of
    body and key: signing body [B] with key [K] gives the signature of the
    empty body under the key [base64(B) ++ K]. *)
Theorem signRequest_does_not_separate_body_from_key (K : string) (B : bytes) :
  K ≠ "" ->
  signRequest (base64_EncodeToString B +:+ K) [] = signRequest K B.
Proof.
  intros HK. unfold signRequest.
  destruct (decide (base64_EncodeToString B +:+ K = "")) as [He | _].
  { destruct (append_not_empty _ _ HK He). }
  destruct (decide (K = "")) as [? | _]; [contradiction |]. reflexivity.
Qed.

Lemma signRequest_does_not_separate_body_from_key_witness :
  signRequest "e30=key" [] = signRequest "key" (bytes_of_string "{}").
Proof.
  assert (Hne : "key" ≠ "") by discriminate.
  exact (signRequest_does_not_separate_body_from_key "key" (bytes_of_string "{}") Hne).
Defined.

Section MoreVerifySignFacts.
Context `{JSONLib}.

(** With the empty key [VerifySign] accepts nothing. *)
Theorem VerifySign_never_accepts_with_empty_key (body : bytes) :
  VerifySign "" body ≠ None.
Proof.
  unfold VerifySign.
  destruct (json_Unmarshal_map body) as [jsonBody |]; [| discriminate].
  destruct (assert_string (gomap_index jsonBody "sign")) as [reqSign [|]];
    cbn [negb]; [| discriminate].
  destruct (json_Marshal_map (gomap_delete jsonBody "sign")); discriminate.
Qed.

(** A body that is not a JSON object is never accepted, whatever the
    key: [null] counts as a body without signature, every other text is
    an unmarshalling error. *)
Theorem VerifySign_rejects_what_is_not_an_object (K : string) (body : bytes) :
  (json_parse body = Some JNull -> VerifySign K body = Some MissingSignatureError)
  /\ ((forall members, json_parse body ≠ Some (JObject members)) ->
      json_parse body ≠ Some JNull ->
      exists err,
        VerifySign K body
        = Some (fmt_Errorf "failed to unmarshal request body: %w" [AErr err])).
Proof.
  unfold VerifySign, json_Unmarshal_map. split.
  - intros ->. reflexivity.
  - intros Hobj Hnull.
    destruct (json_parse body) as [[| b | f | s | l | members] |]; eauto;
      [destruct (Hnull eq_refl) | destruct (Hobj members eq_refl)].
Qed.

Lemma object_to_map_snoc (members : list (string * json float64)) (k : string)
    (v : json float64) :
  object_to_map (members ++ [(k, v)]) = <[k := to_interface v]> (object_to_map members).
Proof. unfold object_to_map. rewrite fold_left_app. reflexivity. Qed.

(** Signing and verifying fit together.  Take any fields, sign the
    serialization of their map without [sign] as [VerifySign] builds it,
    and add the signature as the last member [sign]: the body is
    accepted.  An earlier member [sign] among the fields does not
    matter. *)
Theorem VerifySign_accepts_what_signRequest_signs (K : string) (body : bytes)
    (members : list (string * json float64)) (s : string) :
  signRequest K (bytes_of_string (encode (VMap (delete "sign" (object_to_map members)))))
  = Ok s ->
  json_parse body = Some (JObject (members ++ [("sign", JString s)])) ->
  VerifySign K body = None.
Proof.
  intros Hsign Hparse.
  rewrite (VerifySign_object K body _ Hparse), object_to_map_snoc.
  cbn [to_interface]. rewrite lookup_insert_eq, delete_insert_eq, Hsign.
  destruct (decide (s ≠ s)) as [Hne | _]; [destruct (Hne eq_refl) | reflexivity].
Qed.

(** The verdict does not depend on the order of the fields: two bodies
    whose members, with distinct names, are rearrangements of one another
    get the same answer. *)
Theorem VerifySign_ignores_field_order (K : string) (body body' : bytes)
    (members members' : list (string * json float64)) :
  json_parse body = Some (JObject members) ->
  json_parse body' = Some (JObject members') ->
  members' ≡ₚ members ->
  NoDup members.*1 ->
  VerifySign K body' = VerifySign K body.
Proof.
  intros Hparse Hparse' Hperm Hnd.
  rewrite (VerifySign_object K body members Hparse).
  rewrite (VerifySign_object K body' members' Hparse').
  rewrite (object_to_map_perm members members'); [reflexivity | | assumption].
  symmetry. assumption.
Qed.

(** Whatever is accepted is a JSON object whose [sign] member is a string
    of 32 characters from [0-9a-f]: the comparison is exact, so a
    signature written in upper case is turned down. *)
Theorem VerifySign_accepts_only_lower_case_hex (K : string) (body : bytes) :
  VerifySign K body = None ->
  exists members s,
    json_parse body = Some (JObject members)
    /\ object_to_map members !! "sign" = Some (VString s)
    /\ String.length s = 32%nat
    /\ Forall (fun ch => is_lower_hex ch = true) (list_ascii_of_string s).
Proof.
  intros Hok.
  destruct (json_parse body) as [[| b | f | s0 | l | members] |] eqn:Hparse;
    try (unfold VerifySign, json_Unmarshal_map in Hok; rewrite Hparse in Hok;
         discriminate Hok).
  rewrite (VerifySign_object K body members Hparse) in Hok.
  destruct (object_to_map members !! "sign") as [[| b | f | s | l | m] |] eqn:Hsign;
    try discriminate Hok.
  exists members, s. split; [reflexivity |]. split; [exact Hsign |].
  unfold signRequest in Hok. destruct (decide (K = "")); [discriminate Hok |].
  cbv zeta in Hok.
  destruct (decide (s ≠ _)) as [? | Heq]; [discriminate Hok |].
  apply dec_stable in Heq. subst s. split.
  - rewrite hex_EncodeToString_length, MD5_Sum_length. reflexivity.
  - apply hex_EncodeToString_lower.
Qed.

End MoreVerifySignFacts.

Lemma VerifySign_rejects_what_is_not_an_object_witness :
  exists err,
    VerifySign "key" (bytes_of_string "<html>")
    = Some (fmt_Errorf "failed to unmarshal request body: %w" [AErr err]).
Proof.
  apply (VerifySign_rejects_what_is_not_an_object "key" (bytes_of_string "<html>")).
  - intros members. vm_compute. discriminate.
  - vm_compute. discriminate.
Defined.

Lemma VerifySign_accepts_what_signRequest_signs_witness :
  VerifySign "key" callback_body_sorted_sign = None.
Proof.
  apply (VerifySign_accepts_what_signRequest_signs (H := json_lib) "key"
           callback_body_sorted_sign
           [ ("status", JString "paid"); ("order_id", JString "1") ]
           "ba0c8b99b9e3606cff32e23cca2f8e40").
  - vm_compute. reflexivity.
  - reflexivity.
Defined.

Lemma VerifySign_ignores_field_order_witness :
  VerifySign (H := Demo.json_lib) "key" Demo.reordered_body
  = VerifySign (H := Demo.json_lib) "key" callback_body_sorted_sign.
Proof.
  apply (VerifySign_ignores_field_order (H := Demo.json_lib) "key"
           callback_body_sorted_sign Demo.reordered_body
           Demo.signed_members Demo.reordered_members eq_refl eq_refl).
  - exact (Permutation_rev Demo.reordered_members).
  - apply (bool_decide_unpack _). vm_compute. exact I.
Defined.

Lemma VerifySign_accepts_only_lower_case_hex_witness :
  exists members s,
    json_parse callback_body_sorted_sign = Some (JObject members)
    /\ object_to_map members !! "sign" = Some (VString s)
    /\ String.length s = 32%nat
    /\ Forall (fun ch => is_lower_hex ch = true) (list_ascii_of_string s).
Proof.
  apply (VerifySign_accepts_only_lower_case_hex (H := json_lib) "key").
  vm_compute. reflexivity.
Defined.

(** ** Targets and request bodies *)

Lemma joinURL_keeps_elements_witness :
  joinURL "https://api.cryptomus.com/v1/" "/recurrence/create"
  = Ok "https://api.cryptomus.com/v1/recurrence/create".
Proof.
  rewrite (joinURL_keeps_elements (H := Demo.net_lib)
             "https://api.cryptomus.com/v1/" "/recurrence/create"
             (mkURL "/v1/" "https://api.cryptomus.com") eq_refl).
  - vm_compute. reflexivity.
  - apply Forall_forall. intros x Hx. vm_compute in Hx.
    repeat (apply elem_of_cons in Hx as [-> | Hx]; [split; discriminate |]).
    apply elem_of_nil in Hx. destruct Hx.
  - left. discriminate.
Defined.

Section TargetFacts.
Context `{JSONLib, NetLib}.

Lemma Concat_fetch_target_aux (c : Cryptomus) (method endpoint : string) (p : payload)
    (w w' : World) (r : result Response) (req : Request) :
  Concat.fetch c method endpoint p w = (r, w') ->
  sent w' = sent w ++ [req] ->
  RequestURL req = baseURL c +:+ endpoint.
Proof.
  intros Hrun Hsent. apply (Concat_fetch_dispatch _ _ _ _ _ _ _ _ Hrun Hsent).
Qed.

(** A client made by [New] starts at the production base address, which
    ends in [/v1]; the endpoint of the first two revisions of
    [ListExchangeRates] begins with [/v1] too.  Through the concatenating
    [fetch] every request of theirs therefore goes to a target with
    [/v1/v1]. *)
Theorem New_client_asks_for_rates_under_v1_twice (DefaultClient : http_Client)
    (transport : option http_Client) (merchantID paymentApiKey payoutApiKey : string)
    (w : World) (req : Request) :
  let c := New DefaultClient transport merchantID paymentApiKey payoutApiKey in
  (forall currency,
      sent (snd (ExchangeA.ListExchangeRates Concat.fetch c currency w)) = sent w ++ [req] ->
      RequestURL req
      = "https://api.cryptomus.com/v1/v1/exchange-rate/" +:+ currency +:+ "/list")
  /\ (forall currency,
        sent (snd (ExchangeB.ListExchangeRates Concat.fetch c currency w))
        = sent w ++ [req] ->
        RequestURL req
        = "https://api.cryptomus.com/v1/v1/exchange-rate/"
            +:+ strings_TrimSpace TrimFunc_IsSpace TrimRightFunc_IsSpace currency
            +:+ "/list").
Proof.
  intros c. split.
  - intros currency Hsent. unfold ExchangeA.ListExchangeRates in Hsent.
    destruct (decide (currency = "")) as [? | _].
    { cbn in Hsent. destruct (app_singleton_neq _ _ Hsent). }
    cbv zeta in Hsent. io_unfold.
    destruct (Concat.fetch c "GET" _ PNil w) as [r w'] eqn:Hrun.
    assert (Hw : sent w' = sent w ++ [req]).
    { destruct r as [res | e]; repeat case_match; exact Hsent. }
    rewrite (Concat_fetch_target_aux c "GET" _ PNil w w' r req Hrun Hw). reflexivity.
  - intros currency Hsent. unfold ExchangeB.ListExchangeRates in Hsent.
    cbv zeta in Hsent.
    destruct (decide (strings_TrimSpace _ _ currency = "")) as [? | _].
    { cbn in Hsent. destruct (app_singleton_neq _ _ Hsent). }
    io_unfold.
    destruct (Concat.fetch c "GET" _ PNil w) as [r w'] eqn:Hrun.
    assert (Hw : sent w' = sent w ++ [req]).
    { destruct r as [res | e]; repeat case_match; exact Hsent. }
    rewrite (Concat_fetch_target_aux c "GET" _ PNil w w' r req Hrun Hw). reflexivity.
Qed.

(** [SetBaseURL] moves the target of the requests that follow and leaves
    the identity of the client alone: through the concatenating [fetch]
    the target starts with the new base address, while the [merchant]
    header and the key of the signature are those of the client before
    the change. *)
Theorem SetBaseURL_moves_the_target_only (c : Cryptomus) (newBase method endpoint : string)
    (p : payload) (w w' : World) (r : result Response) (req : Request) :
  Concat.fetch (SetBaseURL c newBase) method endpoint p w = (r, w') ->
  sent w' = sent w ++ [req] ->
  RequestURL req = newBase +:+ endpoint
  /\ Header req !! "merchant" = Some (merchantID c)
  /\ exists sign, signRequest (paymentApiKey c) (Body req) = Ok sign
                  /\ Header req !! "sign" = Some sign.
Proof.
  intros Hrun Hsent.
  destruct (Concat_fetch_dispatch _ _ _ _ _ _ _ _ Hrun Hsent)
    as (_ & Hsign & Hmerchant & _ & _ & Htarget).
  auto.
Qed.

(** The body of a lookup or cancel request names only the identifiers
    that are set, [uuid] before [order_id]. *)
Theorem lookup_body_names_the_set_identifiers (uuid orderId : string) :
  let member name val := json_encodeString name +:+ ":" +:+ json_encodeString val in
  let body := if decide (uuid = "") then
                if decide (orderId = "") then "{}"
                else "{" +:+ member "order_id" orderId +:+ "}"
              else
                if decide (orderId = "") then "{" +:+ member "uuid" uuid +:+ "}"
                else "{" +:+ (member "uuid" uuid +:+ "," +:+ member "order_id" orderId)
                         +:+ "}" in
  json_Marshal (PRecurrenceInfoRequest (mkRecurrenceInfoRequest uuid orderId))
  = Ok (bytes_of_string body)
  /\ json_Marshal (PRecurrenceCancelRequest (mkRecurrenceCancelRequest uuid orderId))
     = Ok (bytes_of_string body).
Proof.
  intros member body. unfold body, member, json_Marshal, encode_struct, omitempty.
  cbn [info_UUID info_OrderId cancel_UUID cancel_OrderId].
  destruct (decide (uuid = "")), (decide (orderId = "")); split; reflexivity.
Qed.

(** The body of a list request is the empty object for the empty cursor
    and an object with the one member [cursor] otherwise. *)
Theorem list_body_holds_the_cursor (cursor : string) :
  let payload : gmap string (value float64) :=
    if decide (cursor ≠ "") then <["cursor" := VString cursor]> ∅ else ∅ in
  json_Marshal (PMap payload)
  = Ok (bytes_of_string
          (if decide (cursor = "") then "{}"
           else "{" +:+ (json_encodeString "cursor" +:+ ":" +:+ json_encodeString cursor)
                    +:+ "}")).
Proof.
  intros payload. unfold payload, json_Marshal.
  destruct (decide (cursor ≠ "")) as [Hne | He]; destruct (decide (cursor = "")) as [? | ?];
    try contradiction.
  - cbn [encode]. unfold sorted_entries.
    change (<["cursor" := VString cursor]> ∅)
      with ({[ "cursor" := VString cursor ]} : gmap string (value float64)).
    rewrite map_fmap_singleton, map_to_list_singleton. reflexivity.
  - cbn [encode]. unfold sorted_entries. rewrite fmap_empty, map_to_list_empty.
    reflexivity.
Qed.

End TargetFacts.

(** ** The joined path has no doubled separator *)

Lemma slash_free_rev_app (a b : string) :
  slash_free (String.rev_app a b) = slash_free a && slash_free b.
Proof.
  revert b. induction a as [| ch a IH]; intros b; [reflexivity |].
  cbn [String.rev_app slash_free]. rewrite IH. cbn [slash_free].
  destruct (decide (ch = "/"%char)); [apply andb_false_r | reflexivity].
Qed.

Lemma split_slash_go_slash_free (cur s : string) :
  slash_free cur = true ->
  Forall (fun e => slash_free e = true) (split_slash_go cur s).
Proof.
  revert cur. induction s as [| ch s IH]; intros cur Hcur; cbn [split_slash_go].
  - constructor; [| constructor]. unfold String.rev. rewrite slash_free_rev_app, Hcur.
    reflexivity.
  - destruct (decide (ch = "/"%char)) as [-> | Hne].
    + constructor; [| apply IH; reflexivity].
      unfold String.rev. rewrite slash_free_rev_app, Hcur. reflexivity.
    + apply IH. cbn [slash_free]. destruct (decide (ch = "/"%char)); [contradiction |].
      exact Hcur.
Qed.

Lemma clean_elems_keeps (isRooted : bool) (stack elems : list string) :
  Forall (fun e => e ≠ "" /\ slash_free e = true) stack ->
  Forall (fun e => slash_free e = true) elems ->
  Forall (fun e => e ≠ "" /\ slash_free e = true) (clean_elems isRooted stack elems).
Proof.
  revert stack. induction elems as [| e rest IH]; intros stack Hstack Helems.
  - cbn [clean_elems]. apply Forall_reverse. exact Hstack.
  - apply Forall_cons in Helems as [He Hrest]. cbn [clean_elems].
    destruct (decide (e = "")) as [-> | Hne]; [apply IH; assumption |].
    destruct (decide (e = ".")); [apply IH; assumption |].
    assert (Hpush : Forall (fun e => e ≠ "" /\ slash_free e = true) (e :: stack))
      by (constructor; [split |]; assumption).
    destruct (decide (e = "..")); [| apply IH; assumption].
    destruct stack as [| top below].
    + destruct isRooted; apply IH; assumption.
    + destruct (decide (top = "..")); [apply IH; assumption |].
      apply IH; [| assumption]. apply Forall_cons in Hstack as [_ Hbelow]. exact Hbelow.
Qed.

Lemma no_double_slash_app (e s : string) :
  slash_free e = true -> no_double_slash s = true -> no_double_slash (e +:+ s) = true.
Proof.
  intros He Hs. induction e as [| a e IH]; [exact Hs |].
  cbn [slash_free] in He. destruct (decide (a = "/"%char)) as [? | Ha]; [discriminate |].
  change (String a e +:+ s) with (String a (e +:+ s)). cbn [no_double_slash].
  destruct (e +:+ s) as [| b t] eqn:Heq; [reflexivity |].
  destruct (decide (a = "/"%char /\ b = "/"%char)) as [[? _] | _]; [contradiction |].
  apply IH. exact He.
Qed.

Lemma no_double_slash_root (t : string) :
  rooted t = false -> no_double_slash t = true -> no_double_slash (String "/" t) = true.
Proof.
  intros Hroot Ht. cbn [no_double_slash]. destruct t as [| b t']; [reflexivity |].
  destruct (decide ("/"%char = "/"%char /\ b = "/"%char)) as [[_ ->] | _];
    [discriminate Hroot | exact Ht].
Qed.

Lemma rooted_slash_free (e s : string) :
  e ≠ "" -> slash_free e = true -> rooted (e +:+ s) = false.
Proof.
  intros Hne He. destruct e as [| a e]; [contradiction |].
  cbn [slash_free] in He. destruct (decide (a = "/"%char)) as [? | Ha]; [discriminate |].
  change (String a e +:+ s) with (String a (e +:+ s)). cbn [rooted].
  destruct a as [[] [] [] [] [] [] [] []]; try reflexivity. destruct (Ha eq_refl).
Qed.

Lemma strings_Join_no_double_slash (elems : list string) :
  Forall (fun e => e ≠ "" /\ slash_free e = true) elems ->
  no_double_slash (strings_Join elems "/") = true
  /\ rooted (strings_Join elems "/") = false.
Proof.
  induction elems as [| e rest IH]; intros Hall; [split; reflexivity |].
  apply Forall_cons in Hall as [[Hne He] Hrest]. destruct (IH Hrest) as [IHn IHr].
  destruct rest as [| e' rest'].
  - cbn [strings_Join]. split.
    + rewrite <- (append_empty_r e). apply no_double_slash_app; [exact He | reflexivity].
    + rewrite <- (append_empty_r e). apply rooted_slash_free; assumption.
  - change (strings_Join (e :: e' :: rest') "/")
      with (e +:+ String "/" (strings_Join (e' :: rest') "/")).
    split.
    + apply no_double_slash_app; [exact He |]. apply no_double_slash_root; assumption.
    + apply rooted_slash_free; assumption.
Qed.

Lemma path_Clean_no_double_slash (p : string) : no_double_slash (path_Clean p) = true.
Proof.
  unfold path_Clean.
  pose proof (clean_elems_keeps (rooted p) [] (split_slash p) (Forall_nil_2 _)
                (split_slash_go_slash_free "" p eq_refl)) as Hkept.
  destruct (strings_Join_no_double_slash _ Hkept) as [Hn Hr].
  cbv zeta. destruct (decide _) as [_ | _]; [reflexivity |].
  destruct (rooted p); [apply no_double_slash_root; assumption | exact Hn].
Qed.

(** Whatever the base address and the endpoint are, the path that
    [joinURL] gives to the target has no two slashes in a row. *)
Theorem joinURL_path_has_no_doubled_separator `{NetLib} (base endpoint target : string) :
  joinURL base endpoint = Ok target ->
  exists u path,
    url_Parse base = Ok u
    /\ path = path_Join [Path u; endpoint]
    /\ no_double_slash path = true
    /\ target = URL_String (mkURL path (url_other u)).
Proof.
  unfold joinURL. intros Hjoin.
  destruct (url_Parse base) as [u | e]; [| discriminate Hjoin].
  injection Hjoin as <-. exists u, (path_Join [Path u; endpoint]).
  split; [reflexivity |]. split; [reflexivity |]. split; [| reflexivity].
  unfold path_Join. destruct (filter _ _); [reflexivity | apply path_Clean_no_double_slash].
Qed.

Lemma joinURL_path_has_no_doubled_separator_witness :
  exists path,
    path = path_Join ["/v1//"; "//v1/exchange-rate/../../../list"]
    /\ no_double_slash path = true
    /\ joinURL (H := Demo.net_lib) "https://api.cryptomus.com/v1//"
         "//v1/exchange-rate/../../../list"
       = Ok ("https://api.cryptomus.com" +:+ path).
Proof.
  destruct (joinURL_path_has_no_doubled_separator (H := Demo.net_lib)
              "https://api.cryptomus.com/v1//" "//v1/exchange-rate/../../../list"
              "https://api.cryptomus.com/list" ltac:(vm_compute; reflexivity))
    as (u & path & Hparse & Hpath & Hclean & _).
  vm_compute in Hparse. injection Hparse as <-. cbn [Path] in Hpath.
  exists path. split; [exact Hpath |]. split; [exact Hclean |].
  rewrite Hpath. vm_compute. reflexivity.
Defined.

(** ** White space around the currency *)

Lemma string_app_assoc (x y z : string) : (x +:+ y) +:+ z = x +:+ (y +:+ z).
Proof.
  induction x as [| ch x IH]; [reflexivity |].
  change (String ch ((x +:+ y) +:+ z) = String ch (x +:+ (y +:+ z))). rewrite IH.
  reflexivity.
Qed.

Lemma rev_app_spec (s acc : string) : String.rev_app s acc = String.rev s +:+ acc.
Proof.
  revert acc. induction s as [| ch s IH]; intros acc; [reflexivity |].
  unfold String.rev. cbn [String.rev_app].
  rewrite (IH (String ch acc)), (IH (String ch "")), string_app_assoc. reflexivity.
Qed.

Lemma rev_app_app (x y acc : string) :
  String.rev_app (x +:+ y) acc = String.rev_app y (String.rev_app x acc).
Proof.
  revert acc. induction x as [| ch x IH]; intros acc; [reflexivity |].
  change (String ch x +:+ y) with (String ch (x +:+ y)). cbn [String.rev_app].
  apply IH.
Qed.

Lemma rev_app_distr (x y : string) : String.rev (x +:+ y) = String.rev y +:+ String.rev x.
Proof.
  unfold String.rev at 1. rewrite rev_app_app, rev_app_spec. reflexivity.
Qed.

Lemma rev_involutive (s : string) : String.rev (String.rev s) = s.
Proof.
  induction s as [| ch s IH]; [reflexivity |].
  change (String ch s) with (String ch "" +:+ s) at 1.
  rewrite rev_app_distr, rev_app_distr, IH. reflexivity.
Qed.

Lemma white_rev (s : string) : white s -> white (String.rev s).
Proof.
  unfold white. induction s as [| ch s IH]; intros Hs; [constructor |].
  cbn [list_ascii_of_string] in Hs. apply Forall_cons in Hs as [Hch Hs].
  change (String ch s) with (String ch "" +:+ s). rewrite rev_app_distr.
  specialize (IH Hs). revert IH. generalize (String.rev s). intros r Hr.
  induction r as [| a r IHr]; cbn [list_ascii_of_string] in *.
  - constructor; [exact Hch | constructor].
  - apply Forall_cons in Hr as [Ha Hr].
    change (String a r +:+ String.rev (String ch ""))
      with (String a (r +:+ String.rev (String ch ""))).
    cbn [list_ascii_of_string]. constructor; [exact Ha | apply IHr, Hr].
Qed.

Lemma TrimSpace_start_skips_white (pre t : string) :
  white pre -> TrimSpace_start (pre +:+ t) = TrimSpace_start t.
Proof.
  unfold white. induction pre as [| ch pre IH]; intros Hpre; [reflexivity |].
  cbn [list_ascii_of_string] in Hpre. apply Forall_cons in Hpre as [Hch Hpre].
  change (String ch pre +:+ t) with (String ch (pre +:+ t)). cbn [TrimSpace_start].
  assert (Hascii : (128 <=? code ch) = false).
  { destruct ch as [[] [] [] [] [] [] [] []]; try discriminate Hch; reflexivity. }
  rewrite Hascii, Hch. apply IH, Hpre.
Qed.

Lemma TrimSpace_start_stops (a : ascii) (t : string) :
  edge_char a -> TrimSpace_start (String a t) = (String a t, false).
Proof.
  intros [Hascii Hspace]. cbn [TrimSpace_start].
  destruct (128 <=? code a) eqn:Hcmp; [apply Z.leb_le in Hcmp; lia |].
  rewrite Hspace. reflexivity.
Qed.

(** [strings.TrimSpace] on a text that begins and ends with an ASCII
    character other than white space, wrapped in ASCII white space: the
    text comes back, whatever the library does outside ASCII. *)
Lemma strings_TrimSpace_strips (trim trimRight : string -> string)
    (pre post mid : string) (a b : ascii) :
  white pre -> white post -> edge_char a -> edge_char b ->
  strings_TrimSpace trim trimRight
    (pre +:+ String a (mid +:+ String b "") +:+ post)
  = String a (mid +:+ String b "").
Proof.
  intros Hpre Hpost Ha Hb. unfold strings_TrimSpace.
  rewrite (TrimSpace_start_skips_white pre _ Hpre).
  change (String a (mid +:+ String b "") +:+ post)
    with (String a ((mid +:+ String b "") +:+ post)).
  rewrite (TrimSpace_start_stops a _ Ha).
  change (String a ((mid +:+ String b "") +:+ post))
    with (String a (mid +:+ String b "") +:+ post).
  set (core := String a (mid +:+ String b "")).
  rewrite rev_app_distr, (TrimSpace_start_skips_white _ _ (white_rev post Hpost)).
  assert (Hrev : String.rev core = String b (String.rev mid +:+ String a "")).
  { unfold core. change (String a (mid +:+ String b ""))
      with (String a "" +:+ (mid +:+ String b "")).
    rewrite !rev_app_distr, string_app_assoc. reflexivity. }
  rewrite Hrev, (TrimSpace_start_stops b _ Hb), <- Hrev. apply rev_involutive.
Qed.

Section WhiteSpaceFacts.
Context `{JSONLib, NetLib}.
Variable fetch : Cryptomus -> string -> string -> payload -> IO (result Response).

(** The two trimming revisions of [ListExchangeRates] do not see ASCII
    white space around the currency: a currency that begins and ends with
    an ASCII character other than white space is handled in the same way
    with and without white space around it. *)
Theorem ListExchangeRates_ignores_surrounding_white_space (c : Cryptomus) (w : World)
    (pre post mid : string) (a b : ascii) :
  white pre -> white post -> edge_char a -> edge_char b ->
  let currency := String a (mid +:+ String b "") in
  ExchangeB.ListExchangeRates fetch c (pre +:+ currency +:+ post) w
  = ExchangeB.ListExchangeRates fetch c currency w
  /\ ExchangeC.ListExchangeRates c (pre +:+ currency +:+ post) w
     = ExchangeC.ListExchangeRates c currency w.
Proof.
  intros Hpre Hpost Ha Hb currency.
  pose proof (strings_TrimSpace_strips TrimFunc_IsSpace TrimRightFunc_IsSpace
                pre post mid a b Hpre Hpost Ha Hb) as Hpadded.
  pose proof (strings_TrimSpace_strips TrimFunc_IsSpace TrimRightFunc_IsSpace
                "" "" mid a b (Forall_nil_2 _) (Forall_nil_2 _) Ha Hb) as Hbare.
  change ("" +:+ String a (mid +:+ String b "") +:+ "")
    with (String a (mid +:+ String b "") +:+ "") in Hbare.
  rewrite append_empty_r in Hbare. fold currency in Hpadded, Hbare.
  unfold ExchangeB.ListExchangeRates, ExchangeC.ListExchangeRates.
  rewrite Hpadded, Hbare. split; reflexivity.
Qed.

End WhiteSpaceFacts.

Lemma ListExchangeRates_ignores_surrounding_white_space_witness :
  let c := merchant BaseURL (Demo.responding "200 OK" 200 Demo.rates_body) in
  ExchangeB.ListExchangeRates Concat.fetch c "  USDT " idle
  = ExchangeB.ListExchangeRates Concat.fetch c "USDT" idle.
Proof.
  intros c.
  assert (Hwhite2 : white "  ") by (repeat constructor).
  assert (Hwhite1 : white " ") by (repeat constructor).
  assert (HU : edge_char "U") by (split; [vm_compute |]; reflexivity).
  assert (HT : edge_char "T") by (split; [vm_compute |]; reflexivity).
  exact (proj1 (ListExchangeRates_ignores_surrounding_white_space Concat.fetch c idle
                  "  " " " "SD" "U" "T" Hwhite2 Hwhite1 HU HT)).
Defined.

Lemma New_client_asks_for_rates_under_v1_twice_witness :
  let c := New (Demo.responding "200 OK" 200 Demo.rates_body) None "merchant-1" "k" "" in
  exists req,
    sent (snd (ExchangeB.ListExchangeRates Concat.fetch c "USDT" idle)) = sent idle ++ [req]
    /\ RequestURL req = "https://api.cryptomus.com/v1/v1/exchange-rate/USDT/list".
Proof.
  intros c.
  set (run := ExchangeB.ListExchangeRates Concat.fetch c "USDT" idle).
  set (req := hd (mkRequest "" "" ∅ []) (sent (snd run))).
  assert (Hsent : sent (snd run) = sent idle ++ [req]) by (vm_compute; reflexivity).
  exists req. split; [exact Hsent |].
  rewrite (proj2 (New_client_asks_for_rates_under_v1_twice
                    (Demo.responding "200 OK" 200 Demo.rates_body) None "merchant-1" "k" ""
                    idle req) "USDT" Hsent).
  vm_compute. reflexivity.
Defined.

Lemma SetBaseURL_moves_the_target_only_witness :
  let c := merchant BaseURL (Demo.responding "200 OK" 200 Demo.list_body) in
  let run := Concat.fetch (SetBaseURL c "http://localhost:8080") "POST"
               recurrenceListEndpoint (PMap ∅) idle in
  exists req,
    sent (snd run) = sent idle ++ [req]
    /\ RequestURL req = "http://localhost:8080/recurrence/list"
    /\ Header req !! "merchant" = Some "merchant-1".
Proof.
  intros c run.
  set (req := hd (mkRequest "" "" ∅ []) (sent (snd run))).
  assert (Hsent : sent (snd run) = sent idle ++ [req]) by (vm_compute; reflexivity).
  destruct (SetBaseURL_moves_the_target_only c "http://localhost:8080" "POST"
              recurrenceListEndpoint (PMap ∅) idle (snd run) (fst run) req
              (surjective_pairing run) Hsent) as (Htarget & Hmerchant & _).
  exists req. split; [exact Hsent |]. split; [rewrite Htarget; reflexivity | exact Hmerchant].
Defined.

Lemma empty_result_is_rejected_witness :
  let c := merchant BaseURL (Demo.responding "200 OK" 200 Demo.message_body) in
  let recReq := mkRecurrenceRequest "10" "USD" "plan" "monthly" "" "" "" None "" "" in
  fst (CreateRecurrence Joined.fetch c (Some recReq) idle) = Err EmptyResultError.
Proof.
  intros c recReq.
  set (res := mkResponse "200 OK" 200 Demo.message_body).
  set (run := Joined.fetch c "POST" createRecurrenceEndpoint (PRecurrenceRequest recReq) idle).
  assert (Hfetch : run = (Ok res, snd run)) by (vm_compute; reflexivity).
  destruct (empty_result_is_rejected Joined.fetch c idle (snd run) res eq_refl)
    as (Hcreate & _).
  rewrite (Hcreate recReq Hfetch).
  - reflexivity.
  - vm_compute. reflexivity.
Defined.
